(** * Solana bounty SDK: escrow gateway, signature check and claim pipeline

    A shallow embedding of the TypeScript sources of the bounty SDK
    ([utils/helpers.ts], [utils/crypto.ts], [core/schemas.ts],
    [core/SecurityValidator.ts], [core/BountyManager.ts],
    [providers/payment/SolanaProvider.ts], [providers/issue/GithubProvider.ts])
    together with the properties the specification states about them.

    Conventions.
    - A JavaScript [string] is modelled by the [string] of its UTF-8 bytes
      (what [Buffer.from(s)] yields); every literal of the sources is ASCII.
    - A [Buffer] is a list of integers, each in [0, 256).
    - A JavaScript [number] or [bigint] holding an integer is a [Z].
    - A call that may throw returns an [outcome]; an [async] method that
      talks to the outside world is a step on an abstract world state, and
      every such step is recorded, with its response, in a trace. *)

From Stdlib Require Import ZArith Lia List String Ascii Bool DecimalString.
From stdpp Require Import base gmap strings list.

Local Open Scope Z_scope.

(* ===================================================================== *)
(** * Results of calls that may throw *)
(* ===================================================================== *)

Inductive outcome (A : Type) : Type :=
| Returned (value : A)
| Thrown (message : string).

Arguments Returned {A} value.
Arguments Thrown {A} message.

Definition returned {A} (o : outcome A) : bool :=
  match o with Returned _ => true | Thrown _ => false end.

(** Characters that cannot be written inside a literal. *)
Definition LF : string := String (ascii_of_nat 10) EmptyString.
Definition DQ : string := String (ascii_of_nat 34) EmptyString.

(* ===================================================================== *)
(** * Buffers and little-endian integers *)
(* ===================================================================== *)

Definition Buffer := list Z.

Definition is_byte (b : Z) : Prop := 0 <= b < 256.
Definition is_bytes (bs : Buffer) : Prop := Forall is_byte bs.

(** [Buffer.from(array)]: every element is stored modulo 256. *)
Definition Buffer_from_array (elems : list Z) : Buffer :=
  map (fun e => e mod 256) elems.

(** [Buffer.from(text)] for a string given by its UTF-8 bytes. *)
Definition Buffer_from_string (s : string) : Buffer :=
  map (fun a => Z.of_N (N_of_ascii a)) (list_ascii_of_string s).

(** The [width] low bytes of [v], least significant first. *)
Fixpoint le_bytes (width : nat) (v : Z) : Buffer :=
  match width with
  | O => []
  | S k => v mod 256 :: le_bytes k (v / 256)
  end.

(** The unsigned integer a little-endian byte sequence denotes. *)
Fixpoint le_value (bs : Buffer) : Z :=
  match bs with
  | [] => 0
  | b :: rest => b + 256 * le_value rest
  end.

Definition U64_LIMIT : Z := 2 ^ 64.

Module Helpers.

(** [numberToLeBytes]: [buffer.writeBigUInt64LE(BigInt(num))] on a fresh
    8-byte buffer; Node raises a range error outside [0, 2^64). *)
Definition numberToLeBytes (num : Z) : outcome Buffer :=
  if (0 <=? num) && (num <? U64_LIMIT)
  then Returned (le_bytes 8 num)
  else Thrown "ERR_OUT_OF_RANGE".

End Helpers.

(* ===================================================================== *)
(** * Borsh schemas of the two instructions ([core/schemas.ts]) *)
(* ===================================================================== *)

Module Borsh.

(** The two field types the schemas use: [[32]] and ["u64"]. *)
Inductive FieldType : Type :=
| FixedArray (len : nat)
| U64.

Inductive FieldValue : Type :=
| VArray (elems : list Z)
| VBigInt (v : Z).

Definition StructSchema := list (string * FieldType).

(** [BinaryWriter.writeU64]: [new BN(value).toArray('le', 8)]; bn.js
    writes the magnitude and asserts that it fits in eight bytes. *)
Definition writeU64 (v : Z) : outcome Buffer :=
  if Z.abs v <? U64_LIMIT
  then Returned (le_bytes 8 (Z.abs v))
  else Thrown "byte array longer than desired length".

(** [serializeField] for the two field types. *)
Definition serializeField (ty : FieldType) (v : option FieldValue)
  : outcome Buffer :=
  match ty, v with
  | FixedArray len, Some (VArray elems) =>
      if Nat.eqb (length elems) len
      then Returned (Buffer_from_array elems)
      else Thrown "Expecting byte array of different length"
  | U64, Some (VBigInt n) => writeU64 n
  | _, _ => Thrown "unexpected field value"
  end.

(** [serializeStruct]: the fields are written in schema order, each read
    from the object by name. *)
Fixpoint serializeStruct (fields : StructSchema)
         (obj : string -> option FieldValue) : outcome Buffer :=
  match fields with
  | [] => Returned []
  | (name, ty) :: rest =>
      match serializeField ty (obj name) with
      | Thrown m => Thrown m
      | Returned bs =>
          match serializeStruct rest obj with
          | Thrown m => Thrown m
          | Returned tail => Returned (bs ++ tail)
          end
      end
  end.

End Borsh.

Module Schemas.
Import Borsh.

Record CreateEscrowInstruction : Type := {
  ce_repo_hash : list Z;
  ce_issue_number : Z;
  ce_amount : Z
}.

Definition CreateEscrowSchema : StructSchema :=
  [("repo_hash", FixedArray 32); ("issue_number", U64); ("amount", U64)].

Definition CreateEscrow_field (i : CreateEscrowInstruction) (name : string)
  : option FieldValue :=
  if String.eqb name "repo_hash" then Some (VArray (ce_repo_hash i))
  else if String.eqb name "issue_number" then Some (VBigInt (ce_issue_number i))
  else if String.eqb name "amount" then Some (VBigInt (ce_amount i))
  else None.

Record ReleaseEscrowInstruction : Type := {
  re_repo_hash : list Z;
  re_issue_number : Z
}.

Definition ReleaseEscrowSchema : StructSchema :=
  [("repo_hash", FixedArray 32); ("issue_number", U64)].

Definition ReleaseEscrow_field (i : ReleaseEscrowInstruction) (name : string)
  : option FieldValue :=
  if String.eqb name "repo_hash" then Some (VArray (re_repo_hash i))
  else if String.eqb name "issue_number" then Some (VBigInt (re_issue_number i))
  else None.

Inductive InstructionDiscriminator : Type :=
| CreateEscrow
| ReleaseEscrow.

Definition discriminator_value (d : InstructionDiscriminator) : Z :=
  match d with
  | CreateEscrow => 0
  | ReleaseEscrow => 1
  end.

(** The instruction data of [createEscrow]:
    [Buffer.concat([Buffer.from([CreateEscrow]), Buffer.from(serialize(..))])]. *)
Definition encodeCreateEscrow (i : CreateEscrowInstruction) : outcome Buffer :=
  match serializeStruct CreateEscrowSchema (CreateEscrow_field i) with
  | Thrown m => Thrown m
  | Returned instructionData =>
      Returned (Buffer_from_array [discriminator_value CreateEscrow]
                ++ instructionData)
  end.

(** The instruction data of [releaseEscrow]. *)
Definition encodeReleaseEscrow (i : ReleaseEscrowInstruction) : outcome Buffer :=
  match serializeStruct ReleaseEscrowSchema (ReleaseEscrow_field i) with
  | Thrown m => Thrown m
  | Returned instructionData =>
      Returned (Buffer_from_array [discriminator_value ReleaseEscrow]
                ++ instructionData)
  end.

(** A record as the wire format types it: 32 bytes and unsigned 64-bit
    integers. *)
Definition is_u64 (v : Z) : Prop := 0 <= v < U64_LIMIT.

Definition wf_create (i : CreateEscrowInstruction) : Prop :=
  length (ce_repo_hash i) = 32%nat /\ is_bytes (ce_repo_hash i) /\
  is_u64 (ce_issue_number i) /\ is_u64 (ce_amount i).

Definition wf_release (i : ReleaseEscrowInstruction) : Prop :=
  length (re_repo_hash i) = 32%nat /\ is_bytes (re_repo_hash i) /\
  is_u64 (re_issue_number i).

End Schemas.


(* ===================================================================== *)
(** * Effects: world steps, exceptions and the trace of external calls *)
(* ===================================================================== *)

Section Effects.
Context {W Ev : Type}.

(** A computation steps the world, may throw, and extends the trace. *)
Definition Eff (A : Type) : Type := W * list Ev -> outcome A * (W * list Ev).

Definition ret {A} (a : A) : Eff A := fun s => (Returned a, s).

Definition throw {A} (message : string) : Eff A := fun s => (Thrown message, s).

Definition bind {A B} (m : Eff A) (k : A -> Eff B) : Eff B :=
  fun s =>
    match m s with
    | (Returned a, s') => k a s'
    | (Thrown e, s') => (Thrown e, s')
    end.

(** A synchronous call that may throw. *)
Definition lift {A} (o : outcome A) : Eff A := fun s => (o, s).

(** [try { m } catch (error) { .. }]: the exception becomes a value. *)
Definition attempt {A} (m : Eff A) : Eff (outcome A) :=
  fun s => let (r, s') := m s in (Returned r, s').

(** An awaited call to the outside world; the trace records the call with
    its response. *)
Definition external {A} (op : W -> outcome A * W) (ev : outcome A -> Ev) : Eff A :=
  fun s =>
    let (r, w') := op (fst s) in
    (r, (w', snd s ++ [ev r])).

(** A library call kept in the trace although it leaves the world alone. *)
Definition logged {A} (o : outcome A) (ev : outcome A -> Ev) : Eff A :=
  fun s => (o, (fst s, snd s ++ [ev o])).

(** [for (const x of xs) await body(x)]. *)
Fixpoint for_each {A} (xs : list A) (body : A -> Eff unit) : Eff unit :=
  match xs with
  | [] => ret tt
  | x :: rest => bind (body x) (fun _ => for_each rest body)
  end.

(** Running from a world with an empty trace. *)
Definition run {A} (m : Eff A) (w : W) : outcome A * (W * list Ev) := m (w, []).

Definition result_of {A} (x : outcome A * (W * list Ev)) : outcome A := fst x.
Definition world_of {A} (x : outcome A * (W * list Ev)) : W := fst (snd x).
Definition trace_of {A} (x : outcome A * (W * list Ev)) : list Ev := snd (snd x).

End Effects.

Notation "'let!' x ':=' m 'in' k" := (bind m (fun x => k))
  (at level 10, x pattern, m at level 100, k at level 200).

(* ===================================================================== *)
(** * Signature verification ([utils/crypto.ts]) *)
(* ===================================================================== *)

(** Node's [crypto] module, as far as the sources use it. *)
Class NodeCrypto : Type := {
  (** [createHash("sha256").update(text).digest()] *)
  sha256_digest : string -> Buffer;
  (** [createHmac("sha256", secret).update(body).digest("hex")] *)
  hmac_sha256_hex : string -> Buffer -> string;
  (** a SHA-256 digest in hexadecimal has 64 characters *)
  hmac_sha256_hex_length :
    forall secret body, String.length (hmac_sha256_hex secret body) = 64%nat
}.

Module Crypto.

Inductive CryptoEvent : Type :=
| EvHmac (secret : string) (body : Buffer)
| EvTimingSafeEqual (a b : Buffer).

(** [crypto.timingSafeEqual]: a range error unless both buffers have the
    same byte length. *)
Definition timingSafeEqual (a b : Buffer) : outcome bool :=
  if Nat.eqb (length a) (length b)
  then Returned (bool_decide (a = b))
  else Thrown "Input buffers must have the same byte length".


(** [!s] for a string. *)
Definition falsy_string (s : string) : bool :=
  match s with EmptyString => true | String _ _ => false end.

Section WithCrypto.
Context `{NodeCrypto}.

Definition getRepositoryHash (repoFullName : string) : Buffer :=
  sha256_digest repoFullName.

(** [verifyGitHubSignature], with the crypto calls it makes. *)
Definition verifyGitHubSignature (body : Buffer) (signature secret : string)
  : list CryptoEvent * outcome bool :=
  if falsy_string signature || falsy_string secret then ([], Returned false)
  else
    let digest := hmac_sha256_hex secret body in
    let expected := "sha256=" +:+ digest in
    let a := Buffer_from_string signature in
    let b := Buffer_from_string expected in
    ([EvHmac secret body; EvTimingSafeEqual a b], timingSafeEqual a b).

(** The header GitHub sends: [sha256=] followed by the hexadecimal
    HMAC-SHA256 of the payload under the secret. *)
Definition sign (payload : Buffer) (secret : string) : string :=
  "sha256=" +:+ hmac_sha256_hex secret payload.


End WithCrypto.

End Crypto.

(* ===================================================================== *)
(** * Shared data types ([core/types.ts]) *)
(* ===================================================================== *)

(** A [PublicKey] is the unsigned integer of its 32 bytes. *)
Definition PublicKey := Z.

Record TransactionResult : Type := {
  signature : string;
  explorerUrl : string
}.

(* ===================================================================== *)
(** * The escrow gateway ([providers/payment/SolanaProvider.ts]) *)
(* ===================================================================== *)

Record AccountMeta : Type := {
  pubkey : PublicKey;
  isSigner : bool;
  isWritable : bool
}.

Record TransactionInstruction : Type := {
  keys : list AccountMeta;
  ti_programId : PublicKey;
  data : Buffer
}.

(** [new Transaction().add(instruction)]: the instructions in order. *)
Definition Transaction := list TransactionInstruction.

Record Keypair : Type := { publicKey : PublicKey }.

(** What [getAccountInfo] returns for an existing account. *)
Record AccountInfo : Type := {
  lamports : Z;
  owner : PublicKey
}.

(** [@solana/web3.js], as far as the gateway uses it: the pure derivation
    of program addresses and the RPC connection to the ledger [W]. *)
Class Web3 (W : Type) : Type := {
  findProgramAddressSync : list Buffer -> PublicKey -> outcome (PublicKey * Z);
  SystemProgram_programId : PublicKey;
  getAccountInfo : PublicKey -> W -> outcome (option AccountInfo) * W;
  sendTransaction : Transaction -> list Keypair -> W -> outcome string * W;
  confirmTransaction : string -> W -> outcome unit * W
}.

Module SolanaProvider.
Import Schemas.

Inductive ChainEvent : Type :=
| EvGetAccountInfo (address : PublicKey) (r : outcome (option AccountInfo))
| EvSerialize (r : outcome Buffer)
| EvSendTransaction (tx : Transaction) (signers : list Keypair) (r : outcome string)
| EvConfirmTransaction (sig : string) (r : outcome unit).

(** The fields of the provider object. *)
Record t : Type := {
  payer : Keypair;
  programId : PublicKey;
  network : string
}.

Definition getExplorerUrl (this : t) (sig : string) : string :=
  let cluster :=
    if String.eqb (network this) "mainnet-beta" then EmptyString
    else "?cluster=" +:+ network this in
  "https://explorer.solana.com/tx/" +:+ sig +:+ cluster.

Section WithLedger.
Context {W : Type} `{Web3 W}.

Definition createEscrow (this : t) (issueNumber : Z) (repositoryHash : Buffer)
  (amount : Z) : Eff (W:=W) (Ev:=ChainEvent) TransactionResult :=
  (* Derive PDA *)
  let! issueSeed := lift (Helpers.numberToLeBytes issueNumber) in
  let! found := lift (findProgramAddressSync
                        [Buffer_from_string "escrow"; repositoryHash; issueSeed]
                        (programId this)) in
  let escrowPda := fst found in
  (* Check if escrow already exists *)
  let! accountInfo := external (getAccountInfo escrowPda) (EvGetAccountInfo escrowPda) in
  match accountInfo with
  | Some _ => throw "Escrow already exists for this issue"
  | None =>
      (* Create instruction with Borsh *)
      let createInstruction :=
        {| ce_repo_hash := repositoryHash;
           ce_issue_number := issueNumber;
           ce_amount := amount |} in
      let! data := logged (encodeCreateEscrow createInstruction) EvSerialize in
      (* Build transaction *)
      let instruction :=
        {| keys := [ {| pubkey := publicKey (payer this); isSigner := true; isWritable := true |};
                     {| pubkey := escrowPda; isSigner := false; isWritable := true |};
                     {| pubkey := SystemProgram_programId; isSigner := false; isWritable := false |} ];
           ti_programId := programId this;
           data := data |} in
      let transaction := [instruction] in
      let! sig := external (sendTransaction transaction [payer this])
                           (EvSendTransaction transaction [payer this]) in
      let! _ := external (confirmTransaction sig) (EvConfirmTransaction sig) in
      ret {| signature := sig; explorerUrl := getExplorerUrl this sig |}
  end.

Definition releaseEscrow (this : t) (issueNumber : Z) (repositoryHash : Buffer)
  (recipient : PublicKey) : Eff (W:=W) (Ev:=ChainEvent) TransactionResult :=
  (* Derive PDA *)
  let! issueSeed := lift (Helpers.numberToLeBytes issueNumber) in
  let! found := lift (findProgramAddressSync
                        [Buffer_from_string "escrow"; repositoryHash; issueSeed]
                        (programId this)) in
  let escrowPda := fst found in
  (* Verify escrow exists *)
  let! accountInfo := external (getAccountInfo escrowPda) (EvGetAccountInfo escrowPda) in
  match accountInfo with
  | None => throw "Escrow does not exist for this issue"
  | Some _ =>
      (* Create instruction with Borsh *)
      let releaseInstruction :=
        {| re_repo_hash := repositoryHash;
           re_issue_number := issueNumber |} in
      let! data := logged (encodeReleaseEscrow releaseInstruction) EvSerialize in
      (* Build transaction *)
      let instruction :=
        {| keys := [ {| pubkey := escrowPda; isSigner := false; isWritable := true |};
                     {| pubkey := recipient; isSigner := false; isWritable := true |};
                     {| pubkey := publicKey (payer this); isSigner := true; isWritable := true |} ];
           ti_programId := programId this;
           data := data |} in
      let transaction := [instruction] in
      let! sig := external (sendTransaction transaction [payer this])
                           (EvSendTransaction transaction [payer this]) in
      let! _ := external (confirmTransaction sig) (EvConfirmTransaction sig) in
      ret {| signature := sig; explorerUrl := getExplorerUrl this sig |}
  end.

Definition escrowExists (this : t) (issueNumber : Z) (repositoryHash : Buffer)
  : Eff (W:=W) (Ev:=ChainEvent) bool :=
  let! issueSeed := lift (Helpers.numberToLeBytes issueNumber) in
  let! found := lift (findProgramAddressSync
                        [Buffer_from_string "escrow"; repositoryHash; issueSeed]
                        (programId this)) in
  let escrowPda := fst found in
  let! accountInfo := external (getAccountInfo escrowPda) (EvGetAccountInfo escrowPda) in
  ret (match accountInfo with Some _ => true | None => false end).

(** The address the specification calls
    [derive(programId, repoHash, issueNumber)]: the program-derived address
    of the seeds [escrow], the repository hash and the issue number as
    eight little-endian bytes. *)
Definition derive (program : PublicKey) (repoHash : Buffer) (issueNumber : Z)
  : outcome PublicKey :=
  match Helpers.numberToLeBytes issueNumber with
  | Thrown m => Thrown m
  | Returned le =>
      match findProgramAddressSync [Buffer_from_string "escrow"; repoHash; le] program with
      | Thrown m => Thrown m
      | Returned (address, _) => Returned address
      end
  end.

End WithLedger.


End SolanaProvider.

(* ===================================================================== *)
(** * Issue tracker and payment interfaces ([core/types.ts]) *)
(* ===================================================================== *)

Module PullRequest.
Inductive State : Type := open | closed.
Record t : Type := {
  number : Z;
  title : option string;
  body : option string;
  state : State;
  merged : bool;
  user_login : string
}.
End PullRequest.

Module LinkedIssue.
Record t : Type := {
  number : Z;
  bountyAmount : Z;
  label : string
}.
End LinkedIssue.

Record ClaimValidation : Type := {
  isValid : bool;
  linkedIssue : option LinkedIssue.t;
  errors : list string
}.

(** What [bountyConfig[label]] evaluates to and the handlers pass on as an
    amount: the number an own property holds, or the function or object a
    plain object inherits from [Object.prototype] under that name. *)
Inductive Amount : Type :=
| Lamports (n : Z)
| Inherited (property : string).

Coercion Lamports : Z >-> Amount.

Module NotificationData.
Inductive EventType : Type := bounty_created | bounty_claimed | assignment.
Record t : Type := {
  repository : string;
  issueNumber : Z;
  prNumber : option Z;
  contributor : string;
  amount : Amount;
  transactionUrl : string;
  eventType : EventType
}.
End NotificationData.

(** Each flag is optional: [None] is [undefined]. *)
Record SecurityConfig : Type := {
  skipAssignmentCheck : option bool;
  requireMergedPR : option bool;
  requireMaintainerForBountyCreation : option bool
}.

(** [IIssueProvider]: the synchronous method is a function, the awaited
    ones step the world. *)
Class IIssueProvider (W : Type) : Type := {
  verifyWebhook : Buffer -> string -> string -> outcome bool;
  postComment : string -> Z -> string -> W -> outcome unit * W;
  assignIssue : string -> Z -> string -> W -> outcome unit * W;
  getPullRequest : string -> Z -> W -> outcome PullRequest.t * W;
  findLinkedIssueWithBounty :
    string -> Z -> PullRequest.t -> gmap string Z -> W
    -> outcome (option LinkedIssue.t) * W;
  wasUserEverAssigned : string -> Z -> string -> W -> outcome bool * W;
  isBountyAlreadyClaimed : string -> Z -> W -> outcome bool * W;
  checkIsMaintainer : string -> string -> W -> outcome bool * W
}.

(** [IPaymentProvider]: the three escrow operations are awaited, the two
    helpers are synchronous. *)
Class IPaymentProvider (W : Type) : Type := {
  createEscrow : Z -> Buffer -> Amount -> W -> outcome TransactionResult * W;
  releaseEscrow : Z -> Buffer -> PublicKey -> W -> outcome TransactionResult * W;
  escrowExists : Z -> Buffer -> W -> outcome bool * W;
  getRepositoryHash : string -> outcome Buffer;
  parseWalletAddress : string -> outcome PublicKey
}.

Record INotificationProvider (W : Type) : Type := {
  notify : NotificationData.t -> W -> outcome unit * W;
  getName : string
}.
Arguments notify {W} _ _ _.
Arguments getName {W} _.

(** How the JavaScript runtime prints values inside template literals. *)
Class JsRuntime : Type := {
  (** [`${n}`] for a number *)
  number_text : Z -> string;
  (** [`${lamportsToSol(n)}`], that is [n / 1_000_000_000] printed *)
  lamportsToSol_text : Z -> string;
  (** [key.toBase58()] *)
  toBase58 : PublicKey -> string
}.

(** The awaited provider calls, each with its response. *)
Inductive Event : Type :=
| EvPostComment (repo : string) (issueNumber : Z) (comment : string) (r : outcome unit)
| EvAssignIssue (repo : string) (issueNumber : Z) (username : string) (r : outcome unit)
| EvGetPullRequest (repo : string) (prNumber : Z) (r : outcome PullRequest.t)
| EvFindLinkedIssueWithBounty (repo : string) (prNumber : Z)
    (r : outcome (option LinkedIssue.t))
| EvWasUserEverAssigned (repo : string) (issueNumber : Z) (username : string)
    (r : outcome bool)
| EvIsBountyAlreadyClaimed (repo : string) (issueNumber : Z) (r : outcome bool)
| EvCheckIsMaintainer (repo : string) (username : string) (r : outcome bool)
| EvCreateEscrow (issueNumber : Z) (repoHash : Buffer) (amount : Amount)
    (r : outcome TransactionResult)
| EvReleaseEscrow (issueNumber : Z) (repoHash : Buffer) (recipient : PublicKey)
    (r : outcome TransactionResult)
| EvNotify (provider : string) (data : NotificationData.t) (r : outcome unit).

(** The awaited calls on the payment provider: the escrow operations. The
    manager never calls [escrowExists]; the two synchronous helpers are
    functions and leave no event. *)
Definition is_payment_call (e : Event) : bool :=
  match e with
  | EvCreateEscrow _ _ _ _ | EvReleaseEscrow _ _ _ _ => true
  | _ => false
  end.

Definition is_release_call (e : Event) : bool :=
  match e with
  | EvReleaseEscrow _ _ _ _ => true
  | _ => false
  end.

Definition is_post_comment (e : Event) : bool :=
  match e with
  | EvPostComment _ _ _ _ => true
  | _ => false
  end.

(** The calls of the validation pipeline. *)
Definition is_validation_call (e : Event) : bool :=
  match e with
  | EvGetPullRequest _ _ _ | EvFindLinkedIssueWithBounty _ _ _
  | EvWasUserEverAssigned _ _ _ _ | EvIsBountyAlreadyClaimed _ _ _ => true
  | _ => false
  end.

(* ===================================================================== *)
(** * The claim validation pipeline ([core/SecurityValidator.ts]) *)
(* ===================================================================== *)

Module SecurityValidator.

(** [config.requireMergedPR !== false] *)
Definition mergedPR_required (config : SecurityConfig) : bool :=
  match requireMergedPR config with
  | Some false => false
  | _ => true
  end.

(** [!config.skipAssignmentCheck] *)
Definition assignment_checked (config : SecurityConfig) : bool :=
  match skipAssignmentCheck config with
  | Some true => false
  | _ => true
  end.

Definition rejected (message : string) : ClaimValidation :=
  {| isValid := false; linkedIssue := None; errors := [message] |}.

Section WithProvider.
Context {W : Type} `{IIssueProvider W} `{JsRuntime}.

Definition MSG_NOT_MERGED : string :=
  "**Cannot claim bounty**" +:+ LF +:+ LF
  +:+ "This pull request must be merged before claiming the bounty.".

Definition MSG_NOT_AUTHOR (commenter author : string) : string :=
  "**Unauthorized claim**" +:+ LF +:+ LF +:+ "@" +:+ commenter
  +:+ " is not the author of this pull request." +:+ LF +:+ LF
  +:+ "Only the PR author (@" +:+ author +:+ ") can claim the bounty.".

Definition MSG_NO_BOUNTY : string :=
  "**No bounty found**" +:+ LF +:+ LF
  +:+ "This pull request is not linked to any issue with an active bounty."
  +:+ LF +:+ LF +:+ "Make sure your PR description includes " +:+ DQ
  +:+ "Fixes #<issue_number>" +:+ DQ
  +:+ " and that the issue has a bounty label.".

Definition MSG_NOT_ASSIGNED (commenter : string) (issue : Z) : string :=
  "**Unauthorized claim**" +:+ LF +:+ LF +:+ "@" +:+ commenter
  +:+ " was not assigned to issue #" +:+ number_text issue +:+ "." +:+ LF +:+ LF
  +:+ "Please use `/assign` on the issue before starting work to be eligible for the bounty.".

Definition MSG_ALREADY_CLAIMED (issue : Z) : string :=
  "**Bounty already claimed**" +:+ LF +:+ LF +:+ "The bounty for issue #"
  +:+ number_text issue +:+ " has already been claimed by another contributor.".

(** Check 5 and the final result. *)
Definition check5 (repo : string) (linked : LinkedIssue.t)
  : Eff (W:=W) (Ev:=Event) ClaimValidation :=
  let! r := attempt (external (isBountyAlreadyClaimed repo (LinkedIssue.number linked))
                       (EvIsBountyAlreadyClaimed repo (LinkedIssue.number linked))) in
  match r with
  | Returned true => ret (rejected (MSG_ALREADY_CLAIMED (LinkedIssue.number linked)))
  | Returned false
  | Thrown _ (* Continue anyway - the blockchain will reject if already claimed *) =>
      ret {| isValid := true; linkedIssue := Some linked; errors := [] |}
  end.

(** Check 4, then check 5. *)
Definition check4 (config : SecurityConfig) (repo commenter : string)
  (linked : LinkedIssue.t) : Eff (W:=W) (Ev:=Event) ClaimValidation :=
  if assignment_checked config then
    let! r := attempt (external
                (wasUserEverAssigned repo (LinkedIssue.number linked) commenter)
                (EvWasUserEverAssigned repo (LinkedIssue.number linked) commenter)) in
    match r with
    | Thrown m => ret (rejected ("Failed to verify assignment: " +:+ m))
    | Returned false =>
        ret (rejected (MSG_NOT_ASSIGNED commenter (LinkedIssue.number linked)))
    | Returned true => check5 repo linked
    end
  else check5 repo linked.

Definition validateClaim (config : SecurityConfig) (repo : string) (prNumber : Z)
  (commenter : string) (bountyConfig : gmap string Z)
  : Eff (W:=W) (Ev:=Event) ClaimValidation :=
  (* Check 1: Verify PR is merged *)
  let! r1 := attempt (external (getPullRequest repo prNumber)
                        (EvGetPullRequest repo prNumber)) in
  match r1 with
  | Thrown m => ret (rejected ("Failed to verify pull request: " +:+ m))
  | Returned prData =>
      if mergedPR_required config && negb (PullRequest.merged prData)
      then ret (rejected MSG_NOT_MERGED)
      (* Check 2: Verify commenter is the PR author *)
      else if negb (String.eqb (PullRequest.user_login prData) commenter)
      then ret (rejected (MSG_NOT_AUTHOR commenter (PullRequest.user_login prData)))
      else
        (* Check 3: Find linked issue with bounty *)
        let! r3 := attempt (external
                     (findLinkedIssueWithBounty repo prNumber prData bountyConfig)
                     (EvFindLinkedIssueWithBounty repo prNumber)) in
        match r3 with
        | Thrown m => ret (rejected ("Failed to verify linked issue: " +:+ m))
        | Returned None => ret (rejected MSG_NO_BOUNTY)
        | Returned (Some linked) =>
            (* Checks 4 and 5 *)
            check4 config repo commenter linked
        end
  end.

End WithProvider.

End SecurityValidator.

(* ===================================================================== *)
(** * Claim detection ([providers/issue/GithubProvider.ts]) *)
(* ===================================================================== *)

(** A comment as the tracker's REST interface lists it. *)
Record IssueComment : Type := {
  user_type : string;
  comment_body : string
}.

(** [axios.get(".../issues/<n>/comments")]: the comments of the response,
    or the message of the failure
    ([error.response?.data?.message || error.message]). *)
Class GitHubApi (W : Type) : Type := {
  listIssueComments : string -> Z -> W -> outcome (list IssueComment) * W
}.

Module GitHubProvider.

(** Canonical form of a character under the [i] flag; only ASCII letters
    can match an ASCII letter of a pattern. *)
Definition canonicalize (c : ascii) : ascii :=
  let n := N_of_ascii c in
  if ((97 <=? n) && (n <=? 122))%N then ascii_of_N (n - 32) else c.

(** The pattern, read case-insensitively, matches a prefix of [s]. *)
Fixpoint matches_at (pattern s : string) : bool :=
  match pattern, s with
  | EmptyString, _ => true
  | String p pattern', String c s' =>
      Ascii.eqb (canonicalize p) (canonicalize c) && matches_at pattern' s'
  | String _ _, EmptyString => false
  end.

(** [RegExp.test] for an alternation of literals: a match at some offset. *)
Fixpoint regexp_test (alternatives : list string) (s : string) : bool :=
  existsb (fun p => matches_at p s) alternatives
  || match s with
     | EmptyString => false
     | String _ s' => regexp_test alternatives s'
     end.

(** [/\*\*Bounty (released|claimed)\*\*/i] *)
Definition claimPattern : list string :=
  ["**Bounty released**"; "**Bounty claimed**"].

(** [comments.some(c => c.user.type === "Bot" && claimPattern.test(c.body))] *)
Definition some_claim_comment (comments : list IssueComment) : bool :=
  existsb (fun c => String.eqb (user_type c) "Bot"
                    && regexp_test claimPattern (comment_body c))
          comments.

Section WithApi.
Context {W : Type} `{GitHubApi W}.

Definition isBountyAlreadyClaimed (repository : string) (issueNumber : Z)
  : W -> outcome bool * W :=
  fun w =>
    match listIssueComments repository issueNumber w with
    | (Returned comments, w') => (Returned (some_claim_comment comments), w')
    | (Thrown m, w') => (Thrown ("Failed to check claim status: " +:+ m), w')
    end.

End WithApi.

End GitHubProvider.

(* ===================================================================== *)
(** * The lifecycle router ([core/BountyManager.ts]) *)
(* ===================================================================== *)

Module BountyManager.

(** The fields of a webhook payload the label handler reads; [None] is a
    missing field ([payload.issue?.number] and the like). *)
Record WebhookPayload : Type := {
  issue_number : option Z;
  repository_full_name : option string;
  label_name : option string;
  sender_login : option string
}.

(** The fields of the manager object. *)
Record t (W : Type) : Type := {
  bountyConfig : gmap string Z;
  securityConfig : SecurityConfig;
  notificationProviders : list (INotificationProvider W)
}.
Arguments bountyConfig {W} _.
Arguments securityConfig {W} _.
Arguments notificationProviders {W} _.

(** [!x] for an optional number and an optional string. *)
Definition falsy_number (x : option Z) : bool :=
  match x with
  | None => true
  | Some n => n =? 0
  end.

Definition falsy_text (x : option string) : bool :=
  match x with
  | None | Some EmptyString => true
  | Some (String _ _) => false
  end.

(** The byte width of the white-space character [s] starts with, [0] if it
    starts with none: the characters of the regular expression class
    [\s] in UTF-8. *)
Definition whitespace_width (s : string) : nat :=
  match s with
  | EmptyString => 0
  | String c rest =>
      let b0 := N_of_ascii c in
      let b1 := match rest with String d _ => N_of_ascii d | EmptyString => 0%N end in
      let b2 := match rest with
                | String _ (String e _) => N_of_ascii e
                | _ => 0%N
                end in
      if ((9 <=? b0) && (b0 <=? 13) || (b0 =? 32))%N then 1
      else if ((b0 =? 194) && (b1 =? 160))%N then 2
      else if ((b0 =? 225) && (b1 =? 154) && (b2 =? 128))%N then 3
      else if ((b0 =? 226) && (b1 =? 128)
               && ((128 <=? b2) && (b2 <=? 138) || (b2 =? 168) || (b2 =? 169)
                   || (b2 =? 175)))%N then 3
      else if ((b0 =? 226) && (b1 =? 129) && (b2 =? 159))%N then 3
      else if ((b0 =? 227) && (b1 =? 128) && (b2 =? 128))%N then 3
      else if ((b0 =? 239) && (b1 =? 187) && (b2 =? 191))%N then 3
      else 0
  end%nat.

(** [s.split(/\s+/)]. [skip] counts the bytes left of a white-space
    character being skipped, [in_separator] tells whether the previous
    character was white space, [current] is the part read so far. *)
Fixpoint split_go (s : string) (skip : nat) (in_separator : bool)
  (current : string) : list string :=
  match s with
  | EmptyString => [current]
  | String c rest =>
      match skip with
      | S k => split_go rest k in_separator current
      | O =>
          match whitespace_width s with
          | O => split_go rest 0 false (current +:+ String c EmptyString)
          | S k =>
              if in_separator then split_go rest k true current
              else current :: split_go rest k true EmptyString
          end
      end
  end.

Definition split_whitespace (s : string) : list string :=
  split_go s 0 false EmptyString.

(** [commentBody.split(/\s+/)[1]] *)
Definition walletStr_of (commentBody : string) : option string :=
  split_whitespace commentBody !! 1%nat.

Definition MSG_USAGE : string :=
  "**Invalid claim command**" +:+ LF +:+ LF +:+ "Usage: `/claim <wallet_address>`".

Definition MSG_INVALID_WALLET : string :=
  "**Invalid wallet address**" +:+ LF +:+ LF
  +:+ "Please provide a valid wallet address.".

Definition MSG_MAINTAINERS_ONLY : string :=
  "Only repository maintainers can create bounties.".

(** The names every plain object inherits from [Object.prototype]. *)
Definition Object_prototype_properties : list string :=
  ["constructor"; "__defineGetter__"; "__defineSetter__"; "hasOwnProperty";
   "__lookupGetter__"; "__lookupSetter__"; "isPrototypeOf";
   "propertyIsEnumerable"; "toString"; "valueOf"; "__proto__"; "toLocaleString"].

Section WithProviders.
Context {W : Type} `{IIssueProvider W} `{IPaymentProvider W} `{JsRuntime}.

Definition post (repo : string) (issueNumber : Z) (comment : string)
  : Eff (W:=W) (Ev:=Event) unit :=
  external (postComment repo issueNumber comment)
           (EvPostComment repo issueNumber comment).

(** [notifyAll]: a failing provider is logged and skipped. *)
Definition notifyAll (this : t W) (data : NotificationData.t)
  : Eff (W:=W) (Ev:=Event) unit :=
  for_each (notificationProviders this)
    (fun provider =>
       let! _ := attempt (external (notify provider data)
                            (EvNotify (getName provider) data)) in
       ret tt).

(** [bountyConfig[label] || null]. The configuration is a plain object:
    the lookup finds an own property first and otherwise what
    [Object.prototype] holds under that name, a function or an object,
    which is truthy. *)
Definition getBountyAmount (this : t W) (label : string) : option Amount :=
  match bountyConfig this !! label with
  | Some amount => if amount =? 0 then None else Some (Lamports amount)
  | None =>
      if existsb (String.eqb label) Object_prototype_properties
      then Some (Inherited label)
      else None
  end.

(** [`${lamportsToSol(amount)}`]: what is not a number divides to [NaN]. *)
Definition lamportsToSol_of (amount : Amount) : string :=
  match amount with
  | Lamports n => lamportsToSol_text n
  | Inherited _ => "NaN"
  end.

(** The comment on the linked issue after a release. *)
Definition MSG_BOUNTY_CLAIMED (commenter : string) (prNumber : Z) (url : string)
  : string :=
  "**Bounty claimed**" +:+ LF +:+ LF
  +:+ "This bounty has been claimed by @" +:+ commenter +:+ " via PR #"
  +:+ number_text prNumber +:+ "." +:+ LF
  +:+ "Transaction: " +:+ url.

Definition MSG_BOUNTY_RELEASED (commenter : string) (linked : LinkedIssue.t)
  (wallet : PublicKey) (url : string) : string :=
  "**Bounty released to @" +:+ commenter +:+ "**" +:+ LF +:+ LF
  +:+ "Issue: #" +:+ number_text (LinkedIssue.number linked) +:+ LF
  +:+ "Amount: " +:+ lamportsToSol_text (LinkedIssue.bountyAmount linked)
  +:+ " SOL" +:+ LF
  +:+ "Recipient wallet: `" +:+ toBase58 wallet +:+ "`" +:+ LF
  +:+ "Transaction: " +:+ url.

Definition MSG_ESCROW_CREATED (issueNumber : Z) (amount : Amount) (url : string)
  : string :=
  "**Bounty escrow created**" +:+ LF +:+ LF
  +:+ "Amount: " +:+ lamportsToSol_of amount +:+ " SOL" +:+ LF
  +:+ "Transaction: " +:+ url +:+ LF +:+ LF
  +:+ "To claim this bounty:" +:+ LF
  +:+ "1. Get assigned to this issue with `/assign`" +:+ LF
  +:+ "2. Create a PR that fixes this issue (include " +:+ DQ +:+ "Fixes #"
  +:+ number_text issueNumber +:+ DQ +:+ " in the PR description)" +:+ LF
  +:+ "3. Get your PR merged" +:+ LF
  +:+ "4. Comment `/claim <your_wallet_address>` on your merged PR".

(** [requireMaintainerForBountyCreation !== false] *)
Definition maintainer_required (config : SecurityConfig) : bool :=
  match requireMaintainerForBountyCreation config with
  | Some false => false
  | _ => true
  end.

(** A required field: present and not falsy. *)
Definition required_number (x : option Z) : option Z :=
  if falsy_number x then None else x.

Definition required_text (x : option string) : option string :=
  if falsy_text x then None else x.

(** The part of [handleLabeled] after the maintainer check: look the
    label up and create the escrow. *)
Definition create_bounty (this : t W) (issueNumber : Z) (repo label sender : string)
  : Eff (W:=W) (Ev:=Event) unit :=
  (* Get bounty amount from label *)
  match getBountyAmount this label with
  | None => ret tt
  | Some amount =>
      (* Create escrow *)
      let! r := attempt (
        let! repoHash := lift (getRepositoryHash repo) in
        let! tx := external (createEscrow issueNumber repoHash amount)
                            (EvCreateEscrow issueNumber repoHash amount) in
        let! _ := post repo issueNumber
                    (MSG_ESCROW_CREATED issueNumber amount (explorerUrl tx)) in
        notifyAll this
          {| NotificationData.repository := repo;
             NotificationData.issueNumber := issueNumber;
             NotificationData.prNumber := None;
             NotificationData.contributor := sender;
             NotificationData.amount := amount;
             NotificationData.transactionUrl := explorerUrl tx;
             NotificationData.eventType := NotificationData.bounty_created |}) in
      match r with
      | Returned _ => ret tt
      | Thrown m => post repo issueNumber ("Failed to create bounty escrow: " +:+ m)
      end
  end.

(** [handleLabeled]: a label was attached to an issue. *)
Definition handleLabeled (this : t W) (payload : WebhookPayload)
  : Eff (W:=W) (Ev:=Event) unit :=
  match required_number (issue_number payload),
        required_text (repository_full_name payload),
        required_text (label_name payload),
        required_text (sender_login payload) with
  | Some issueNumber, Some repo, Some label, Some sender =>
      (* Check if sender is maintainer *)
      if maintainer_required (securityConfig this) then
        let! isMaintainer := external (checkIsMaintainer repo sender)
                                      (EvCheckIsMaintainer repo sender) in
        if isMaintainer then create_bounty this issueNumber repo label sender
        else post repo issueNumber MSG_MAINTAINERS_ONLY
      else create_bounty this issueNumber repo label sender
  | _, _, _, _ => throw "Missing required fields in labeled event"
  end.

(** The part of [handleClaim] after a successful validation: release the
    escrow and report. *)
Definition release_and_report (this : t W) (repo : string) (prNumber : Z)
  (commenter : string) (wallet : PublicKey) (validation : ClaimValidation)
  : Eff (W:=W) (Ev:=Event) unit :=
  let! r := attempt (
    let! repoHash := lift (getRepositoryHash repo) in
    (* [validation.linkedIssue!]: reading [number] of [undefined] throws *)
    let! linked := lift (match linkedIssue validation with
                         | Some l => Returned l
                         | None => Thrown "Cannot read properties of undefined"
                         end) in
    let! tx := external (releaseEscrow (LinkedIssue.number linked) repoHash wallet)
                        (EvReleaseEscrow (LinkedIssue.number linked) repoHash wallet) in
    (* Post success comments *)
    let! _ := post repo prNumber
                (MSG_BOUNTY_RELEASED commenter linked wallet (explorerUrl tx)) in
    let! _ := post repo (LinkedIssue.number linked)
                (MSG_BOUNTY_CLAIMED commenter prNumber (explorerUrl tx)) in
    (* Notify all providers *)
    notifyAll this
      {| NotificationData.repository := repo;
         NotificationData.issueNumber := LinkedIssue.number linked;
         NotificationData.prNumber := Some prNumber;
         NotificationData.contributor := commenter;
         NotificationData.amount := LinkedIssue.bountyAmount linked;
         NotificationData.transactionUrl := explorerUrl tx;
         NotificationData.eventType := NotificationData.bounty_claimed |}) in
  match r with
  | Returned _ => ret tt
  | Thrown m => post repo prNumber ("Failed to release bounty: " +:+ m)
  end.

(** [handleClaim]: a [/claim] comment on a pull request. *)
Definition handleClaim (this : t W) (repo : string) (prNumber : Z)
  (commenter commentBody : string) : Eff (W:=W) (Ev:=Event) unit :=
  (* Parse wallet address *)
  match required_text (walletStr_of commentBody) with
  | None => post repo prNumber MSG_USAGE
  | Some walletStr =>
      (* Validate wallet address *)
      match parseWalletAddress walletStr with
      | Thrown _ => post repo prNumber MSG_INVALID_WALLET
      | Returned wallet =>
          (* Perform security validation *)
          let! validation :=
            SecurityValidator.validateClaim (securityConfig this) repo prNumber
              commenter (bountyConfig this) in
          if negb (isValid validation) then
            for_each (errors validation) (fun error => post repo prNumber error)
          else
            (* Release escrow *)
            release_and_report this repo prNumber commenter wallet validation
      end
  end.

End WithProviders.

End BountyManager.

(* ===================================================================== *)
(** * Vocabulary of the statements, and sample instances *)
(* ===================================================================== *)

(** The address a gateway operation looks up first. *)
Definition looked_up (tr : list SolanaProvider.ChainEvent) : option PublicKey :=
  match tr with
  | SolanaProvider.EvGetAccountInfo address _ :: _ => Some address
  | _ => None
  end.


(** Inputs of the address derivation as the wire format types them. *)
Definition derivation_input (repoHash : Buffer) (issueNumber : Z) : Prop :=
  length repoHash = 32%nat /\ is_bytes repoHash /\ Schemas.is_u64 issueNumber.


(** A repository hash and two instruction records for examples. *)
Definition sample_hash : Buffer := repeat 7 32.

Definition sample_create : Schemas.CreateEscrowInstruction :=
  {| Schemas.ce_repo_hash := sample_hash;
     Schemas.ce_issue_number := 42;
     Schemas.ce_amount := 2000000000 |}.

Definition sample_release : Schemas.ReleaseEscrowInstruction :=
  {| Schemas.re_repo_hash := sample_hash; Schemas.re_issue_number := 42 |}.

(** A small ledger for examples: the world is the list of funded
    addresses; the derivation adds up the seed bytes. *)
Module SampleLedger.

Definition world := list PublicKey.

Definition sample_find (seeds : list Buffer) (program : PublicKey)
  : outcome (PublicKey * Z) :=
  Returned (program + le_value (concat seeds), 255).

Definition sample_getAccountInfo (address : PublicKey) (w : world)
  : outcome (option AccountInfo) * world :=
  (Returned (if existsb (Z.eqb address) w
             then Some {| lamports := 1; owner := 0 |} else None), w).

(** A submitted transaction funds the writable account that does not sign
    and comes first. *)
Definition sample_send (tx : Transaction) (signers : list Keypair) (w : world)
  : outcome string * world :=
  match tx with
  | [ins] =>
      match filter (fun k => isWritable k && negb (isSigner k)) (keys ins) with
      | k :: _ => (Returned "sig1", pubkey k :: w)
      | [] => (Thrown "no account", w)
      end
  | _ => (Thrown "unsupported", w)
  end.

#[global] Instance sample_web3 : Web3 world := {|
  findProgramAddressSync := sample_find;
  SystemProgram_programId := 0;
  getAccountInfo := sample_getAccountInfo;
  sendTransaction := sample_send;
  confirmTransaction := fun _ w => (Returned tt, w)
|}.

Definition provider : SolanaProvider.t :=
  {| SolanaProvider.payer := {| publicKey := 11 |};
     SolanaProvider.programId := 5;
     SolanaProvider.network := "devnet" |}.

End SampleLedger.


(** A stand-in for Node's [crypto] in examples: a digest of 64 characters
    whose first character depends on the key and on the body. *)
Module SampleCrypto.

Definition padding : string :=
  "000000000000000000000000000000000000000000000000000000000000000".

Definition sample_hmac (secret : string) (body : Buffer) : string :=
  String (ascii_of_N (48 + Z.to_N ((Z.of_nat (String.length secret) + le_value body) mod 10)))
         padding.

#[global] Instance sample_crypto : NodeCrypto := {|
  sha256_digest := fun text => le_bytes 32 (Z.of_nat (String.length text));
  hmac_sha256_hex := sample_hmac;
  hmac_sha256_hex_length := fun _ _ => eq_refl
|}.

End SampleCrypto.


(** ** Vocabulary of the validation pipeline *)

(** The check a call of the pipeline belongs to; the pull request fetched
    for check 1 also decides check 2. *)
Definition check_of (e : Event) : nat :=
  match e with
  | EvGetPullRequest _ _ _ => 1
  | EvFindLinkedIssueWithBounty _ _ _ => 3
  | EvWasUserEverAssigned _ _ _ _ => 4
  | EvIsBountyAlreadyClaimed _ _ _ => 5
  | _ => 0
  end.

(** The response of a call lets the pipeline go on: the pull request is
    merged (when that is required) and written by the commenter, a linked
    issue was found, the commenter was assigned, and no earlier claim was
    found (a failed lookup counts as none found). *)
Definition passes (config : SecurityConfig) (commenter : string) (e : Event) : bool :=
  match e with
  | EvGetPullRequest _ _ (Returned pr) =>
      negb (SecurityValidator.mergedPR_required config && negb (PullRequest.merged pr))
      && String.eqb (PullRequest.user_login pr) commenter
  | EvFindLinkedIssueWithBounty _ _ (Returned (Some _)) => true
  | EvWasUserEverAssigned _ _ _ (Returned true) => true
  | EvIsBountyAlreadyClaimed _ _ (Returned false) => true
  | EvIsBountyAlreadyClaimed _ _ (Thrown _) => true
  | _ => false
  end.

(** The two kinds of result: invalid with one message and no linked issue,
    and valid with the linked issue and no message. *)
Definition invalid_with (message : string) : ClaimValidation :=
  {| isValid := false; linkedIssue := None; errors := [message] |}.

Definition valid_for (linked : LinkedIssue.t) : ClaimValidation :=
  {| isValid := true; linkedIssue := Some linked; errors := [] |}.

(** The result once checks 1 to 4 passed, from the answer of the lookup of
    earlier claims: invalid only when the lookup found one. *)
Definition after_check5 `{JsRuntime} (linked : LinkedIssue.t) (r5 : outcome bool)
  : ClaimValidation :=
  match r5 with
  | Returned true =>
      invalid_with (SecurityValidator.MSG_ALREADY_CLAIMED (LinkedIssue.number linked))
  | Returned false | Thrown _ => valid_for linked
  end.

(** ** Vocabulary of the claim handler *)

(** The recipient a [/claim] comment names: its first argument, when there
    is one and the payment provider can parse it. *)
Definition wallet_of {W : Type} `{IPaymentProvider W} (commentBody : string)
  : option PublicKey :=
  match BountyManager.required_text (BountyManager.walletStr_of commentBody) with
  | None => None
  | Some walletStr =>
      match parseWalletAddress walletStr with
      | Returned wallet => Some wallet
      | Thrown _ => None
      end
  end.

(** The comments a trace posts, with the issue or pull request each goes to. *)
Fixpoint posted_comments (tr : list Event) : list (Z * string) :=
  match tr with
  | [] => []
  | EvPostComment _ n comment _ :: rest => (n, comment) :: posted_comments rest
  | _ :: rest => posted_comments rest
  end.

Definition is_maintainer_check (e : Event) : bool :=
  match e with
  | EvCheckIsMaintainer _ _ _ => true
  | _ => false
  end.

Definition is_assignment_check (e : Event) : bool :=
  match e with
  | EvWasUserEverAssigned _ _ _ _ => true
  | _ => false
  end.

(** A configuration with one flag replaced. *)
Definition with_skipAssignmentCheck (flag : option bool) (c : SecurityConfig)
  : SecurityConfig :=
  {| skipAssignmentCheck := flag;
     requireMergedPR := requireMergedPR c;
     requireMaintainerForBountyCreation := requireMaintainerForBountyCreation c |}.

Definition with_requireMergedPR (flag : option bool) (c : SecurityConfig)
  : SecurityConfig :=
  {| skipAssignmentCheck := skipAssignmentCheck c;
     requireMergedPR := flag;
     requireMaintainerForBountyCreation := requireMaintainerForBountyCreation c |}.

Definition with_requireMaintainer (flag : option bool) {W : Type}
  (this : BountyManager.t W) : BountyManager.t W :=
  {| BountyManager.bountyConfig := BountyManager.bountyConfig this;
     BountyManager.securityConfig :=
       {| skipAssignmentCheck := skipAssignmentCheck (BountyManager.securityConfig this);
          requireMergedPR := requireMergedPR (BountyManager.securityConfig this);
          requireMaintainerForBountyCreation := flag |};
     BountyManager.notificationProviders := BountyManager.notificationProviders this |}.

(** A labeled event with every required field. *)
Definition labeled_event (issueNumber : Z) (repo label sender : string)
  : BountyManager.WebhookPayload :=
  {| BountyManager.issue_number := Some issueNumber;
     BountyManager.repository_full_name := Some repo;
     BountyManager.label_name := Some label;
     BountyManager.sender_login := Some sender |}.

(** A computation only appends to the trace, and only events of a class. *)
Definition emits {W Ev A : Type} (P : Ev -> bool) (m : Eff (W:=W) (Ev:=Ev) A) : Prop :=
  forall w tr0,
    exists tr, snd (snd (m (w, tr0))) = tr0 ++ tr /\ forallb P tr = true.

(** ** A sample tracker and ledger *)

Module SampleWorld.

(** The comments of each issue, the issues with a funded escrow, and the
    account type the tracker reports for the comments the bot posts. *)
Record world : Type := {
  comments : list (Z * IssueComment);
  funded : list Z;
  account_type : string
}.

Definition sample_tx : TransactionResult :=
  {| signature := "sig1";
     explorerUrl := "https://explorer.solana.com/tx/sig1?cluster=devnet" |}.

Definition sample_pr (n : Z) : PullRequest.t :=
  {| PullRequest.number := n;
     PullRequest.title := None;
     PullRequest.body := Some "Fixes #42";
     PullRequest.state := PullRequest.closed;
     PullRequest.merged := true;
     PullRequest.user_login := "alice" |}.

Definition sample_linked : LinkedIssue.t :=
  {| LinkedIssue.number := 42;
     LinkedIssue.bountyAmount := 2000000000;
     LinkedIssue.label := "bounty-2-sol" |}.

#[global] Instance api : GitHubApi world := {|
  listIssueComments := fun _ n w =>
    (Returned (map snd (List.filter (fun c => fst c =? n) (comments w))), w)
|}.

#[global] Instance tracker : IIssueProvider world := {|
  verifyWebhook := fun body sig secret =>
    snd (Crypto.verifyGitHubSignature (H:=SampleCrypto.sample_crypto) body sig secret);
  postComment := fun _ n text w =>
    (Returned tt,
     {| comments := comments w ++ [(n, {| user_type := account_type w;
                                          comment_body := text |})];
        funded := funded w;
        account_type := account_type w |});
  assignIssue := fun _ _ _ w => (Returned tt, w);
  getPullRequest := fun _ n w => (Returned (sample_pr n), w);
  findLinkedIssueWithBounty := fun _ _ _ _ w => (Returned (Some sample_linked), w);
  wasUserEverAssigned := fun _ _ user w => (Returned (String.eqb user "alice"), w);
  isBountyAlreadyClaimed := GitHubProvider.isBountyAlreadyClaimed;
  checkIsMaintainer := fun _ user w => (Returned (String.eqb user "maintainer"), w)
|}.

#[global] Instance payments : IPaymentProvider world := {|
  createEscrow := fun n _ _ w =>
    if existsb (Z.eqb n) (funded w)
    then (Thrown "Escrow already exists for this issue", w)
    else (Returned sample_tx,
          {| comments := comments w; funded := n :: funded w;
             account_type := account_type w |});
  releaseEscrow := fun n _ _ w =>
    if existsb (Z.eqb n) (funded w)
    then (Returned sample_tx,
          {| comments := comments w;
             funded := List.filter (fun k => negb (k =? n)) (funded w);
             account_type := account_type w |})
    else (Thrown "Escrow does not exist for this issue", w);
  escrowExists := fun n _ w => (Returned (existsb (Z.eqb n) (funded w)), w);
  getRepositoryHash := fun repo =>
    Returned (sha256_digest (NodeCrypto:=SampleCrypto.sample_crypto) repo);
  parseWalletAddress := fun s =>
    if String.eqb s "7xKXtg2C" then Returned 77
    else Thrown "Invalid Solana wallet address"
|}.

#[global] Instance runtime : JsRuntime := {|
  number_text := fun n => NilZero.string_of_int (Z.to_int n);
  lamportsToSol_text := fun n => NilZero.string_of_int (Z.to_int (n / 1000000000));
  toBase58 := fun k => "key" +:+ NilZero.string_of_int (Z.to_int k)
|}.

Definition no_flags : SecurityConfig :=
  {| skipAssignmentCheck := None;
     requireMergedPR := None;
     requireMaintainerForBountyCreation := None |}.

Definition manager : BountyManager.t world :=
  {| BountyManager.bountyConfig := {[ "bounty-2-sol" := 2000000000 ]};
     BountyManager.securityConfig := no_flags;
     BountyManager.notificationProviders := [] |}.

(** Issue 42 has a funded escrow and no comment yet. *)
Definition funded_world (account : string) : world :=
  {| comments := []; funded := [42]; account_type := account |}.

(** The world after [alice] claimed on pull request 50. *)
Definition after_claim (account : string) : world :=
  world_of (run (BountyManager.handleClaim manager "org/repo" 50 "alice"
                   "/claim 7xKXtg2C")
                (funded_world account)).

End SampleWorld.

(* ===================================================================== *)
(** * Issue references in a pull request body ([utils/helpers.ts]) *)
(* ===================================================================== *)

(** [parseInt(digits, 10)] on a string of decimal digits: the number the
    runtime reads (the nearest double for very long digit strings). *)
Class JsParse : Type := {
  parseInt10 : string -> Z
}.

Module IssueReferences.

(** The first [n] bytes dropped. *)
Fixpoint skip_chars (n : nat) (s : string) : string :=
  match n, s with
  | O, _ => s
  | S _, EmptyString => EmptyString
  | S k, String _ rest => skip_chars k rest
  end.

(** [\d] *)
Definition is_digit (c : ascii) : bool :=
  let n := N_of_ascii c in ((48 <=? n) && (n <=? 57))%N.

(** The longest run of digits [s] starts with: what a greedy [\d*] takes. *)
Fixpoint digits_of (s : string) : string :=
  match s with
  | EmptyString => EmptyString
  | String c rest => if is_digit c then String c (digits_of rest) else EmptyString
  end.

(** [#(\d+)] matched at the start of [s]: the captured digits. *)
Definition reference_at (s : string) : option string :=
  match s with
  | String c rest =>
      if Ascii.eqb c "#"%char then
        match digits_of rest with
        | EmptyString => None
        | digits => Some digits
        end
      else None
  | EmptyString => None
  end.

(** The captures of [text.matchAll(/#(\d+)/g)]: the search resumes after
    each match, [skip] bytes further. *)
Fixpoint references_from (s : string) (skip : nat) : list string :=
  match s with
  | EmptyString => []
  | String _ rest =>
      match skip with
      | S k => references_from rest k
      | O =>
          match reference_at s with
          | Some digits => digits :: references_from rest (String.length digits)
          | None => references_from rest 0
          end
      end
  end.

(** The alternatives of the keyword pattern, in the order tried. *)
Definition closing_keywords : list string :=
  ["close"; "closes"; "closed"; "fix"; "fixes"; "fixed";
   "resolve"; "resolves"; "resolved"].

(** The bytes of the white-space run [s] starts with: what a greedy [\s*]
    takes. *)
Fixpoint whitespace_run (fuel : nat) (s : string) : nat :=
  match fuel with
  | O => 0
  | S fuel' =>
      match BountyManager.whitespace_width s with
      | O => 0
      | S k => S k + whitespace_run fuel' (skip_chars (S k) s)
      end
  end.

(** One alternative followed by [\s+#(\d+)], matched at the start of [s],
    letters compared case-insensitively: the captured digits and the length
    of the match. *)
Definition keyword_then_reference (keyword s : string) : option (string * nat) :=
  if GitHubProvider.matches_at keyword s then
    let after_keyword := skip_chars (String.length keyword) s in
    match whitespace_run (String.length after_keyword) after_keyword with
    | O => None
    | S k =>
        match reference_at (skip_chars (S k) after_keyword) with
        | Some digits =>
            Some (digits, (String.length keyword + S k + 1 + String.length digits)%nat)
        | None => None
        end
    end
  else None.

(** The keyword pattern matched at the start of [s]: the first alternative
    that leads to a match. *)
Fixpoint closing_reference_at (keywords : list string) (s : string)
  : option (string * nat) :=
  match keywords with
  | [] => None
  | keyword :: others =>
      match keyword_then_reference keyword s with
      | Some found => Some found
      | None => closing_reference_at others s
      end
  end.

(** The captures of [text.matchAll(/(?:close|...|resolved)\s+#(\d+)/gi)]. *)
Fixpoint closing_references_from (s : string) (skip : nat) : list string :=
  match s with
  | EmptyString => []
  | String _ rest =>
      match skip with
      | S k => closing_references_from rest k
      | O =>
          match closing_reference_at closing_keywords s with
          | Some (digits, len) => digits :: closing_references_from rest (len - 1)
          | None => closing_references_from rest 0
          end
      end
  end.

(** [numbers.add(n)] on a [Set] kept in insertion order. *)
Definition set_add (numbers : list Z) (n : Z) : list Z :=
  if existsb (Z.eqb n) numbers then numbers else numbers ++ [n].

Section WithParse.
Context `{JsParse}.

(** [extractIssueNumbers]: the matches of the keyword pattern, then those
    of the bare pattern, each parsed and added to one set. *)
Definition extractIssueNumbers (text : string) : list Z :=
  let after_keywords :=
    fold_left (fun numbers digits => set_add numbers (parseInt10 digits))
              (closing_references_from text 0) [] in
  fold_left (fun numbers digits => set_add numbers (parseInt10 digits))
            (references_from text 0) after_keywords.

End WithParse.

(** An exact reader of decimal digits, for examples. *)
Fixpoint decimal_value (acc : Z) (s : string) : Z :=
  match s with
  | EmptyString => acc
  | String c rest => decimal_value (10 * acc + (Z.of_N (N_of_ascii c) - 48)) rest
  end.

#[global] Instance exact_parse : JsParse := {| parseInt10 := decimal_value 0 |}.

End IssueReferences.

(* ===================================================================== *)
(** * Vocabulary of the gateway statements *)
(* ===================================================================== *)

Section GatewayVocabulary.
Context {W : Type} `{Web3 W}.

(** The transaction [createEscrow] submits for an escrow address: one
    instruction over the payer, the escrow and the system program. *)
Definition create_transaction (this : SolanaProvider.t) (escrow : PublicKey)
  (h : Buffer) (n amount : Z) : Transaction :=
  [ {| keys := [ {| pubkey := publicKey (SolanaProvider.payer this);
                    isSigner := true; isWritable := true |};
                 {| pubkey := escrow; isSigner := false; isWritable := true |};
                 {| pubkey := SystemProgram_programId;
                    isSigner := false; isWritable := false |} ];
       ti_programId := SolanaProvider.programId this;
       data := [0] ++ h ++ le_bytes 8 n ++ le_bytes 8 amount |} ].

(** The transaction [releaseEscrow] submits: one instruction over the
    escrow, the recipient and the payer. *)
Definition release_transaction (this : SolanaProvider.t) (escrow : PublicKey)
  (h : Buffer) (n : Z) (recipient : PublicKey) : Transaction :=
  [ {| keys := [ {| pubkey := escrow; isSigner := false; isWritable := true |};
                 {| pubkey := recipient; isSigner := false; isWritable := true |};
                 {| pubkey := publicKey (SolanaProvider.payer this);
                    isSigner := true; isWritable := true |} ];
       ti_programId := SolanaProvider.programId this;
       data := [1] ++ h ++ le_bytes 8 n |} ].

End GatewayVocabulary.

Definition is_send (e : SolanaProvider.ChainEvent) : bool :=
  match e with
  | SolanaProvider.EvSendTransaction _ _ _ => true
  | _ => false
  end.

Definition is_lookup (e : SolanaProvider.ChainEvent) : bool :=
  match e with
  | SolanaProvider.EvGetAccountInfo _ _ => true
  | _ => false
  end.

(** The calls of a gateway trace, responses dropped: lookup, serialization,
    send, confirm. *)
Definition call_kinds (tr : list SolanaProvider.ChainEvent) : list nat :=
  map (fun e => match e with
                | SolanaProvider.EvGetAccountInfo _ _ => 1
                | SolanaProvider.EvSerialize _ => 2
                | SolanaProvider.EvSendTransaction _ _ _ => 3
                | SolanaProvider.EvConfirmTransaction _ _ => 4
                end%nat) tr.

(** The call returned. *)
Definition chain_event_ok (e : SolanaProvider.ChainEvent) : bool :=
  match e with
  | SolanaProvider.EvGetAccountInfo _ r => returned r
  | SolanaProvider.EvSerialize r => returned r
  | SolanaProvider.EvSendTransaction _ _ r => returned r
  | SolanaProvider.EvConfirmTransaction _ r => returned r
  end.

(** The order and the stopping rule of a gateway operation with result [r]
    and trace [tr]. *)
Definition gateway_discipline {A : Type} (tr : list SolanaProvider.ChainEvent)
  (r : outcome A) : Prop :=
  call_kinds tr `prefix_of` [1; 2; 3; 4]%nat /\
  forallb chain_event_ok (removelast tr) = true /\
  (returned r = true <->
   call_kinds tr = [1; 2; 3; 4]%nat /\ forallb chain_event_ok tr = true) /\
  (forall sig r',
      In (SolanaProvider.EvConfirmTransaction sig r') tr ->
      exists tx signers,
        In (SolanaProvider.EvSendTransaction tx signers (Returned sig)) tr).

(* ===================================================================== *)
(** * Vocabulary of the handler statements *)
(* ===================================================================== *)

(** The event is a call that threw the message [m]: a comment being
    posted or, for the label handler, the maintainer check. *)
Definition is_failed_post (m : string) (e : Event) : bool :=
  match e with
  | EvPostComment _ _ _ (Thrown m') => String.eqb m m'
  | _ => false
  end.

Definition is_failed_post_or_check (m : string) (e : Event) : bool :=
  match e with
  | EvPostComment _ _ _ (Thrown m') => String.eqb m m'
  | EvCheckIsMaintainer _ _ (Thrown m') => String.eqb m m'
  | _ => false
  end.

(** An exception leaves the computation only as the failure of its last
    call, a call of the class [P]. *)
Definition escapes_via {W A : Type} (P : string -> Event -> bool)
  (m : Eff (W:=W) (Ev:=Event) A) : Prop :=
  forall w tr0 e,
    fst (m (w, tr0)) = Thrown e ->
    exists ev, last (snd (snd (m (w, tr0)))) = Some ev /\ P e ev = true.

(** The computation returns whatever the world answers. *)
Definition never_throws {W Ev A : Type} (m : Eff (W:=W) (Ev:=Ev) A) : Prop :=
  forall s, exists a, fst (m s) = Returned a.

(** The notifications of a trace, in order: provider name and response. *)
Definition notified {W : Type} (data : NotificationData.t)
  (providers : list (INotificationProvider W)) (tr : list Event) : Prop :=
  Forall2 (fun provider e => exists r, e = EvNotify (getName provider) data r)
          providers tr.

(** The notification the claim handler sends after a release. *)
Definition claimed_notification (repo : string) (linked : LinkedIssue.t)
  (prNumber : Z) (commenter : string) (tx : TransactionResult)
  : NotificationData.t :=
  {| NotificationData.repository := repo;
     NotificationData.issueNumber := LinkedIssue.number linked;
     NotificationData.prNumber := Some prNumber;
     NotificationData.contributor := commenter;
     NotificationData.amount := LinkedIssue.bountyAmount linked;
     NotificationData.transactionUrl := explorerUrl tx;
     NotificationData.eventType := NotificationData.bounty_claimed |}.

(* ===================================================================== *)
(** * The webhook entry point and the commands ([core/BountyManager.ts]) *)
(* ===================================================================== *)

Module Webhook.

(** [payload.comment]: the fields the comment handler reads; [None] is a
    missing field. *)
Record Comment : Type := {
  body : option string;
  user_login : option string
}.

(** The webhook payload: the action, the comment, whether
    [payload.issue?.pull_request] is defined, and the fields the label
    handler reads as well. *)
Record Payload : Type := {
  action : option string;
  comment : option Comment;
  issue_pull_request : bool;
  fields : BountyManager.WebhookPayload
}.

(** [s] consists of white space only. *)
Definition is_whitespace_only (s : string) : bool :=
  Nat.eqb (IssueReferences.whitespace_run (String.length s) s) (String.length s).

(** [String.prototype.trim]: the white space of the class [\s] removed at
    both ends. *)
Definition trimStart (s : string) : string :=
  IssueReferences.skip_chars
    (IssueReferences.whitespace_run (String.length s) s) s.

Fixpoint trimEnd (s : string) : string :=
  match s with
  | EmptyString => EmptyString
  | String c rest =>
      if is_whitespace_only s then EmptyString else String c (trimEnd rest)
  end.

Definition trim (s : string) : string := trimEnd (trimStart s).

(** [s.startsWith(prefix)] *)
Definition startsWith (s prefix : string) : bool := String.prefix prefix s.

Definition MSG_ASSIGNED (username : string) : string :=
  "@" +:+ username +:+ " has been assigned to this issue.".

Definition MSG_ASSIGN_ON_PR : string :=
  "The `/assign` command can only be used on issues, not pull requests.".

Definition MSG_CLAIM_ON_ISSUE : string :=
  "The `/claim` command must be used on the merged pull request, not on the issue.".

(** The notification of an assignment. *)
Definition assignment_notification (repo : string) (issueNumber : Z)
  (username : string) : NotificationData.t :=
  {| NotificationData.repository := repo;
     NotificationData.issueNumber := issueNumber;
     NotificationData.prNumber := None;
     NotificationData.contributor := username;
     NotificationData.amount := 0;
     NotificationData.transactionUrl := EmptyString;
     NotificationData.eventType := NotificationData.assignment |}.

Section WithProviders.
Context {W : Type} `{IIssueProvider W} `{IPaymentProvider W} `{JsRuntime}.

(** [handleAssign]: the [/assign] command. *)
Definition handleAssign (this : BountyManager.t W) (repo : string)
  (issueNumber : Z) (username : string) : Eff (W:=W) (Ev:=Event) unit :=
  let! r := attempt (
    let! _ := external (assignIssue repo issueNumber username)
                       (EvAssignIssue repo issueNumber username) in
    let! _ := BountyManager.post repo issueNumber (MSG_ASSIGNED username) in
    BountyManager.notifyAll this (assignment_notification repo issueNumber username)) in
  match r with
  | Returned _ => ret tt
  | Thrown m => BountyManager.post repo issueNumber ("Failed to assign issue: " +:+ m)
  end.

(** [handleComment]: a comment on an issue or a pull request. *)
Definition handleComment (this : BountyManager.t W) (payload : Payload)
  : Eff (W:=W) (Ev:=Event) unit :=
  let commentBody :=
    match comment payload with
    | Some c => option_map trim (body c)
    | None => None
    end in
  let commenter :=
    match comment payload with
    | Some c => user_login c
    | None => None
    end in
  let isPullRequest := issue_pull_request payload in
  match BountyManager.required_text commentBody,
        BountyManager.required_text commenter,
        BountyManager.required_number (BountyManager.issue_number (fields payload)),
        BountyManager.required_text
          (BountyManager.repository_full_name (fields payload)) with
  | Some commentBody, Some commenter, Some issueNumber, Some repo =>
      (* Handle /assign *)
      if String.eqb commentBody "/assign" then
        if isPullRequest then BountyManager.post repo issueNumber MSG_ASSIGN_ON_PR
        else handleAssign this repo issueNumber commenter
      (* Handle /claim *)
      else if startsWith commentBody "/claim" then
        if negb isPullRequest
        then BountyManager.post repo issueNumber MSG_CLAIM_ON_ISSUE
        else BountyManager.handleClaim this repo issueNumber commenter commentBody
      else ret tt
  | _, _, _, _ => throw "Missing required fields in comment event"
  end.

(** [handleWebhook]: verify the signature, then dispatch on the action. *)
Definition handleWebhook (this : BountyManager.t W) (payload : Payload)
  (signature : string) (rawBody : Buffer) (secret : string)
  : Eff (W:=W) (Ev:=Event) unit :=
  let! isValid := lift (verifyWebhook rawBody signature secret) in
  if negb isValid then throw "Invalid webhook signature"
  else
    match action payload with
    | Some a =>
        if String.eqb a "labeled" then BountyManager.handleLabeled this (fields payload)
        else if String.eqb a "created" then
          match comment payload with
          | Some _ => handleComment this payload
          | None => ret tt
          end
        else ret tt
    | None => ret tt
    end.

End WithProviders.

End Webhook.

(* ===================================================================== *)
(** * The HTTP route ([bounty-bot-server/src/routes/webhook.ts]) *)
(* ===================================================================== *)

Module WebhookRoute.

(** The JSON body of a response. *)
Inductive Body : Type :=
| success
| error (message : string).

Record Response : Type := {
  status : Z;
  json : Body
}.

(** [hay.includes(needle)] *)
Fixpoint includes (hay needle : string) : bool :=
  String.prefix needle hay ||
  match hay with
  | EmptyString => false
  | String _ rest => includes rest needle
  end.

Section WithProviders.
Context {W : Type} `{IIssueProvider W} `{IPaymentProvider W} `{JsRuntime}.

(** The handler of [POST /webhook]: [rawBody] is [req.rawBody], [signature]
    the header [x-hub-signature-256], [body] the parsed payload and
    [secret] the configured webhook secret. *)
Definition post_webhook (bountyManager : BountyManager.t W)
  (rawBody : option Buffer) (signature : option string)
  (body : Webhook.Payload) (secret : string)
  : Eff (W:=W) (Ev:=Event) Response :=
  match rawBody with
  | None => ret {| status := 400; json := error "Bad Request: Raw body missing" |}
  | Some rawBody =>
      match BountyManager.required_text signature with
      | None =>
          ret {| status := 401; json := error "Unauthorized: Signature missing" |}
      | Some signature =>
          let! r := attempt (Webhook.handleWebhook bountyManager body signature
                               rawBody secret) in
          match r with
          | Returned _ => ret {| status := 200; json := success |}
          | Thrown message =>
              if includes message "Invalid webhook signature" then
                ret {| status := 401; json := error "Unauthorized: Invalid signature" |}
              else if includes message "Missing required fields" then
                ret {| status := 400; json := error "Bad Request: Invalid payload" |}
              else
                ret {| status := 500; json := error "Internal Server Error" |}
          end
      end
  end.

End WithProviders.

End WebhookRoute.

(* ===================================================================== *)
(** * Issue queries of the tracker ([providers/issue/GithubProvider.ts]) *)
(* ===================================================================== *)

Module Issue.
Record t : Type := {
  number : Z;
  title : option string;
  body : option string;
  labels : list string;
  assignees : list string;
  state : PullRequest.State
}.
End Issue.

(** A timeline event: [event.event] and [event.assignee?.login]. *)
Record TimelineEvent : Type := {
  event : string;
  assignee_login : option string
}.

(** The requests of the issue queries, each answering its data or the
    message of the failure
    ([error.response?.data?.message || error.message]). *)
Class GitHubRest (W : Type) : Type := {
  (** [axios.get(".../issues/<n>")] *)
  requestIssue : string -> Z -> W -> outcome Issue.t * W;
  (** [axios.get(".../issues/<n>/timeline")] *)
  requestTimeline : string -> Z -> W -> outcome (list TimelineEvent) * W;
  (** [axios.get(".../collaborators/<user>/permission")]: [data.permission] *)
  requestPermission : string -> string -> W -> outcome string * W
}.

Inductive RestEvent : Type :=
| EvRequestIssue (repo : string) (issueNumber : Z) (r : outcome Issue.t)
| EvRequestTimeline (repo : string) (issueNumber : Z)
    (r : outcome (list TimelineEvent))
| EvRequestPermission (repo : string) (username : string) (r : outcome string).

Module GitHubQueries.

Section WithRest.
Context {W : Type} `{GitHubRest W}.

(** [getIssue] *)
Definition getIssue (repository : string) (issueNumber : Z)
  : Eff (W:=W) (Ev:=RestEvent) Issue.t :=
  let! r := attempt (external (requestIssue repository issueNumber)
                       (EvRequestIssue repository issueNumber)) in
  match r with
  | Returned issue => ret issue
  | Thrown m => throw ("Failed to get issue: " +:+ m)
  end.

(** [event.event === "assigned" && event.assignee?.login === username] *)
Definition is_assignment_of (username : string) (e : TimelineEvent) : bool :=
  String.eqb (event e) "assigned" &&
  match assignee_login e with
  | Some login => String.eqb login username
  | None => false
  end.

(** [wasUserEverAssigned] *)
Definition wasUserEverAssigned (repository : string) (issueNumber : Z)
  (username : string) : Eff (W:=W) (Ev:=RestEvent) bool :=
  (* Check current assignees *)
  let! issue := getIssue repository issueNumber in
  if existsb (String.eqb username) (Issue.assignees issue) then ret true
  else
    (* Check timeline for past assignments *)
    let! r := attempt (external (requestTimeline repository issueNumber)
                         (EvRequestTimeline repository issueNumber)) in
    match r with
    | Returned events =>
        ret (0 <? length (List.filter (is_assignment_of username) events))%nat
    | Thrown _ => ret false
    end.

(** [checkIsMaintainer] *)
Definition checkIsMaintainer (repository username : string)
  : Eff (W:=W) (Ev:=RestEvent) bool :=
  let! r := attempt (external (requestPermission repository username)
                       (EvRequestPermission repository username)) in
  match r with
  | Returned permission =>
      ret (String.eqb permission "admin" || String.eqb permission "maintain")
  | Thrown _ => ret false
  end.

End WithRest.

(** The awaited method as the manager sees it: the answer and the world
    after the requests. *)
Definition awaited {W A : Type} (m : Eff (W:=W) (Ev:=RestEvent) A)
  : W -> outcome A * W :=
  fun w => (result_of (run m w), world_of (run m w)).

End GitHubQueries.

(* ===================================================================== *)
(** * A tracker with a comment budget, for examples *)
(* ===================================================================== *)

Module FlakyTracker.

(** The world is the number of comments the tracker still accepts, and
    the permission the tracker reports for [maintainer]; with none, the
    permission and timeline requests fail. *)
Record world : Type := {
  budget : nat;
  permission : option string
}.

Definition spend (w : world) : world :=
  {| budget := pred (budget w); permission := permission w |}.

#[global] Instance rest : GitHubRest world := {|
  requestIssue := fun _ n w =>
    if n =? 42 then
      (Returned {| Issue.number := n; Issue.title := None; Issue.body := None;
                   Issue.labels := ["bounty-2-sol"]; Issue.assignees := ["bob"];
                   Issue.state := PullRequest.open |}, w)
    else (Thrown "Not Found", w);
  requestTimeline := fun _ _ w =>
    match permission w with
    | Some _ =>
        (Returned [ {| event := "labeled"; assignee_login := None |};
                    {| event := "assigned"; assignee_login := Some "alice" |} ], w)
    | None => (Thrown "Service Unavailable", w)
    end;
  requestPermission := fun _ user w =>
    match permission w with
    | Some p => (Returned (if String.eqb user "maintainer" then p else "read"), w)
    | None => (Thrown "Service Unavailable", w)
    end
|}.

#[global] Instance tracker : IIssueProvider world := {|
  verifyWebhook := fun body sig secret =>
    snd (Crypto.verifyGitHubSignature (H:=SampleCrypto.sample_crypto) body sig secret);
  postComment := fun _ _ _ w =>
    match budget w with
    | O => (Thrown "Failed to post comment: rate limit exceeded", w)
    | S _ => (Returned tt, spend w)
    end;
  assignIssue := fun _ n _ w =>
    if n =? 42 then (Returned tt, w)
    else (Thrown "Failed to assign issue: Not Found", w);
  getPullRequest := fun _ n w => (Returned (SampleWorld.sample_pr n), w);
  findLinkedIssueWithBounty := fun _ _ _ _ w =>
    (Returned (Some SampleWorld.sample_linked), w);
  wasUserEverAssigned := fun repo n user =>
    GitHubQueries.awaited (GitHubQueries.wasUserEverAssigned repo n user);
  isBountyAlreadyClaimed := fun _ _ w => (Returned false, w);
  checkIsMaintainer := fun repo user =>
    GitHubQueries.awaited (GitHubQueries.checkIsMaintainer repo user)
|}.

#[global] Instance payments : IPaymentProvider world := {|
  createEscrow := fun n _ _ w =>
    if n =? 42 then (Returned SampleWorld.sample_tx, w)
    else (Thrown "Escrow already exists for this issue", w);
  releaseEscrow := fun n _ _ w =>
    if n =? 42 then (Returned SampleWorld.sample_tx, w)
    else (Thrown "Escrow does not exist for this issue", w);
  escrowExists := fun n _ w => (Returned (n =? 42), w);
  getRepositoryHash := fun repo =>
    Returned (sha256_digest (NodeCrypto:=SampleCrypto.sample_crypto) repo);
  parseWalletAddress := fun s =>
    if String.eqb s "7xKXtg2C" then Returned 77
    else Thrown "Invalid Solana wallet address"
|}.

(** A notification provider that always fails, and one that works. *)
Definition broken : INotificationProvider world :=
  {| notify := fun _ w => (Thrown "socket hang up", w); getName := "Discord" |}.

Definition working : INotificationProvider world :=
  {| notify := fun _ w => (Returned tt, w); getName := "Slack" |}.

Definition manager : BountyManager.t world :=
  {| BountyManager.bountyConfig := {[ "bounty-2-sol" := 2000000000 ]};
     BountyManager.securityConfig := SampleWorld.no_flags;
     BountyManager.notificationProviders := [broken; working] |}.

Definition with_budget (n : nat) : world :=
  {| budget := n; permission := Some "admin" |}.

Definition offline (n : nat) : world :=
  {| budget := n; permission := None |}.

End FlakyTracker.

(* ===================================================================== *)
(** * Vocabulary of the label and webhook statements *)
(* ===================================================================== *)

Section LabelVocabulary.
Context {W : Type} `{IIssueProvider W}.

(** The maintainer check lets the sender through: it is disabled, or it
    answers [true] and leaves the world [w1]. *)
Definition maintainer_cleared (this : BountyManager.t W) (repo sender : string)
  (w w1 : W) : Prop :=
  if BountyManager.maintainer_required (BountyManager.securityConfig this)
  then checkIsMaintainer repo sender w = (Returned true, w1)
  else w1 = w.

(** The call the check leaves in the trace. *)
Definition maintainer_events (this : BountyManager.t W) (repo sender : string)
  : list Event :=
  if BountyManager.maintainer_required (BountyManager.securityConfig this)
  then [EvCheckIsMaintainer repo sender (Returned true)]
  else [].

End LabelVocabulary.

(** The notification the label handler sends after creating an escrow. *)
Definition created_notification (repo : string) (issueNumber : Z)
  (sender : string) (amount : Z) (tx : TransactionResult) : NotificationData.t :=
  {| NotificationData.repository := repo;
     NotificationData.issueNumber := issueNumber;
     NotificationData.prNumber := None;
     NotificationData.contributor := sender;
     NotificationData.amount := amount;
     NotificationData.transactionUrl := explorerUrl tx;
     NotificationData.eventType := NotificationData.bounty_created |}.

(** A payload of the action [created] carrying a comment. *)
Definition comment_event (repo : string) (issueNumber : Z) (commenter text : string)
  (on_pull_request : bool) : Webhook.Payload :=
  {| Webhook.action := Some "created";
     Webhook.comment := Some {| Webhook.body := Some text;
                                Webhook.user_login := Some commenter |};
     Webhook.issue_pull_request := on_pull_request;
     Webhook.fields :=
       {| BountyManager.issue_number := Some issueNumber;
          BountyManager.repository_full_name := Some repo;
          BountyManager.label_name := None;
          BountyManager.sender_login := Some commenter |} |}.

(** The provider calls each action may lead to: a [labeled] delivery only
    checks the maintainer, creates an escrow, comments and notifies; any
    other delivery never checks a maintainer and never creates an escrow. *)
Definition is_label_call (e : Event) : bool :=
  match e with
  | EvCheckIsMaintainer _ _ _ | EvCreateEscrow _ _ _ _
  | EvPostComment _ _ _ _ | EvNotify _ _ _ => true
  | _ => false
  end.

Definition is_comment_call (e : Event) : bool :=
  match e with
  | EvCheckIsMaintainer _ _ _ | EvCreateEscrow _ _ _ _ => false
  | _ => true
  end.

Definition call_allowed_for (action : option string) (e : Event) : bool :=
  match action with
  | Some a => if String.eqb a "labeled" then is_label_call e else is_comment_call e
  | None => is_comment_call e
  end.

(** ** Sample deliveries *)

Definition sample_body : Buffer := [123; 125].

Definition sample_secret : string := "s3cret".

Definition sample_signature : string :=
  Crypto.sign (H:=SampleCrypto.sample_crypto) sample_body sample_secret.

(** No escrow is funded. *)
Definition unfunded_world : SampleWorld.world :=
  {| SampleWorld.comments := []; SampleWorld.funded := [];
     SampleWorld.account_type := "Bot" |}.

(** A labeled delivery without a label. *)
Definition unlabeled_event : BountyManager.WebhookPayload :=
  {| BountyManager.issue_number := Some 42;
     BountyManager.repository_full_name := Some "org/repo";
     BountyManager.label_name := None;
     BountyManager.sender_login := Some "maintainer" |}.
(* ===================================================================== *)
(** * Little-endian lemmas *)
(* ===================================================================== *)

Lemma le_bytes_length (width : nat) (v : Z) : length (le_bytes width v) = width.
Proof.
  revert v; induction width as [|k IH]; intros v; simpl; [reflexivity|].
  now rewrite IH.
Qed.

Lemma le_bytes_is_bytes (width : nat) (v : Z) : is_bytes (le_bytes width v).
Proof.
  revert v; induction width as [|k IH]; intros v; simpl; constructor.
  - unfold is_byte. apply Z.mod_pos_bound. lia.
  - apply IH.
Qed.

Lemma le_value_le_bytes (width : nat) (v : Z) :
  le_value (le_bytes width v) = v mod 256 ^ Z.of_nat width.
Proof.
  revert v; induction width as [|k IH]; intros v.
  - simpl. now rewrite Z.mod_1_r.
  - cbn [le_bytes le_value]. rewrite IH.
    rewrite Nat2Z.inj_succ, Z.pow_succ_r by lia.
    rewrite Z.rem_mul_r by lia. reflexivity.
Qed.

Lemma le_value_le_bytes_u64 (v : Z) :
  0 <= v < U64_LIMIT -> le_value (le_bytes 8 v) = v.
Proof.
  intros Hv. rewrite le_value_le_bytes.
  apply Z.mod_small. unfold U64_LIMIT in Hv. simpl. lia.
Qed.

Lemma Buffer_from_array_bytes (bs : list Z) :
  is_bytes bs -> Buffer_from_array bs = bs.
Proof.
  unfold Buffer_from_array, is_bytes.
  induction 1 as [|b rest Hb _ IH]; simpl; [reflexivity|].
  rewrite IH. f_equal. apply Z.mod_small. exact Hb.
Qed.


(* ===================================================================== *)
(** * Instruction encoding *)
(* ===================================================================== *)

Section Encoding.
Import Borsh Schemas.

Lemma writeU64_u64 (v : Z) : is_u64 v -> writeU64 v = Returned (le_bytes 8 v).
Proof.
  intros [Hlo Hhi]. unfold writeU64.
  rewrite Z.abs_eq by exact Hlo.
  destruct (Z.ltb_spec v U64_LIMIT) as [_|Hge]; [reflexivity|lia].
Qed.

Lemma encodeCreateEscrow_layout (i : CreateEscrowInstruction) :
  wf_create i ->
  encodeCreateEscrow i =
    Returned ([0] ++ ce_repo_hash i ++ le_bytes 8 (ce_issue_number i)
              ++ le_bytes 8 (ce_amount i)).
Proof.
  intros (Hlen & Hbytes & Hissue & Hamount).
  unfold encodeCreateEscrow, CreateEscrowSchema. cbn [serializeStruct].
  cbn [CreateEscrow_field String.eqb Ascii.eqb Bool.eqb serializeField].
  cbn -[le_bytes Z.abs U64_LIMIT Buffer_from_array Nat.eqb].
  rewrite Hlen. cbn [Nat.eqb].
  rewrite (writeU64_u64 _ Hissue), (writeU64_u64 _ Hamount).
  rewrite (Buffer_from_array_bytes _ Hbytes).
  rewrite app_nil_r. reflexivity.
Qed.

Lemma encodeReleaseEscrow_layout (i : ReleaseEscrowInstruction) :
  wf_release i ->
  encodeReleaseEscrow i =
    Returned ([1] ++ re_repo_hash i ++ le_bytes 8 (re_issue_number i)).
Proof.
  intros (Hlen & Hbytes & Hissue).
  unfold encodeReleaseEscrow, ReleaseEscrowSchema. cbn [serializeStruct].
  cbn [ReleaseEscrow_field String.eqb Ascii.eqb Bool.eqb serializeField].
  cbn -[le_bytes Z.abs U64_LIMIT Buffer_from_array Nat.eqb].
  rewrite Hlen. cbn [Nat.eqb].
  rewrite (writeU64_u64 _ Hissue).
  rewrite (Buffer_from_array_bytes _ Hbytes).
  rewrite app_nil_r. reflexivity.
Qed.

Lemma is_bytes_app (a b : Buffer) : is_bytes a -> is_bytes b -> is_bytes (a ++ b).
Proof. unfold is_bytes. intros Ha Hb. apply Forall_app; split; assumption. Qed.

(** C1. For every CreateEscrow record with a 32-byte [repo_hash] and
    unsigned 64-bit [issue_number] and [amount], the instruction data is the
    byte [0], then the hash, then the issue number and the amount as eight
    little-endian bytes each, 1+32+8+8 = 49 bytes in all; for every
    ReleaseEscrow record it is the byte [1], the hash and the issue number,
    1+32+8 = 41 bytes; and records with the same fields encode to the same
    bytes. *)
Theorem encoding_deterministic_and_length_exact
  (c : CreateEscrowInstruction) (r : ReleaseEscrowInstruction) :
  wf_create c -> wf_release r ->
  (exists bytes,
      encodeCreateEscrow c = Returned bytes /\
      bytes = [0] ++ ce_repo_hash c
              ++ le_bytes 8 (ce_issue_number c) ++ le_bytes 8 (ce_amount c) /\
      length bytes = (1 + 32 + 8 + 8)%nat /\ is_bytes bytes) /\
  (exists bytes,
      encodeReleaseEscrow r = Returned bytes /\
      bytes = [1] ++ re_repo_hash r
              ++ le_bytes 8 (re_issue_number r) /\
      length bytes = (1 + 32 + 8)%nat /\ is_bytes bytes) /\
  le_value (le_bytes 8 (ce_issue_number c)) = ce_issue_number c /\
  le_value (le_bytes 8 (ce_amount c)) = ce_amount c /\
  le_value (le_bytes 8 (re_issue_number r)) = re_issue_number r /\
  (forall c', ce_repo_hash c' = ce_repo_hash c ->
              ce_issue_number c' = ce_issue_number c ->
              ce_amount c' = ce_amount c ->
              encodeCreateEscrow c' = encodeCreateEscrow c) /\
  (forall r', re_repo_hash r' = re_repo_hash r ->
              re_issue_number r' = re_issue_number r ->
              encodeReleaseEscrow r' = encodeReleaseEscrow r).
Proof.
  intros Hc Hr.
  pose proof Hc as (Hclen & Hcbytes & Hcissue & Hcamount).
  pose proof Hr as (Hrlen & Hrbytes & Hrissue).
  repeat split.
  - eexists. split; [apply encodeCreateEscrow_layout; exact Hc|].
    split; [reflexivity|]. split.
    + rewrite !length_app, !le_bytes_length, Hclen. reflexivity.
    + repeat apply is_bytes_app; try apply le_bytes_is_bytes; try assumption.
      constructor; [unfold is_byte; simpl; lia|constructor].
  - eexists. split; [apply encodeReleaseEscrow_layout; exact Hr|].
    split; [reflexivity|]. split.
    + rewrite !length_app, !le_bytes_length, Hrlen. reflexivity.
    + repeat apply is_bytes_app; try apply le_bytes_is_bytes; try assumption.
      constructor; [unfold is_byte; simpl; lia|constructor].
  - apply le_value_le_bytes_u64, Hcissue.
  - apply le_value_le_bytes_u64, Hcamount.
  - apply le_value_le_bytes_u64, Hrissue.
  - intros [h n a] Hh Hn Ha. simpl in *. subst. destruct c; reflexivity.
  - intros [h n] Hh Hn. simpl in *. subst. destruct r; reflexivity.
Qed.

Lemma sample_hash_bytes : is_bytes sample_hash.
Proof.
  unfold sample_hash, is_bytes. simpl.
  repeat (constructor; [unfold is_byte; lia|]). constructor.
Qed.

Lemma encoding_witness :
  (exists bytes, encodeCreateEscrow sample_create = Returned bytes /\
                 length bytes = 49%nat) /\
  (exists bytes, encodeReleaseEscrow sample_release = Returned bytes /\
                 length bytes = 41%nat).
Proof.
  assert (Hc : wf_create sample_create).
  { repeat split; try apply sample_hash_bytes; unfold U64_LIMIT; simpl; lia. }
  assert (Hr : wf_release sample_release).
  { repeat split; try apply sample_hash_bytes; unfold U64_LIMIT; simpl; lia. }
  destruct (encoding_deterministic_and_length_exact sample_create sample_release Hc Hr)
    as ((cb & Hcb & _ & Hclen & _) & (rb & Hrb & _ & Hrlen & _) & _).
  split; [exists cb | exists rb]; split; assumption.
Defined.

End Encoding.

(* ===================================================================== *)
(** * Escrow address derivation *)
(* ===================================================================== *)

Section Derivation.
Import SolanaProvider.
Context {W : Type} `{Web3 W}.











End Derivation.


(* ===================================================================== *)
(** * Signature verification *)
(* ===================================================================== *)

Section Signature.
Import Crypto.
Context `{NodeCrypto}.

Lemma Buffer_from_string_length (s : string) :
  length (Buffer_from_string s) = String.length s.
Proof.
  unfold Buffer_from_string. rewrite length_map.
  induction s as [|c s IH]; simpl; [reflexivity|]. now rewrite IH.
Qed.

Lemma Buffer_from_string_inj (s t : string) :
  Buffer_from_string s = Buffer_from_string t -> s = t.
Proof.
  unfold Buffer_from_string. revert t.
  induction s as [|c s IH]; intros [|d t] Heq; simpl in Heq; try discriminate.
  - reflexivity.
  - injection Heq as Hc Hs. apply N2Z.inj in Hc.
    apply (f_equal ascii_of_N) in Hc. rewrite !ascii_N_embedding in Hc.
    subst d. f_equal. apply IH, Hs.
Qed.

Lemma append_length (s t : string) :
  String.length (s +:+ t) = (String.length s + String.length t)%nat.
Proof. induction s as [|c s IH]; simpl; [reflexivity|]. now rewrite IH. Qed.

Lemma append_cons (c : ascii) (s t : string) :
  String c s +:+ t = String c (s +:+ t).
Proof. reflexivity. Qed.


Lemma expected_length (secret : string) (body : Buffer) :
  length (Buffer_from_string ("sha256=" +:+ hmac_sha256_hex secret body)) = 71%nat.
Proof.
  rewrite Buffer_from_string_length, append_length, hmac_sha256_hex_length.
  reflexivity.
Qed.

(** Fails closed: an empty signature or an empty secret is rejected before
    any hash is computed or compared. *)
Lemma verify_fails_closed (body : Buffer) (signature secret : string) :
  signature = EmptyString \/ secret = EmptyString ->
  verifyGitHubSignature body signature secret = ([], Returned false).
Proof.
  unfold verifyGitHubSignature. intros [-> | ->]; simpl; [reflexivity|].
  rewrite orb_true_r. reflexivity.
Qed.

(** With both present, the verifier throws exactly when the signature does
    not have the 71 bytes of [sha256=<64 hex digits>]. *)
Lemma verify_throws_on_length (body : Buffer) (signature secret : string) :
  signature <> EmptyString -> secret <> EmptyString ->
  String.length signature <> 71%nat ->
  snd (verifyGitHubSignature body signature secret)
  = Thrown "Input buffers must have the same byte length".
Proof.
  intros Hsig Hsec Hlen. unfold verifyGitHubSignature.
  destruct signature as [|c s]; [contradiction|].
  destruct secret as [|d t]; [contradiction|].
  cbn [falsy_string orb snd]. unfold timingSafeEqual.
  rewrite expected_length, Buffer_from_string_length.
  destruct (Nat.eqb_spec (String.length (String c s)) 71); [contradiction|reflexivity].
Qed.

(** C3, at the failing input: for the signature [sha256=00] and the secret
    [s3cret] the verifier computes the hash and then throws in
    [timingSafeEqual] instead of returning [false]. *)
Theorem verifyGitHubSignature_throws_on_short_signature (body : Buffer) :
  verifyGitHubSignature body "sha256=00" "s3cret"
  = ([EvHmac "s3cret" body;
      EvTimingSafeEqual (Buffer_from_string "sha256=00")
        (Buffer_from_string ("sha256=" +:+ hmac_sha256_hex "s3cret" body))],
     Thrown "Input buffers must have the same byte length").
Proof.
  unfold verifyGitHubSignature. cbn [falsy_string orb].
  f_equal. unfold timingSafeEqual.
  rewrite expected_length. reflexivity.
Qed.



End Signature.



(* ===================================================================== *)
(** * The claim validation pipeline *)
(* ===================================================================== *)

Section Pipeline.
Import SecurityValidator.
Context {W : Type} `{IIssueProvider W} `{JsRuntime}.

(** The flags as the validator reads them. *)
Lemma merged_required (config : SecurityConfig) :
  requireMergedPR config <> Some false -> mergedPR_required config = true.
Proof.
  unfold mergedPR_required. destruct (requireMergedPR config) as [[|]|];
    [reflexivity|contradiction|reflexivity].
Qed.

Lemma merged_check_passes (config : SecurityConfig) (pr : PullRequest.t) :
  requireMergedPR config = Some false \/ PullRequest.merged pr = true ->
  mergedPR_required config && negb (PullRequest.merged pr) = false.
Proof.
  unfold mergedPR_required. intros [-> | ->]; [reflexivity|].
  apply andb_false_r.
Qed.

Lemma assignment_is_checked (config : SecurityConfig) :
  skipAssignmentCheck config <> Some true -> assignment_checked config = true.
Proof.
  unfold assignment_checked. destruct (skipAssignmentCheck config) as [[|]|];
    [contradiction|reflexivity|reflexivity].
Qed.

Lemma assignment_is_skipped (config : SecurityConfig) :
  skipAssignmentCheck config = Some true -> assignment_checked config = false.
Proof. unfold assignment_checked. intros ->. reflexivity. Qed.

(** C5. [validateClaim] always returns a result, and which one is decided
    by the checks in order. Check 1 fetches the pull request: a failure of
    that call, or a pull request that is not merged (unless
    [requireMergedPR] is [false]), ends the validation after that one call.
    Check 2 compares the author with the commenter without a call. Check 3
    asks for the linked issue with that pull request and the bounty
    configuration: a failure or no issue ends the validation after two
    calls. Check 4 (unless [skipAssignmentCheck] is [true]) asks whether the
    commenter was assigned to that issue: a failure or the answer [false]
    ends the validation after three calls. Check 5 asks whether the bounty
    of that issue was claimed: only the answer [true] makes the result
    invalid, a failure of the lookup leaves it valid. Every invalid result
    has one message and no linked issue; the result is valid, with the
    linked issue of check 3, exactly when checks 1 to 4 passed and check 5
    did not answer [true]. *)
Theorem validateClaim_short_circuits
  (config : SecurityConfig) (repo : string) (prNumber : Z) (commenter : string)
  (bountyConfig : gmap string Z) (w : W) :
  (exists v w' tr,
      run (validateClaim config repo prNumber commenter bountyConfig) w
      = (Returned v, (w', tr)) /\
      (isValid v = true <->
       exists pr linked w1 w3 w4 r5,
         getPullRequest repo prNumber w = (Returned pr, w1) /\
         (requireMergedPR config = Some false \/ PullRequest.merged pr = true) /\
         PullRequest.user_login pr = commenter /\
         findLinkedIssueWithBounty repo prNumber pr bountyConfig w1
         = (Returned (Some linked), w3) /\
         (skipAssignmentCheck config = Some true /\ w4 = w3 \/
          skipAssignmentCheck config <> Some true /\
          wasUserEverAssigned repo (LinkedIssue.number linked) commenter w3
          = (Returned true, w4)) /\
         isBountyAlreadyClaimed repo (LinkedIssue.number linked) w4 = (r5, w') /\
         r5 <> Returned true /\
         v = valid_for linked) /\
      (isValid v = false ->
       linkedIssue v = None /\ exists message, errors v = [message])) /\
  (forall m w1,
      getPullRequest repo prNumber w = (Thrown m, w1) ->
      run (validateClaim config repo prNumber commenter bountyConfig) w
      = (Returned (invalid_with ("Failed to verify pull request: " +:+ m)),
         (w1, [EvGetPullRequest repo prNumber (Thrown m)]))) /\
  (forall pr w1,
      getPullRequest repo prNumber w = (Returned pr, w1) ->
      (requireMergedPR config <> Some false -> PullRequest.merged pr = false ->
       run (validateClaim config repo prNumber commenter bountyConfig) w
       = (Returned (invalid_with MSG_NOT_MERGED),
          (w1, [EvGetPullRequest repo prNumber (Returned pr)]))) /\
      (requireMergedPR config = Some false \/ PullRequest.merged pr = true ->
       (PullRequest.user_login pr <> commenter ->
        run (validateClaim config repo prNumber commenter bountyConfig) w
        = (Returned (invalid_with
                       (MSG_NOT_AUTHOR commenter (PullRequest.user_login pr))),
           (w1, [EvGetPullRequest repo prNumber (Returned pr)]))) /\
       (PullRequest.user_login pr = commenter ->
        (forall m w3,
            findLinkedIssueWithBounty repo prNumber pr bountyConfig w1
            = (Thrown m, w3) ->
            run (validateClaim config repo prNumber commenter bountyConfig) w
            = (Returned (invalid_with ("Failed to verify linked issue: " +:+ m)),
               (w3, [EvGetPullRequest repo prNumber (Returned pr);
                     EvFindLinkedIssueWithBounty repo prNumber (Thrown m)]))) /\
        (forall w3,
            findLinkedIssueWithBounty repo prNumber pr bountyConfig w1
            = (Returned None, w3) ->
            run (validateClaim config repo prNumber commenter bountyConfig) w
            = (Returned (invalid_with MSG_NO_BOUNTY),
               (w3, [EvGetPullRequest repo prNumber (Returned pr);
                     EvFindLinkedIssueWithBounty repo prNumber (Returned None)]))) /\
        (forall linked w3,
            findLinkedIssueWithBounty repo prNumber pr bountyConfig w1
            = (Returned (Some linked), w3) ->
            (skipAssignmentCheck config <> Some true ->
             (forall m w4,
                 wasUserEverAssigned repo (LinkedIssue.number linked) commenter w3
                 = (Thrown m, w4) ->
                 run (validateClaim config repo prNumber commenter bountyConfig) w
                 = (Returned (invalid_with ("Failed to verify assignment: " +:+ m)),
                    (w4, [EvGetPullRequest repo prNumber (Returned pr);
                          EvFindLinkedIssueWithBounty repo prNumber
                            (Returned (Some linked));
                          EvWasUserEverAssigned repo (LinkedIssue.number linked)
                            commenter (Thrown m)]))) /\
             (forall w4,
                 wasUserEverAssigned repo (LinkedIssue.number linked) commenter w3
                 = (Returned false, w4) ->
                 run (validateClaim config repo prNumber commenter bountyConfig) w
                 = (Returned (invalid_with
                                (MSG_NOT_ASSIGNED commenter (LinkedIssue.number linked))),
                    (w4, [EvGetPullRequest repo prNumber (Returned pr);
                          EvFindLinkedIssueWithBounty repo prNumber
                            (Returned (Some linked));
                          EvWasUserEverAssigned repo (LinkedIssue.number linked)
                            commenter (Returned false)]))) /\
             (forall w4 r5 w5,
                 wasUserEverAssigned repo (LinkedIssue.number linked) commenter w3
                 = (Returned true, w4) ->
                 isBountyAlreadyClaimed repo (LinkedIssue.number linked) w4
                 = (r5, w5) ->
                 run (validateClaim config repo prNumber commenter bountyConfig) w
                 = (Returned (after_check5 linked r5),
                    (w5, [EvGetPullRequest repo prNumber (Returned pr);
                          EvFindLinkedIssueWithBounty repo prNumber
                            (Returned (Some linked));
                          EvWasUserEverAssigned repo (LinkedIssue.number linked)
                            commenter (Returned true);
                          EvIsBountyAlreadyClaimed repo (LinkedIssue.number linked)
                            r5])))) /\
            (skipAssignmentCheck config = Some true ->
             forall r5 w5,
               isBountyAlreadyClaimed repo (LinkedIssue.number linked) w3
               = (r5, w5) ->
               run (validateClaim config repo prNumber commenter bountyConfig) w
               = (Returned (after_check5 linked r5),
                  (w5, [EvGetPullRequest repo prNumber (Returned pr);
                        EvFindLinkedIssueWithBounty repo prNumber
                          (Returned (Some linked));
                        EvIsBountyAlreadyClaimed repo (LinkedIssue.number linked)
                          r5]))))))).
Proof.
  unfold validateClaim, check4, check5, run, bind, attempt, external, ret.
  cbn [fst snd app].
  split; [|split].
  - destruct (getPullRequest repo prNumber w) as [[pr|m1] w1] eqn:Hpr;
      cbn [fst snd app].
    2:{ eexists _, _, _. split; [reflexivity|]. split; [split|].
        - discriminate.
        - intros (? & ? & ? & ? & ? & ? & H1 & _). discriminate H1.
        - intros _. split; [reflexivity|]. eexists. reflexivity. }
    destruct (mergedPR_required config && negb (PullRequest.merged pr)) eqn:Hmerged.
    { eexists _, _, _. split; [reflexivity|]. split; [split|].
      - discriminate.
      - intros (pr' & ? & ? & ? & ? & ? & H1 & Hm & _). injection H1 as <- <-.
        rewrite (merged_check_passes _ _ Hm) in Hmerged. discriminate.
      - intros _. split; [reflexivity|]. eexists. reflexivity. }
    destruct (String.eqb_spec (PullRequest.user_login pr) commenter) as [Hauthor|Hauthor];
      cbn [negb fst snd app].
    2:{ eexists _, _, _. split; [reflexivity|]. split; [split|].
        - discriminate.
        - intros (pr' & ? & ? & ? & ? & ? & H1 & _ & Ha & _). injection H1 as <- <-.
          contradiction.
        - intros _. split; [reflexivity|]. eexists. reflexivity. }
    assert (Hm : requireMergedPR config = Some false \/ PullRequest.merged pr = true).
    { unfold mergedPR_required in Hmerged.
      destruct (requireMergedPR config) as [[|]|]; auto;
        destruct (PullRequest.merged pr); auto; discriminate. }
    destruct (findLinkedIssueWithBounty repo prNumber pr bountyConfig w1)
      as [[[linked|]|m3] w3] eqn:Hfind; cbn [fst snd app].
    2,3: eexists _, _, _; (split; [reflexivity|]); (split; [split|]);
         [ discriminate
         | intros (pr' & ? & ? & ? & ? & ? & H1 & _ & _ & H3 & _);
           injection H1 as <- <-; rewrite Hfind in H3; discriminate
         | intros _; split; [reflexivity|]; eexists; reflexivity ].
    destruct (assignment_checked config) eqn:Hchecked; cbn [fst snd app].
    + assert (Hskip : skipAssignmentCheck config <> Some true).
      { intros Hs. rewrite (assignment_is_skipped _ Hs) in Hchecked. discriminate. }
      destruct (wasUserEverAssigned repo (LinkedIssue.number linked) commenter w3)
        as [[[|]|m4] w4] eqn:Hwas; cbn [fst snd app].
      2,3: eexists _, _, _; (split; [reflexivity|]); (split; [split|]);
           [ discriminate
           | intros (pr' & linked' & ? & ? & ? & ? & H1 & _ & _ & H3 & [[Hs _]|[_ H4]] & _);
             [ contradiction
             | injection H1 as <- <-; rewrite Hfind in H3; injection H3 as <- <-;
               rewrite Hwas in H4; discriminate ]
           | intros _; split; [reflexivity|]; eexists; reflexivity ].
      destruct (isBountyAlreadyClaimed repo (LinkedIssue.number linked) w4)
        as [[[|]|m5] w5] eqn:Hclaimed; cbn [fst snd app].
      * eexists _, _, _. split; [reflexivity|]. split; [split|].
        -- discriminate.
        -- intros (pr' & linked' & ? & ? & ? & ? & H1 & _ & _ & H3 & [[Hs _]|[_ H4]] & H5 & Hr & _);
             [contradiction|].
           injection H1 as <- <-. rewrite Hfind in H3. injection H3 as <- <-.
           rewrite Hwas in H4. injection H4 as <-. rewrite Hclaimed in H5.
           exfalso. apply Hr. congruence.
        -- intros _. split; [reflexivity|]. eexists. reflexivity.
      * eexists _, _, _. split; [reflexivity|]. split; [split|].
        -- intros _. exists pr, linked, w1, w3, w4, (Returned false).
           repeat split; auto; discriminate.
        -- reflexivity.
        -- discriminate.
      * eexists _, _, _. split; [reflexivity|]. split; [split|].
        -- intros _. exists pr, linked, w1, w3, w4, (Thrown m5).
           repeat split; auto; discriminate.
        -- reflexivity.
        -- discriminate.
    + assert (Hskip : skipAssignmentCheck config = Some true).
      { unfold assignment_checked in Hchecked.
        destruct (skipAssignmentCheck config) as [[|]|]; first [reflexivity|discriminate]. }
      destruct (isBountyAlreadyClaimed repo (LinkedIssue.number linked) w3)
        as [[[|]|m5] w5] eqn:Hclaimed; cbn [fst snd app].
      * eexists _, _, _. split; [reflexivity|]. split; [split|].
        -- discriminate.
        -- intros (pr' & linked' & ? & ? & ? & ? & H1 & _ & _ & H3 & [[_ ->]|[Hs _]] & H5 & Hr & _);
             [|contradiction].
           injection H1 as <- <-. rewrite Hfind in H3. injection H3 as <- <-.
           rewrite Hclaimed in H5. exfalso. apply Hr. congruence.
        -- intros _. split; [reflexivity|]. eexists. reflexivity.
      * eexists _, _, _. split; [reflexivity|]. split; [split|].
        -- intros _. exists pr, linked, w1, w3, w3, (Returned false).
           repeat split; auto; discriminate.
        -- reflexivity.
        -- discriminate.
      * eexists _, _, _. split; [reflexivity|]. split; [split|].
        -- intros _. exists pr, linked, w1, w3, w3, (Thrown m5).
           repeat split; auto; discriminate.
        -- reflexivity.
        -- discriminate.
  - intros m w1 Hpr. rewrite Hpr. reflexivity.
  - intros pr w1 Hpr. rewrite Hpr. cbn [fst snd app]. split.
    + intros Hreq Hmerged. rewrite (merged_required _ Hreq), Hmerged. reflexivity.
    + intros Hpass. rewrite (merged_check_passes _ _ Hpass). split.
      * intros Hauthor. apply String.eqb_neq in Hauthor. rewrite Hauthor. reflexivity.
      * intros Hauthor. apply String.eqb_eq in Hauthor. rewrite Hauthor.
        cbn [negb fst snd app]. split; [|split].
        -- intros m w3 Hfind. rewrite Hfind. reflexivity.
        -- intros w3 Hfind. rewrite Hfind. reflexivity.
        -- intros linked w3 Hfind. rewrite Hfind. cbn [fst snd app]. split.
           ++ intros Hskip. rewrite (assignment_is_checked _ Hskip).
              cbn [fst snd app]. split; [|split].
              ** intros m w4 Hwas. rewrite Hwas. reflexivity.
              ** intros w4 Hwas. rewrite Hwas. reflexivity.
              ** intros w4 r5 w5 Hwas Hclaimed. rewrite Hwas. cbn [fst snd app].
                 rewrite Hclaimed. destruct r5 as [[|]|m5]; reflexivity.
           ++ intros Hskip. rewrite (assignment_is_skipped _ Hskip).
              cbn [fst snd app].
              intros r5 w5 Hclaimed. rewrite Hclaimed.
              destruct r5 as [[|]|m5]; reflexivity.
Qed.

End Pipeline.

Lemma validateClaim_witness :
  result_of (run (SecurityValidator.validateClaim SampleWorld.no_flags "org/repo"
                    50 "alice" (BountyManager.bountyConfig SampleWorld.manager))
                 (SampleWorld.funded_world "Bot"))
  = Returned (valid_for SampleWorld.sample_linked).
Proof.
  destruct (validateClaim_short_circuits SampleWorld.no_flags "org/repo" 50 "alice"
              (BountyManager.bountyConfig SampleWorld.manager)
              (SampleWorld.funded_world "Bot"))
    as (_ & _ & Htable).
  destruct (Htable (SampleWorld.sample_pr 50) (SampleWorld.funded_world "Bot")
              eq_refl) as (_ & Hmerged).
  destruct (Hmerged (or_intror eq_refl)) as (_ & Hauthor).
  destruct (Hauthor eq_refl) as (_ & _ & Hlinked).
  destruct (Hlinked SampleWorld.sample_linked (SampleWorld.funded_world "Bot")
              eq_refl) as (Hchecked & _).
  assert (Hflag : skipAssignmentCheck SampleWorld.no_flags <> Some true)
    by discriminate.
  destruct (Hchecked Hflag) as (_ & _ & Hvalid).
  rewrite (Hvalid (SampleWorld.funded_world "Bot") (Returned false)
             (SampleWorld.funded_world "Bot") eq_refl eq_refl).
  reflexivity.
Defined.

(** Sanity checks of the sample world and of the comment parsing. *)
Example split_claim :
  BountyManager.split_whitespace "/claim  7xKXtg2C now" = ["/claim"; "7xKXtg2C"; "now"].
Proof. reflexivity. Qed.

Example split_bare_claim : BountyManager.walletStr_of "/claim" = None.
Proof. reflexivity. Qed.

Example split_trailing_space : BountyManager.split_whitespace "/claim " = ["/claim"; EmptyString].
Proof. reflexivity. Qed.

Example first_claim_releases :
  trace_of (run (BountyManager.handleClaim SampleWorld.manager "org/repo" 50 "alice"
                   "/claim 7xKXtg2C")
                (SampleWorld.funded_world "Bot"))
  = [EvGetPullRequest "org/repo" 50 (Returned (SampleWorld.sample_pr 50));
     EvFindLinkedIssueWithBounty "org/repo" 50 (Returned (Some SampleWorld.sample_linked));
     EvWasUserEverAssigned "org/repo" 42 "alice" (Returned true);
     EvIsBountyAlreadyClaimed "org/repo" 42 (Returned false);
     EvReleaseEscrow 42 (le_bytes 32 8) 77 (Returned SampleWorld.sample_tx);
     EvPostComment "org/repo" 50
       (BountyManager.MSG_BOUNTY_RELEASED "alice" SampleWorld.sample_linked 77
          "https://explorer.solana.com/tx/sig1?cluster=devnet") (Returned tt);
     EvPostComment "org/repo" 42
       (BountyManager.MSG_BOUNTY_CLAIMED "alice" 50
          "https://explorer.solana.com/tx/sig1?cluster=devnet") (Returned tt)].
Proof. vm_compute. reflexivity. Qed.

(* ===================================================================== *)
(** * Traces: what a computation may append *)
(* ===================================================================== *)

Section Emits.
Context {W Ev : Type}.
Implicit Types P : Ev -> bool.

Lemma emits_ret {A} P (a : A) : emits (W:=W) P (ret a).
Proof. intros w tr0. exists []. cbn. now rewrite app_nil_r. Qed.

Lemma emits_throw {A} P (m : string) : emits (W:=W) (A:=A) P (throw m).
Proof. intros w tr0. exists []. cbn. now rewrite app_nil_r. Qed.

Lemma emits_lift {A} P (o : outcome A) : emits (W:=W) P (lift o).
Proof. intros w tr0. exists []. cbn. now rewrite app_nil_r. Qed.

Lemma emits_external {A} P (op : W -> outcome A * W) (ev : outcome A -> Ev) :
  (forall r, P (ev r) = true) -> emits P (external op ev).
Proof.
  intros HP w tr0. unfold external. cbn [fst snd].
  destruct (op w) as [r w']. exists [ev r]. cbn. now rewrite HP.
Qed.

Lemma emits_bind {A B} P (m : Eff (W:=W) (Ev:=Ev) A) (k : A -> Eff B) :
  emits P m -> (forall a, emits P (k a)) -> emits P (bind m k).
Proof.
  intros Hm Hk w tr0. unfold bind.
  destruct (Hm w tr0) as (tr1 & Htr1 & HP1).
  destruct (m (w, tr0)) as [[a|e] [w1 t1]]; cbn [snd] in *; subst t1.
  - destruct (Hk a w1 (tr0 ++ tr1)) as (tr2 & Htr2 & HP2).
    exists (tr1 ++ tr2). rewrite Htr2, app_assoc. split; [reflexivity|].
    rewrite forallb_app, HP1, HP2. reflexivity.
  - exists tr1. auto.
Qed.

Lemma emits_attempt {A} P (m : Eff (W:=W) (Ev:=Ev) A) :
  emits P m -> emits P (attempt m).
Proof.
  intros Hm w tr0. unfold attempt.
  destruct (Hm w tr0) as (tr1 & Htr1 & HP1).
  destruct (m (w, tr0)) as [r s]. exists tr1. auto.
Qed.

Lemma emits_for_each {A} P (xs : list A) (body : A -> Eff (W:=W) (Ev:=Ev) unit) :
  (forall x, emits P (body x)) -> emits P (for_each xs body).
Proof.
  intros Hbody. induction xs as [|x xs IH]; cbn [for_each].
  - apply emits_ret.
  - apply emits_bind; [apply Hbody|intros _; exact IH].
Qed.

Lemma emits_weaken {A} P Q (m : Eff (W:=W) (Ev:=Ev) A) :
  (forall e, P e = true -> Q e = true) -> emits P m -> emits Q m.
Proof.
  intros HPQ Hm w tr0. destruct (Hm w tr0) as (tr & Htr & HP).
  exists tr. split; [exact Htr|].
  rewrite forallb_forall in *. auto.
Qed.

(** From an empty trace. *)
Lemma emits_run {A} P (m : Eff (W:=W) (Ev:=Ev) A) (w : W) :
  emits P m -> forallb P (trace_of (run m w)) = true.
Proof.
  intros Hm. destruct (Hm w []) as (tr & Htr & HP).
  unfold trace_of, run. rewrite Htr. exact HP.
Qed.

(** Continuing from a state reached earlier. *)
Lemma emits_from {A} P (m : Eff (W:=W) (Ev:=Ev) A) (w : W) (tr0 : list Ev) :
  emits P m ->
  exists r w' tr, m (w, tr0) = (r, (w', tr0 ++ tr)) /\ forallb P tr = true.
Proof.
  intros Hm. destruct (Hm w tr0) as (tr & Htr & HP).
  destruct (m (w, tr0)) as [r [w' t]]. cbn in Htr. subst t.
  exists r, w', tr. auto.
Qed.

End Emits.

Ltac emits_step :=
  first
    [ apply emits_ret
    | apply emits_throw
    | apply emits_lift
    | apply emits_external; intros; reflexivity
    | apply emits_attempt
    | apply emits_for_each; intros
    | apply emits_bind; [|intros]
    | match goal with
      | |- emits _ (match ?x with _ => _ end) => destruct x
      | |- emits _ (if ?b then _ else _) => destruct b
      end ].

Ltac emits_auto := repeat emits_step.

Section HandlerTraces.
Context {W : Type} `{IIssueProvider W} `{IPaymentProvider W} `{JsRuntime}.
Import BountyManager.

Lemma emits_post P repo n text :
  (forall r, P (EvPostComment repo n text r) = true) ->
  emits (W:=W) P (post repo n text).
Proof. intros HP. unfold post. apply emits_external. exact HP. Qed.

Lemma emits_validateClaim config repo prNumber commenter bountyConfig :
  emits (W:=W) is_validation_call
    (SecurityValidator.validateClaim config repo prNumber commenter bountyConfig).
Proof.
  unfold SecurityValidator.validateClaim, SecurityValidator.check4,
    SecurityValidator.check5.
  emits_auto.
Qed.

Lemma emits_validateClaim_no_assignment config repo prNumber commenter bountyConfig :
  SecurityValidator.assignment_checked config = false ->
  emits (W:=W) (fun e => negb (is_assignment_check e))
    (SecurityValidator.validateClaim config repo prNumber commenter bountyConfig).
Proof.
  intros Hskip.
  unfold SecurityValidator.validateClaim, SecurityValidator.check4,
    SecurityValidator.check5.
  rewrite Hskip. emits_auto.
Qed.

Lemma emits_notifyAll P (this : t W) data :
  (forall name r, P (EvNotify name data r) = true) ->
  emits (W:=W) P (notifyAll this data).
Proof.
  intros HP. unfold notifyAll. apply emits_for_each. intros provider.
  apply emits_bind; [|intros; apply emits_ret].
  apply emits_attempt, emits_external. intros r. apply HP.
Qed.

End HandlerTraces.

(* ===================================================================== *)
(** * The claim handler *)
(* ===================================================================== *)

Lemma none_of_class {Ev : Type} (P Q : Ev -> bool) (l : list Ev) :
  (forall e, P e = true -> Q e = false) ->
  forallb P l = true -> existsb Q l = false.
Proof.
  intros HPQ. induction l as [|e l IH]; cbn; [reflexivity|].
  intros Hall. apply andb_prop in Hall as [He Hl].
  rewrite (HPQ e He), (IH Hl). reflexivity.
Qed.

Section ClaimHandler.
Context {W : Type} `{IIssueProvider W} `{IPaymentProvider W} `{JsRuntime}.
Import BountyManager.

(** The validator always returns a result. *)
Lemma validateClaim_returns config repo prNumber commenter bountyConfig (w : W) :
  exists v w1 trv,
    run (SecurityValidator.validateClaim config repo prNumber commenter bountyConfig) w
    = (Returned v, (w1, trv)).
Proof.
  unfold SecurityValidator.validateClaim, SecurityValidator.check4,
    SecurityValidator.check5, run, bind, attempt, external, ret.
  cbn [fst snd app].
  destruct (getPullRequest repo prNumber w) as [[pr|m1] w1]; cbn [fst snd app];
    [|eexists _, _, _; reflexivity].
  destruct (_ && _); [eexists _, _, _; reflexivity|].
  destruct (negb _); [eexists _, _, _; reflexivity|].
  destruct (findLinkedIssueWithBounty _ _ _ _ _) as [[[linked|]|m3] w3];
    cbn [fst snd app]; try (eexists _, _, _; reflexivity).
  destruct (SecurityValidator.assignment_checked config).
  - destruct (wasUserEverAssigned _ _ _ _) as [[[|]|m4] w4]; cbn [fst snd app];
      try (eexists _, _, _; reflexivity).
    destruct (isBountyAlreadyClaimed _ _ _) as [[[|]|m5] w5]; cbn [fst snd app];
      eexists _, _, _; reflexivity.
  - destruct (isBountyAlreadyClaimed _ _ _) as [[[|]|m5] w5]; cbn [fst snd app];
      eexists _, _, _; reflexivity.
Qed.

(** Posting a list of messages: one comment each, in order, until a post
    throws. *)
Lemma for_each_post_trace repo n (messages : list string) (w : W) (tr0 : list Event) :
  exists r w' posts,
    for_each messages (post repo n) (w, tr0) = (r, (w', tr0 ++ posts)) /\
    forallb is_post_comment posts = true /\
    posted_comments posts `prefix_of` map (pair n) messages /\
    (r = Returned tt -> posted_comments posts = map (pair n) messages).
Proof.
  revert w tr0. induction messages as [|msg rest IH]; intros w tr0.
  - exists (Returned tt), w, []. cbn. rewrite app_nil_r.
    repeat split; first [reflexivity | exists []; reflexivity].
  - cbn [for_each]. unfold bind at 1, post at 1, external. cbn [fst snd].
    destruct (postComment repo n msg w) as [[[]|m] w1].
    + destruct (IH w1 (tr0 ++ [EvPostComment repo n msg (Returned tt)]))
        as (r & w' & posts & Hrun & Hposts & Hprefix & Hall).
      exists r, w', (EvPostComment repo n msg (Returned tt) :: posts).
      rewrite Hrun, <- app_assoc. cbn [app map posted_comments forallb is_post_comment].
      repeat split; try assumption.
      * apply prefix_cons, Hprefix.
      * intros Hr. now rewrite (Hall Hr).
    + exists (Thrown m), w1, [EvPostComment repo n msg (Thrown m)].
      cbn [map posted_comments forallb is_post_comment andb].
      repeat split; try reflexivity; try discriminate.
      exists (map (pair n) rest). reflexivity.
Qed.

Lemma emits_release_and_report this repo prNumber commenter wallet validation :
  emits (W:=W) (fun _ => true)
    (release_and_report this repo prNumber commenter wallet validation).
Proof.
  unfold release_and_report, post.
  apply emits_bind.
  - apply emits_attempt. emits_auto.
  - intros r. emits_auto.
Qed.

(** C6. In the trace of the awaited provider calls of the claim handler,
    the release call appears only when the validation of that same attempt
    returned a valid result, and only after the calls of that validation.
    When the result is invalid no escrow operation of the payment provider
    is called at all: after the validation the handler only posts the
    validation errors, in order, as comments on the pull request (all of
    them unless a post throws). The recipient address is parsed, by the
    synchronous helper of the payment provider, before the validation. *)
Theorem release_only_after_valid_claim
  (this : t W) (repo : string) (prNumber : Z) (commenter commentBody : string)
  (w : W) :
  exists v,
    result_of (run (SecurityValidator.validateClaim (securityConfig this) repo
                      prNumber commenter (bountyConfig this)) w) = Returned v /\
    (existsb is_release_call
       (trace_of (run (handleClaim this repo prNumber commenter commentBody) w)) = true ->
     isValid v = true /\ wallet_of commentBody <> None /\
     exists rest,
       trace_of (run (handleClaim this repo prNumber commenter commentBody) w)
       = trace_of (run (SecurityValidator.validateClaim (securityConfig this) repo
                          prNumber commenter (bountyConfig this)) w) ++ rest) /\
    (isValid v = false ->
     existsb is_payment_call
       (trace_of (run (handleClaim this repo prNumber commenter commentBody) w)) = false /\
     (wallet_of commentBody <> None ->
      exists posts,
        trace_of (run (handleClaim this repo prNumber commenter commentBody) w)
        = trace_of (run (SecurityValidator.validateClaim (securityConfig this) repo
                           prNumber commenter (bountyConfig this)) w) ++ posts /\
        forallb is_post_comment posts = true /\
        posted_comments posts `prefix_of` map (pair prNumber) (errors v) /\
        (result_of (run (handleClaim this repo prNumber commenter commentBody) w)
         = Returned tt ->
         posted_comments posts = map (pair prNumber) (errors v)))).
Proof.
  destruct (validateClaim_returns (securityConfig this) repo prNumber commenter
              (bountyConfig this) w) as (v & w1 & trv & Hrun).
  pose proof (emits_run is_validation_call _ w
                (emits_validateClaim (securityConfig this) repo prNumber
                   commenter (bountyConfig this))) as Hcalls.
  rewrite Hrun in Hcalls |- *. unfold trace_of, result_of in Hcalls |- *.
  cbn [fst snd] in Hcalls |- *.
  exists v. split; [reflexivity|].
  unfold handleClaim, wallet_of.
  destruct (required_text (walletStr_of commentBody)) as [walletStr|].
  2: { unfold run, post, external. cbn [fst snd app].
       destruct (postComment _ _ _ _) as [r w']. cbn.
       split; [discriminate|]. intros _. split; [reflexivity|]. congruence. }
  destruct (parseWalletAddress walletStr) as [wallet|m].
  2: { unfold run, post, external. cbn [fst snd app].
       destruct (postComment _ _ _ _) as [r w']. cbn.
       split; [discriminate|]. intros _. split; [reflexivity|]. congruence. }
  unfold run, bind in Hrun |- *. rewrite Hrun.
  destruct (isValid v) eqn:Hvalid; cbn [negb].
  - destruct (emits_from (fun _ => true)
                (release_and_report this repo prNumber commenter wallet v) w1 trv
                (emits_release_and_report _ _ _ _ _ _))
      as (r & w' & rest & Hrest & _).
    rewrite Hrest. cbn [fst snd]. split; [|discriminate].
    intros _. repeat split; [discriminate|]. exists rest. reflexivity.
  - destruct (for_each_post_trace repo prNumber (errors v) w1 trv)
      as (r & w' & posts & Hposts & Hclass & Hprefix & Hall).
    change (for_each (errors v) _ (w1, trv))
      with (for_each (errors v) (post repo prNumber) (w1, trv)).
    rewrite Hposts. cbn [fst snd].
    assert (Hnone : existsb is_payment_call (trv ++ posts) = false).
    { rewrite existsb_app.
      rewrite (none_of_class is_validation_call is_payment_call trv),
              (none_of_class is_post_comment is_payment_call posts);
        try assumption; try reflexivity.
      - intros [] He; cbn in He |- *; congruence.
      - intros [] He; cbn in He |- *; congruence. }
    split.
    + intros Hrel. exfalso.
      rewrite existsb_app in Hrel.
      rewrite (none_of_class is_validation_call is_release_call trv),
              (none_of_class is_post_comment is_release_call posts) in Hrel;
        try assumption; try discriminate.
      * intros [] He; cbn in He |- *; congruence.
      * intros [] He; cbn in He |- *; congruence.
    + intros _. split; [exact Hnone|]. intros _.
      exists posts. repeat split; assumption.
Qed.

(** C8. When the first white-space-delimited argument of a [/claim] comment
    is missing, or the payment provider cannot parse it as an address, the
    handler makes exactly one external call, the guidance comment on the
    pull request, and ends with the outcome of that post: no call of the
    validation pipeline and no call of the payment provider is made. *)
Theorem malformed_claim_posts_guidance_only
  (this : t W) (repo : string) (prNumber : Z) (commenter commentBody : string)
  (w : W) :
  wallet_of commentBody = None ->
  exists guidance,
    guidance = match required_text (walletStr_of commentBody) with
               | Some _ => MSG_INVALID_WALLET
               | None => MSG_USAGE
               end /\
    run (handleClaim this repo prNumber commenter commentBody) w
    = (fst (postComment repo prNumber guidance w),
       (snd (postComment repo prNumber guidance w),
        [EvPostComment repo prNumber guidance
           (fst (postComment repo prNumber guidance w))])) /\
    existsb is_validation_call
      (trace_of (run (handleClaim this repo prNumber commenter commentBody) w)) = false /\
    existsb is_payment_call
      (trace_of (run (handleClaim this repo prNumber commenter commentBody) w)) = false.
Proof.
  unfold wallet_of, handleClaim. intros Hwallet.
  destruct (required_text (walletStr_of commentBody)) as [walletStr|].
  - destruct (parseWalletAddress walletStr) as [wallet|m]; [discriminate|].
    exists MSG_INVALID_WALLET. split; [reflexivity|].
    unfold run, post, external, trace_of. cbn [fst snd app].
    destruct (postComment _ _ _ _) as [r w']. cbn. auto.
  - exists MSG_USAGE. split; [reflexivity|].
    unfold run, post, external, trace_of. cbn [fst snd app].
    destruct (postComment _ _ _ _) as [r w']. cbn. auto.
Qed.

End ClaimHandler.

Lemma release_witness :
  existsb is_payment_call
    (trace_of (run (BountyManager.handleClaim SampleWorld.manager "org/repo" 50
                      "mallory" "/claim 7xKXtg2C")
                   (SampleWorld.funded_world "Bot"))) = false.
Proof.
  destruct (release_only_after_valid_claim SampleWorld.manager "org/repo" 50
              "mallory" "/claim 7xKXtg2C" (SampleWorld.funded_world "Bot"))
    as (v & Hv & _ & Hinvalid).
  vm_compute in Hv. injection Hv as <-.
  exact (proj1 (Hinvalid eq_refl)).
Defined.

Lemma malformed_claim_witness :
  posted_comments
    (trace_of (run (BountyManager.handleClaim SampleWorld.manager "org/repo" 50
                      "alice" "/claim")
                   (SampleWorld.funded_world "Bot")))
  = [(50, BountyManager.MSG_USAGE)] /\
  posted_comments
    (trace_of (run (BountyManager.handleClaim SampleWorld.manager "org/repo" 50
                      "alice" "/claim not-an-address")
                   (SampleWorld.funded_world "Bot")))
  = [(50, BountyManager.MSG_INVALID_WALLET)].
Proof.
  assert (Hmissing : wallet_of (W:=SampleWorld.world) "/claim" = None)
    by reflexivity.
  assert (Hbad : wallet_of (W:=SampleWorld.world) "/claim not-an-address" = None)
    by reflexivity.
  split.
  - destruct (malformed_claim_posts_guidance_only SampleWorld.manager "org/repo" 50
                "alice" "/claim" (SampleWorld.funded_world "Bot") Hmissing)
      as (guidance & Hg & Hrun & _).
    rewrite Hrun, Hg. reflexivity.
  - destruct (malformed_claim_posts_guidance_only SampleWorld.manager "org/repo" 50
                "alice" "/claim not-an-address" (SampleWorld.funded_world "Bot") Hbad)
      as (guidance & Hg & Hrun & _).
    rewrite Hrun, Hg. reflexivity.
Defined.

(* ===================================================================== *)
(** * Detection of an earlier claim *)
(* ===================================================================== *)

Section ClaimDetection.

Lemma canonicalize_eqb (c : ascii) : Ascii.eqb (GitHubProvider.canonicalize c) (GitHubProvider.canonicalize c) = true.
Proof. apply Ascii.eqb_refl. Qed.

Lemma matches_at_prefix (pattern rest : string) :
  GitHubProvider.matches_at pattern (pattern +:+ rest) = true.
Proof.
  induction pattern as [|c pattern IH]; [reflexivity|].
  rewrite append_cons. cbn [GitHubProvider.matches_at]. now rewrite canonicalize_eqb, IH.
Qed.

Lemma regexp_test_unfold (alternatives : list string) (s : string) :
  GitHubProvider.regexp_test alternatives s
  = existsb (fun p => GitHubProvider.matches_at p s) alternatives
    || match s with
       | EmptyString => false
       | String _ s' => GitHubProvider.regexp_test alternatives s'
       end.
Proof. destruct s; reflexivity. Qed.

(** A text that starts with one of the alternatives matches. *)
Lemma regexp_test_prefix (alternatives : list string) (p rest : string) :
  In p alternatives -> GitHubProvider.regexp_test alternatives (p +:+ rest) = true.
Proof.
  intros Hin. rewrite regexp_test_unfold.
  apply orb_true_intro. left. apply existsb_exists.
  exists p. split; [exact Hin|apply matches_at_prefix].
Qed.

Lemma some_claim_comment_bot (comments : list IssueComment) (text : string) :
  GitHubProvider.regexp_test GitHubProvider.claimPattern text = true ->
  In {| user_type := "Bot"; comment_body := text |} comments ->
  GitHubProvider.some_claim_comment comments = true.
Proof.
  intros Hmatch Hin. unfold GitHubProvider.some_claim_comment. apply existsb_exists.
  eexists. split; [exact Hin|]. cbn [user_type comment_body].
  rewrite Hmatch. reflexivity.
Qed.

Context {W : Type} `{IIssueProvider W} `{GitHubApi W} `{JsRuntime}.

Lemma marker_matches_claimPattern (claimer : string) (via : Z) (url : string) :
  GitHubProvider.regexp_test GitHubProvider.claimPattern (BountyManager.MSG_BOUNTY_CLAIMED claimer via url) = true.
Proof.
  unfold BountyManager.MSG_BOUNTY_CLAIMED.
  apply regexp_test_prefix. right. left. reflexivity.
Qed.

(** C9, as amended. The comment the manager posts on the linked issue
    after a release matches the pattern the detector reads; so when a later
    claim passes checks 1 to 4 and the tracker then lists that comment for
    the linked issue as written by an account of type [Bot],
    [isBountyAlreadyClaimed] answers [true] and the validation is rejected
    with the already-claimed message. *)
Theorem second_claim_is_detected
  (config : SecurityConfig) (repo : string) (prNumber : Z) (commenter : string)
  (bountyConfig : gmap string Z) (claimer : string) (via : Z) (url : string)
  (pr : PullRequest.t) (linked : LinkedIssue.t) (comments : list IssueComment)
  (w w1 w3 w4 w5 : W) :
  (forall r n w0,
      isBountyAlreadyClaimed r n w0 = GitHubProvider.isBountyAlreadyClaimed r n w0) ->
  getPullRequest repo prNumber w = (Returned pr, w1) ->
  passes config commenter (EvGetPullRequest repo prNumber (Returned pr)) = true ->
  findLinkedIssueWithBounty repo prNumber pr bountyConfig w1
  = (Returned (Some linked), w3) ->
  (if SecurityValidator.assignment_checked config
   then wasUserEverAssigned repo (LinkedIssue.number linked) commenter w3
        = (Returned true, w4)
   else w4 = w3) ->
  listIssueComments repo (LinkedIssue.number linked) w4 = (Returned comments, w5) ->
  In {| user_type := "Bot";
        comment_body := BountyManager.MSG_BOUNTY_CLAIMED claimer via url |} comments ->
  GitHubProvider.regexp_test GitHubProvider.claimPattern (BountyManager.MSG_BOUNTY_CLAIMED claimer via url) = true /\
  GitHubProvider.isBountyAlreadyClaimed repo (LinkedIssue.number linked) w4
  = (Returned true, w5) /\
  result_of (run (SecurityValidator.validateClaim config repo prNumber commenter
                    bountyConfig) w)
  = Returned (SecurityValidator.rejected
                (SecurityValidator.MSG_ALREADY_CLAIMED (LinkedIssue.number linked))).
Proof.
  intros Himpl Hpr Hpass Hlinked Hassigned Hlist Hin.
  pose proof (marker_matches_claimPattern claimer via url) as Hmatch.
  assert (Hclaimed : GitHubProvider.isBountyAlreadyClaimed repo
                       (LinkedIssue.number linked) w4 = (Returned true, w5)).
  { unfold GitHubProvider.isBountyAlreadyClaimed. rewrite Hlist.
    now rewrite (some_claim_comment_bot comments _ Hmatch Hin). }
  split; [exact Hmatch|]. split; [exact Hclaimed|].
  cbn [passes] in Hpass. apply andb_prop in Hpass as [Hmerged Hauthor].
  apply negb_true_iff in Hmerged.
  unfold SecurityValidator.validateClaim, SecurityValidator.check4,
    SecurityValidator.check5, run, bind, attempt, external, ret, result_of.
  cbn [fst snd app]. rewrite Hpr. cbn [fst snd app].
  rewrite Hmerged, Hauthor. cbn [negb fst snd app].
  rewrite Hlinked. cbn [fst snd app].
  destruct (SecurityValidator.assignment_checked config); cbv iota.
  - cbn [fst snd app]. rewrite Hassigned. cbn [fst snd app].
    rewrite Himpl, Hclaimed. reflexivity.
  - subst w4. cbn [fst snd app]. rewrite Himpl, Hclaimed. reflexivity.
Qed.

End ClaimDetection.

(** C9 as stated fails: when the tracker reports the bot's comments as
    written by an account of type [User], the marker comment of the first
    claim matches the pattern and is listed for the issue, yet the second
    validation does not detect it and is valid. *)
Lemma marker_of_user_account_is_not_detected :
  In {| user_type := "User";
        comment_body := BountyManager.MSG_BOUNTY_CLAIMED "alice" 50
                          (explorerUrl SampleWorld.sample_tx) |}
     (map snd (SampleWorld.comments (SampleWorld.after_claim "User"))) /\
  GitHubProvider.regexp_test GitHubProvider.claimPattern
    (BountyManager.MSG_BOUNTY_CLAIMED "alice" 50 (explorerUrl SampleWorld.sample_tx))
  = true /\
  result_of (run (SecurityValidator.validateClaim SampleWorld.no_flags "org/repo" 50
                    "alice" (BountyManager.bountyConfig SampleWorld.manager))
                 (SampleWorld.after_claim "User"))
  = Returned {| isValid := true;
                linkedIssue := Some SampleWorld.sample_linked;
                errors := [] |}.
Proof.
  split; [|split].
  - vm_compute. right. left. reflexivity.
  - vm_compute. reflexivity.
  - vm_compute. reflexivity.
Qed.

Lemma second_claim_witness :
  result_of (run (SecurityValidator.validateClaim SampleWorld.no_flags "org/repo" 50
                    "alice" (BountyManager.bountyConfig SampleWorld.manager))
                 (SampleWorld.after_claim "Bot"))
  = Returned (SecurityValidator.rejected (SecurityValidator.MSG_ALREADY_CLAIMED 42)).
Proof.
  refine (proj2 (proj2 (second_claim_is_detected
            SampleWorld.no_flags "org/repo" 50 "alice"
            (BountyManager.bountyConfig SampleWorld.manager)
            "alice" 50 (explorerUrl SampleWorld.sample_tx)
            (SampleWorld.sample_pr 50) SampleWorld.sample_linked
            (map snd (List.filter (fun c => fst c =? 42)
                        (SampleWorld.comments (SampleWorld.after_claim "Bot"))))
            (SampleWorld.after_claim "Bot") (SampleWorld.after_claim "Bot")
            (SampleWorld.after_claim "Bot") (SampleWorld.after_claim "Bot")
            (SampleWorld.after_claim "Bot")
            _ _ _ _ _ _ _))).
  - intros r n w0. reflexivity.
  - reflexivity.
  - reflexivity.
  - reflexivity.
  - reflexivity.
  - vm_compute. reflexivity.
  - vm_compute. left. reflexivity.
Defined.

(* ===================================================================== *)
(** * Defaults of the security flags *)
(* ===================================================================== *)

Ltac destruct_calls :=
  repeat (match goal with
          | |- context [findLinkedIssueWithBounty ?a ?b ?c ?d ?e] =>
              destruct (findLinkedIssueWithBounty a b c d e) as [[[?|]|?] ?]
          | |- context [wasUserEverAssigned ?a ?b ?c ?d] =>
              destruct (wasUserEverAssigned a b c d) as [[[|]|?] ?]
          | |- context [isBountyAlreadyClaimed ?a ?b ?c] =>
              destruct (isBountyAlreadyClaimed a b c) as [[[|]|?] ?]
          | |- context [if SecurityValidator.assignment_checked ?c then _ else _] =>
              destruct (SecurityValidator.assignment_checked c)
          end; cbn [fst snd app]).

Section Defaults.
Context {W : Type} `{IIssueProvider W} `{IPaymentProvider W} `{JsRuntime}.
Import BountyManager SecurityValidator.

Lemma emits_create_bounty P (this : t W) issueNumber repo label sender :
  (forall e, is_maintainer_check e = false -> P e = true) ->
  emits (W:=W) P (create_bounty this issueNumber repo label sender).
Proof.
  intros HP. unfold create_bounty, post.
  destruct (getBountyAmount this label); [|apply emits_ret].
  apply emits_bind.
  - apply emits_attempt.
    repeat first
      [ apply emits_lift
      | apply emits_external; intros; apply HP; reflexivity
      | apply emits_bind; [|intros]
      | apply emits_notifyAll; intros; apply HP; reflexivity ].
  - intros [u|m]; [apply emits_ret|].
    apply emits_external. intros. apply HP. reflexivity.
Qed.

Lemma required_number_present (n : Z) : n <> 0 -> required_number (Some n) = Some n.
Proof.
  intros Hn. unfold required_number, falsy_number.
  destruct (Z.eqb_spec n 0); [contradiction|reflexivity].
Qed.

Lemma required_text_present (s : string) :
  s <> EmptyString -> required_text (Some s) = Some s.
Proof. destruct s; [contradiction|reflexivity]. Qed.

(** C10. A flag left undefined behaves as the secure value. With
    [requireMaintainerForBountyCreation] undefined the label handler runs
    as with [true]; unless the flag is [false] its first call is the
    maintainer check, and without the answer [true] no payment call
    follows; with [false] the check is never made. With [requireMergedPR]
    undefined the validator runs as with [true]; unless the flag is [false]
    an unmerged pull request is rejected at check 1; with [false] an
    unmerged pull request of the commenter goes on to check 3. With
    [skipAssignmentCheck] undefined the validator runs as with [false];
    unless the flag is [true] a claim that passes checks 1 to 3 has its
    assignment checked; with [true] the assignment is never checked. *)
Theorem security_defaults_are_fail_secure
  (this : t W) (config : SecurityConfig)
  (issueNumber : Z) (repo label sender : string)
  (prNumber : Z) (commenter : string) (bountyConfig : gmap string Z) (w : W) :
  issueNumber <> 0 -> repo <> EmptyString -> label <> EmptyString ->
  sender <> EmptyString ->
  (* requireMaintainerForBountyCreation *)
  (requireMaintainerForBountyCreation (securityConfig this) = None ->
   forall payload,
     run (handleLabeled this payload) w
     = run (handleLabeled (with_requireMaintainer (Some true) this) payload) w) /\
  (requireMaintainerForBountyCreation (securityConfig this) <> Some false ->
   exists r rest,
     trace_of (run (handleLabeled this (labeled_event issueNumber repo label sender)) w)
     = EvCheckIsMaintainer repo sender r :: rest /\
     (r <> Returned true -> existsb is_payment_call rest = false)) /\
  (requireMaintainerForBountyCreation (securityConfig this) = Some false ->
   existsb is_maintainer_check
     (trace_of (run (handleLabeled this (labeled_event issueNumber repo label sender)) w))
   = false) /\
  (* requireMergedPR *)
  (requireMergedPR config = None ->
   run (validateClaim config repo prNumber commenter bountyConfig) w
   = run (validateClaim (with_requireMergedPR (Some true) config) repo prNumber
            commenter bountyConfig) w) /\
  (requireMergedPR config <> Some false ->
   forall pr w1,
     getPullRequest repo prNumber w = (Returned pr, w1) ->
     PullRequest.merged pr = false ->
     run (validateClaim config repo prNumber commenter bountyConfig) w
     = (Returned (rejected MSG_NOT_MERGED),
        (w1, [EvGetPullRequest repo prNumber (Returned pr)]))) /\
  (requireMergedPR config = Some false ->
   forall pr w1,
     getPullRequest repo prNumber w = (Returned pr, w1) ->
     PullRequest.merged pr = false ->
     PullRequest.user_login pr = commenter ->
     existsb (fun e => Nat.eqb (check_of e) 3)
       (trace_of (run (validateClaim config repo prNumber commenter bountyConfig) w))
     = true) /\
  (* skipAssignmentCheck *)
  (skipAssignmentCheck config = None ->
   run (validateClaim config repo prNumber commenter bountyConfig) w
   = run (validateClaim (with_skipAssignmentCheck (Some false) config) repo prNumber
            commenter bountyConfig) w) /\
  (skipAssignmentCheck config <> Some true ->
   forall pr w1 linked w3,
     getPullRequest repo prNumber w = (Returned pr, w1) ->
     passes config commenter (EvGetPullRequest repo prNumber (Returned pr)) = true ->
     findLinkedIssueWithBounty repo prNumber pr bountyConfig w1
     = (Returned (Some linked), w3) ->
     existsb is_assignment_check
       (trace_of (run (validateClaim config repo prNumber commenter bountyConfig) w))
     = true) /\
  (skipAssignmentCheck config = Some true ->
   existsb is_assignment_check
     (trace_of (run (validateClaim config repo prNumber commenter bountyConfig) w))
   = false).
Proof.
  intros Hissue Hrepo Hlabel Hsender.
  assert (Hfields : forall that : t W,
            handleLabeled that (labeled_event issueNumber repo label sender)
            = if maintainer_required (securityConfig that) then
                let! isMaintainer := external (checkIsMaintainer repo sender)
                                              (EvCheckIsMaintainer repo sender) in
                if isMaintainer then create_bounty that issueNumber repo label sender
                else post repo issueNumber MSG_MAINTAINERS_ONLY
              else create_bounty that issueNumber repo label sender).
  { intros that. unfold handleLabeled, labeled_event.
    cbn [issue_number repository_full_name label_name sender_login].
    rewrite (required_number_present _ Hissue), (required_text_present _ Hrepo),
      (required_text_present _ Hlabel), (required_text_present _ Hsender).
    reflexivity. }
  repeat match goal with |- _ /\ _ => split end.
  - intros Hflag payload. unfold handleLabeled, maintainer_required.
    cbn [with_requireMaintainer securityConfig requireMaintainerForBountyCreation].
    rewrite Hflag. reflexivity.
  - intros Hflag. rewrite Hfields. unfold maintainer_required.
    destruct (requireMaintainerForBountyCreation (securityConfig this)) as [[|]|];
      try contradiction.
    all: unfold run, bind, external, trace_of; cbn [fst snd app];
      destruct (checkIsMaintainer repo sender w) as [[[|]|m] w1]; cbn [fst snd app].
    all: try (eexists _, []; split; [reflexivity|]; intros _; reflexivity).
    all: try (unfold post, external; cbn [fst snd app];
              destruct (postComment _ _ _ _) as [r' w'];
              eexists _, [_]; split; [reflexivity|]; intros _; reflexivity).
    all: destruct (emits_from (fun _ => true)
                     (create_bounty this issueNumber repo label sender) w1
                     [EvCheckIsMaintainer repo sender (Returned true)]
                     (emits_create_bounty _ this _ _ _ _ (fun _ _ => eq_refl)))
           as (r' & w' & rest & Hrest & _);
      rewrite Hrest; cbn [fst snd app];
      eexists _, rest; split; [reflexivity|]; intros Hr; congruence.
  - intros Hflag. rewrite Hfields. unfold maintainer_required. rewrite Hflag.
    apply (none_of_class (fun e => negb (is_maintainer_check e))).
    + intros e He. now apply negb_true_iff in He.
    + apply emits_run, emits_create_bounty.
      intros e He. now rewrite He.
  - intros Hflag. unfold validateClaim, mergedPR_required.
    cbn [with_requireMergedPR requireMergedPR]. rewrite Hflag. reflexivity.
  - intros Hflag pr w1 Hpr Hunmerged.
    unfold validateClaim, mergedPR_required, run, bind, attempt, external, ret.
    cbn [fst snd app]. rewrite Hpr, Hunmerged. cbn [fst snd app negb].
    destruct (requireMergedPR config) as [[|]|]; try contradiction; reflexivity.
  - intros Hflag pr w1 Hpr Hunmerged Hauthor.
    unfold validateClaim, check4, check5, mergedPR_required, run, bind, attempt,
      external, ret, trace_of.
    cbn [fst snd app]. rewrite Hpr, Hflag, Hauthor, String.eqb_refl.
    cbn [fst snd app negb andb].
    destruct_calls; reflexivity.
  - intros Hflag. unfold validateClaim, check4, assignment_checked.
    cbn [with_skipAssignmentCheck skipAssignmentCheck requireMergedPR mergedPR_required].
    rewrite Hflag. reflexivity.
  - intros Hflag pr w1 linked w3 Hpr Hpass Hlinked.
    cbn [passes] in Hpass. apply andb_prop in Hpass as [Hmerged Hauthor].
    apply negb_true_iff in Hmerged.
    assert (Hchecked : assignment_checked config = true).
    { unfold assignment_checked.
      destruct (skipAssignmentCheck config) as [[|]|]; try contradiction; reflexivity. }
    unfold validateClaim, check4, check5, run, bind, attempt, external, ret, trace_of.
    cbn [fst snd app]. rewrite Hpr. cbn [fst snd app].
    rewrite Hmerged, Hauthor. cbn [fst snd app negb].
    rewrite Hlinked. cbn [fst snd app]. rewrite Hchecked.
    destruct_calls; reflexivity.
  - intros Hflag.
    apply (none_of_class (fun e => negb (is_assignment_check e))).
    + intros e He. now apply negb_true_iff in He.
    + apply emits_run, emits_validateClaim_no_assignment.
      unfold assignment_checked. rewrite Hflag. reflexivity.
Qed.

End Defaults.

Lemma security_defaults_witness :
  existsb is_maintainer_check
    (trace_of (run (BountyManager.handleLabeled SampleWorld.manager
                      (labeled_event 42 "org/repo" "bounty-2-sol" "mallory"))
                   (SampleWorld.funded_world "Bot"))) = true /\
  existsb is_assignment_check
    (trace_of (run (SecurityValidator.validateClaim SampleWorld.no_flags "org/repo"
                      50 "alice" (BountyManager.bountyConfig SampleWorld.manager))
                   (SampleWorld.funded_world "Bot"))) = true.
Proof.
  assert (H42 : 42 <> 0) by discriminate.
  assert (Hrepo : "org/repo" <> EmptyString) by discriminate.
  assert (Hlabel : "bounty-2-sol" <> EmptyString) by discriminate.
  assert (Hsender : "mallory" <> EmptyString) by discriminate.
  destruct (security_defaults_are_fail_secure SampleWorld.manager SampleWorld.no_flags
              42 "org/repo" "bounty-2-sol" "mallory" 50 "alice"
              (BountyManager.bountyConfig SampleWorld.manager)
              (SampleWorld.funded_world "Bot") H42 Hrepo Hlabel Hsender)
    as (_ & Hcheck & _ & _ & _ & _ & _ & Hassign & _).
  split.
  - destruct Hcheck as (r & rest & Htrace & _); [discriminate|].
    rewrite Htrace. reflexivity.
  - apply (Hassign ltac:(discriminate) (SampleWorld.sample_pr 50)
             (SampleWorld.funded_world "Bot") SampleWorld.sample_linked
             (SampleWorld.funded_world "Bot")); reflexivity.
Defined.

(* ===================================================================== *)
(** * Gateway preconditions *)
(* ===================================================================== *)

Section Preconditions.
Import SolanaProvider.
Context {W : Type} `{Web3 W}.

(** C7. When the lookup at the derived address finds an account,
    [createEscrow] throws the already-exists error, and when it finds none,
    [releaseEscrow] throws the not-found error; in both cases the lookup is
    the only call made: nothing is serialized, sent or confirmed, and the
    ledger is left as the lookup left it. *)
Theorem gateway_preconditions_precede_submission
  (this : t) (n : Z) (h : Buffer) (amount : Z) (recipient : PublicKey)
  (a : PublicKey) (w w' : W) :
  derive (programId this) h n = Returned a ->
  (forall info,
      getAccountInfo a w = (Returned (Some info), w') ->
      run (createEscrow this n h amount) w
      = (Thrown "Escrow already exists for this issue",
         (w', [EvGetAccountInfo a (Returned (Some info))]))) /\
  (getAccountInfo a w = (Returned None, w') ->
   run (releaseEscrow this n h recipient) w
   = (Thrown "Escrow does not exist for this issue",
      (w', [EvGetAccountInfo a (Returned None)]))).
Proof.
  unfold derive. intros Hderive.
  destruct (Helpers.numberToLeBytes n) as [le|m] eqn:Hle; [|discriminate].
  destruct (findProgramAddressSync _ _) as [[a' bump]|m] eqn:Hfind; [|discriminate].
  injection Hderive as ->.
  split.
  - intros info Hlookup.
    unfold createEscrow, run, bind, lift, external, throw.
    rewrite Hle, Hfind. cbn [fst snd app]. rewrite Hlookup. reflexivity.
  - intros Hlookup.
    unfold releaseEscrow, run, bind, lift, external, throw.
    rewrite Hle, Hfind. cbn [fst snd app]. rewrite Hlookup. reflexivity.
Qed.

End Preconditions.

Lemma gateway_preconditions_witness :
  result_of (run (W:=SampleLedger.world)
               (SolanaProvider.createEscrow SampleLedger.provider 42 sample_hash 5)
               (world_of (run (SolanaProvider.createEscrow SampleLedger.provider
                                 42 sample_hash 2000000000) [])))
  = Thrown "Escrow already exists for this issue" /\
  result_of (run (W:=SampleLedger.world)
               (SolanaProvider.releaseEscrow SampleLedger.provider 42 sample_hash 99) [])
  = Thrown "Escrow does not exist for this issue".
Proof.
  pose (addr := match SolanaProvider.derive (W:=SampleLedger.world)
                        (SolanaProvider.programId SampleLedger.provider)
                        sample_hash 42 with
                | Returned a => a
                | Thrown _ => 0
                end).
  assert (Hderive : SolanaProvider.derive (W:=SampleLedger.world)
                      (SolanaProvider.programId SampleLedger.provider)
                      sample_hash 42 = Returned addr)
    by (vm_compute; reflexivity).
  pose (funded := world_of (run (W:=SampleLedger.world)
                              (SolanaProvider.createEscrow SampleLedger.provider
                                 42 sample_hash 2000000000) [])).
  assert (Hfound : getAccountInfo addr funded
                   = (Returned (Some {| lamports := 1; owner := 0 |}), funded))
    by (vm_compute; reflexivity).
  assert (Hnone : getAccountInfo (W:=SampleLedger.world) addr [] = (Returned None, []))
    by (vm_compute; reflexivity).
  split.
  - destruct (gateway_preconditions_precede_submission (W:=SampleLedger.world)
                SampleLedger.provider 42 sample_hash 5 99 addr funded funded Hderive)
      as (Hexists & _).
    change (result_of (run (SolanaProvider.createEscrow SampleLedger.provider
                              42 sample_hash 5) funded)
            = Thrown "Escrow already exists for this issue").
    rewrite (Hexists _ Hfound). reflexivity.
  - destruct (gateway_preconditions_precede_submission (W:=SampleLedger.world)
                SampleLedger.provider 42 sample_hash 5 99 addr [] [] Hderive)
      as (_ & Hmissing).
    rewrite (Hmissing Hnone). reflexivity.
Defined.

(* ===================================================================== *)
(** * Issue references *)
(* ===================================================================== *)

Example extract_mixed :
  IssueReferences.extractIssueNumbers
    "See #7. Fixes  #42 and closes #7, also resolved#9 and #42abc"
  = [42; 7; 9].
Proof. vm_compute. reflexivity. Qed.

Example extract_none : IssueReferences.extractIssueNumbers "no refs # 12 here" = [].
Proof. vm_compute. reflexivity. Qed.

Section References.
Import IssueReferences.

Lemma existsb_Zeqb (n : Z) (l : list Z) : existsb (Z.eqb n) l = true <-> In n l.
Proof.
  rewrite existsb_exists. split.
  - intros (x & Hx & Heq). apply Z.eqb_eq in Heq. now subst.
  - intros Hin. exists n. split; [exact Hin|apply Z.eqb_refl].
Qed.

Lemma set_add_In (numbers : list Z) (n m : Z) :
  In m (set_add numbers n) <-> In m numbers \/ m = n.
Proof.
  unfold set_add. destruct (existsb (Z.eqb n) numbers) eqn:Hmem.
  - apply existsb_Zeqb in Hmem. split; [auto|]. intros [Hin | ->]; assumption.
  - rewrite in_app_iff. cbn. intuition.
Qed.

Lemma set_add_NoDup (numbers : list Z) (n : Z) :
  List.NoDup numbers -> List.NoDup (set_add numbers n).
Proof.
  intros Hnd. unfold set_add. destruct (existsb (Z.eqb n) numbers) eqn:Hmem.
  - exact Hnd.
  - assert (Hnot : ~ In n numbers).
    { intros Hin. apply existsb_Zeqb in Hin. congruence. }
    clear Hmem. induction Hnd as [|x l Hx Hl IH]; cbn.
    + constructor; [intros []|constructor].
    + constructor.
      * rewrite in_app_iff. cbn. intros [Hin | [Heq | []]]; [auto|].
        apply Hnot. left. symmetry. exact Heq.
      * apply IH. intros Hin. apply Hnot. right. exact Hin.
Qed.

Lemma fold_set_add_In (f : string -> Z) (l : list string) (init : list Z) (m : Z) :
  In m (fold_left (fun numbers d => set_add numbers (f d)) l init)
  <-> In m init \/ exists d, In d l /\ f d = m.
Proof.
  revert init. induction l as [|d l IH]; intros init; cbn [fold_left].
  - split; [auto|]. intros [Hin | (d & [] & _)]. exact Hin.
  - rewrite IH, set_add_In. split.
    + intros [[Hin | ->] | (d' & Hd' & Heq)].
      * left. exact Hin.
      * right. exists d. split; [left; reflexivity|reflexivity].
      * right. exists d'. split; [right; exact Hd'|exact Heq].
    + intros [Hin | (d' & [<- | Hd'] & Heq)].
      * left. left. exact Hin.
      * left. right. symmetry. exact Heq.
      * right. exists d'. split; assumption.
Qed.

Lemma fold_set_add_NoDup (f : string -> Z) (l : list string) (init : list Z) :
  List.NoDup init ->
  List.NoDup (fold_left (fun numbers d => set_add numbers (f d)) l init).
Proof.
  revert init. induction l as [|d l IH]; intros init Hnd; cbn [fold_left].
  - exact Hnd.
  - apply IH, set_add_NoDup, Hnd.
Qed.

(** A digit is not a number sign. *)
Lemma reference_at_digit (c : ascii) (rest : string) :
  is_digit c = true -> reference_at (String c rest) = None.
Proof.
  intros Hd. unfold reference_at.
  destruct (Ascii.eqb_spec c "#"%char) as [->|_]; [discriminate Hd|reflexivity].
Qed.

(** Resuming the search inside the digits of a match finds what a search
    at every position finds. *)
Lemma references_from_skip (s : string) (skip : nat) :
  (skip <= String.length (digits_of s))%nat ->
  references_from s skip = references_from s 0.
Proof.
  revert skip. induction s as [|c rest IH]; intros skip Hskip; [reflexivity|].
  destruct skip as [|k]; [reflexivity|].
  cbn [digits_of] in Hskip. destruct (is_digit c) eqn:Hd; [|cbn in Hskip; lia].
  cbn [String.length] in Hskip.
  cbn [references_from]. rewrite (reference_at_digit c rest Hd).
  apply IH. lia.
Qed.

Lemma digits_of_skip (d rest : string) :
  digits_of rest = d ->
  (String.length d <= String.length (digits_of rest))%nat.
Proof. intros ->. lia. Qed.

(** The bare pattern finds a reference at every position that starts one. *)
Lemma references_from_In (s : string) (d : string) :
  In d (references_from s 0) <-> exists k, reference_at (skip_chars k s) = Some d.
Proof.
  induction s as [|c rest IH].
  - cbn. split; [intros []|]. intros (k & Hk). destruct k; discriminate Hk.
  - cbn [references_from].
    assert (Hrest : forall found,
               reference_at (String c rest) = Some found ->
               references_from rest (String.length found) = references_from rest 0).
    { intros found Hfound. apply references_from_skip.
      unfold reference_at in Hfound.
      destruct (Ascii.eqb c "#"%char); [|discriminate].
      destruct (digits_of rest) eqn:Hdig; [discriminate|].
      injection Hfound as <-. lia. }
    destruct (reference_at (String c rest)) as [found|] eqn:Hhere.
    + rewrite (Hrest found eq_refl). cbn [In]. rewrite IH. split.
      * intros [<- | (k & Hk)]; [exists 0%nat; exact Hhere|exists (S k); exact Hk].
      * intros ([|k] & Hk); cbn [skip_chars] in Hk.
        -- left. congruence.
        -- right. exists k. exact Hk.
    + rewrite IH. split.
      * intros (k & Hk). exists (S k). exact Hk.
      * intros ([|k] & Hk); cbn [skip_chars] in Hk; [congruence|].
        exists k. exact Hk.
Qed.

Lemma skip_chars_add (a b : nat) (s : string) :
  skip_chars a (skip_chars b s) = skip_chars (b + a) s.
Proof.
  revert s. induction b as [|b IH]; intros s; [reflexivity|].
  destruct s as [|c rest]; cbn [skip_chars Nat.add].
  - destruct a; reflexivity.
  - apply IH.
Qed.

(** Every capture of the keyword pattern is a reference at some position. *)
Lemma closing_reference_at_reference (keywords : list string) (s d : string) (len : nat) :
  closing_reference_at keywords s = Some (d, len) ->
  exists k, reference_at (skip_chars k s) = Some d.
Proof.
  induction keywords as [|keyword others IH]; cbn [closing_reference_at]; [discriminate|].
  destruct (keyword_then_reference keyword s) as [[d' len']|] eqn:Hkw; [|exact IH].
  intros Heq. injection Heq as -> ->.
  unfold keyword_then_reference in Hkw.
  destruct (GitHubProvider.matches_at keyword s); [|discriminate].
  destruct (whitespace_run _ _) as [|w]; [discriminate|].
  destruct (reference_at _) as [found|] eqn:Href; [|discriminate].
  injection Hkw as <- _.
  rewrite skip_chars_add in Href. eexists. exact Href.
Qed.

Lemma closing_references_In (s : string) (skip : nat) (d : string) :
  In d (closing_references_from s skip) ->
  exists k, reference_at (skip_chars k s) = Some d.
Proof.
  revert skip. induction s as [|c rest IH]; intros skip; cbn [closing_references_from].
  - intros [].
  - destruct skip as [|j].
    + destruct (closing_reference_at closing_keywords (String c rest))
        as [[found len]|] eqn:Hhere.
      * intros [<- | Hin].
        -- eapply closing_reference_at_reference, Hhere.
        -- destruct (IH _ Hin) as (k & Hk). exists (S k). exact Hk.
      * intros Hin. destruct (IH _ Hin) as (k & Hk). exists (S k). exact Hk.
    + intros Hin. destruct (IH _ Hin) as (k & Hk). exists (S k). exact Hk.
Qed.

Context `{JsParse}.

(** X1. [extractIssueNumbers] returns, without repetition, exactly the
    numbers written after a number sign somewhere in the text: [n] is
    returned if and only if some position of the text starts with [#]
    followed by a longest run of digits that reads as [n]. A closing keyword
    before the reference makes no difference to what is returned. *)
Theorem extractIssueNumbers_finds_every_reference (text : string) :
  List.NoDup (extractIssueNumbers text) /\
  forall n,
    In n (extractIssueNumbers text) <->
    exists k digits,
      reference_at (skip_chars k text) = Some digits /\ parseInt10 digits = n.
Proof.
  unfold extractIssueNumbers. split.
  - apply fold_set_add_NoDup, fold_set_add_NoDup. constructor.
  - intros n. rewrite !fold_set_add_In. split.
    + intros [[[] | (d & Hd & Heq)] | (d & Hd & Heq)].
      * destruct (closing_references_In _ _ _ Hd) as (k & Hk). eauto.
      * apply references_from_In in Hd as (k & Hk). eauto.
    + intros (k & d & Hk & Heq). right. exists d. split; [|exact Heq].
      apply references_from_In. eauto.
Qed.

End References.

(* ===================================================================== *)
(** * The escrow gateway, beyond its preconditions *)
(* ===================================================================== *)

Section NumberBytes.

(** X2. [numberToLeBytes] returns exactly for the numbers of [0, 2^64):
    then the result has eight bytes that spell the number least significant
    byte first, and two different numbers never give the same bytes; for
    every other number it throws. *)
Theorem numberToLeBytes_is_exact_on_u64 (n n' : Z) :
  (Schemas.is_u64 n <-> exists bytes, Helpers.numberToLeBytes n = Returned bytes) /\
  (forall bytes,
      Helpers.numberToLeBytes n = Returned bytes ->
      length bytes = 8%nat /\ is_bytes bytes /\ le_value bytes = n) /\
  (forall bytes,
      Helpers.numberToLeBytes n = Returned bytes ->
      Helpers.numberToLeBytes n' = Returned bytes -> n = n').
Proof.
  assert (Hspec : forall k,
            (Schemas.is_u64 k /\ Helpers.numberToLeBytes k = Returned (le_bytes 8 k)) \/
            (~ Schemas.is_u64 k /\ exists m, Helpers.numberToLeBytes k = Thrown m)).
  { intros k. unfold Helpers.numberToLeBytes, Schemas.is_u64.
    destruct (Z.leb_spec 0 k), (Z.ltb_spec k U64_LIMIT); cbn [andb];
      first [ left; split; [lia|reflexivity]
            | right; split; [lia|eexists; reflexivity] ]. }
  split; [|split].
  - split.
    + intros Hn. destruct (Hspec n) as [[_ ->] | [Hout _]]; [eauto|contradiction].
    + intros (bytes & Hb). destruct (Hspec n) as [[Hin _] | [_ (m & Hm)]];
        [exact Hin|congruence].
  - intros bytes Hb. destruct (Hspec n) as [[Hin Heq] | [_ (m & Hm)]]; [|congruence].
    assert (Hbytes : bytes = le_bytes 8 n) by congruence. subst bytes.
    split; [apply le_bytes_length|]. split; [apply le_bytes_is_bytes|].
    apply le_value_le_bytes_u64, Hin.
  - intros bytes Hb Hb'.
    destruct (Hspec n) as [[Hin Heq] | [_ (m & Hm)]]; [|congruence].
    destruct (Hspec n') as [[Hin' Heq'] | [_ (m & Hm)]]; [|congruence].
    assert (Hsame : le_bytes 8 n = le_bytes 8 n') by congruence.
    rewrite <- (le_value_le_bytes_u64 n Hin), <- (le_value_le_bytes_u64 n' Hin').
    now rewrite Hsame.
Qed.

Lemma numberToLeBytes_is_exact_on_u64_aux (n : Z) :
  Schemas.is_u64 n <-> exists bytes, Helpers.numberToLeBytes n = Returned bytes.
Proof.
  unfold Helpers.numberToLeBytes, Schemas.is_u64.
  destruct (Z.leb_spec 0 n), (Z.ltb_spec n U64_LIMIT); cbn [andb]; split;
    try (intros _; eexists; reflexivity); try lia;
    intros (bytes & Hb); discriminate Hb.
Qed.

End NumberBytes.

Section EncodingInjective.
Import Schemas.

Lemma le_bytes_u64_inj (a b : Z) :
  is_u64 a -> is_u64 b -> le_bytes 8 a = le_bytes 8 b -> a = b.
Proof.
  intros Ha Hb Heq.
  rewrite <- (le_value_le_bytes_u64 a Ha), <- (le_value_le_bytes_u64 b Hb).
  now rewrite Heq.
Qed.

Lemma app_inj_length {A} (a b c d : list A) :
  length a = length c -> a ++ b = c ++ d -> a = c /\ b = d.
Proof.
  revert c. induction a as [|x a IH]; intros [|y c] Hlen Heq; cbn in *;
    try discriminate.
  - auto.
  - injection Heq as -> Heq. destruct (IH c) as [-> ->]; [lia|exact Heq|auto].
Qed.

Lemma layout_tail_inj (d : Z) (h t h' t' : Buffer) :
  Returned ([d] ++ h ++ t) = Returned ([d] ++ h' ++ t') -> h ++ t = h' ++ t'.
Proof. cbn [app]. congruence. Qed.

(** X3. The wire encoding is unambiguous: two well-formed CreateEscrow
    records with the same bytes are the same record, likewise for
    ReleaseEscrow, and the bytes of a CreateEscrow record are never those of
    a ReleaseEscrow record. *)
Theorem encoding_is_unambiguous
  (c c' : CreateEscrowInstruction) (r r' : ReleaseEscrowInstruction) :
  wf_create c -> wf_create c' -> wf_release r -> wf_release r' ->
  (encodeCreateEscrow c = encodeCreateEscrow c' -> c = c') /\
  (encodeReleaseEscrow r = encodeReleaseEscrow r' -> r = r') /\
  encodeCreateEscrow c <> encodeReleaseEscrow r.
Proof.
  intros Hc Hc' Hr Hr'.
  rewrite (encodeCreateEscrow_layout c Hc), (encodeCreateEscrow_layout c' Hc'),
    (encodeReleaseEscrow_layout r Hr), (encodeReleaseEscrow_layout r' Hr').
  destruct Hc as (Hlen & _ & Hi & Ha), Hc' as (Hlen' & _ & Hi' & Ha'),
           Hr as (Hrlen & _ & Hri), Hr' as (Hrlen' & _ & Hri').
  split; [|split].
  - intros Heq. apply layout_tail_inj in Heq.
    apply app_inj_length in Heq; [|congruence]. destruct Heq as [Hh Heq].
    apply app_inj_length in Heq; [|now rewrite !le_bytes_length].
    destruct Heq as [Hn Hamt].
    apply le_bytes_u64_inj in Hn; [|assumption..].
    apply le_bytes_u64_inj in Hamt; [|assumption..].
    destruct c, c'; cbn in *; congruence.
  - intros Heq. apply layout_tail_inj in Heq.
    apply app_inj_length in Heq; [|congruence]. destruct Heq as [Hh Hn].
    apply le_bytes_u64_inj in Hn; [|assumption..].
    destruct r, r'; cbn in *; congruence.
  - intros Heq. cbn [app] in Heq. congruence.
Qed.

Lemma encoding_is_unambiguous_witness :
  encodeCreateEscrow sample_create <> encodeReleaseEscrow sample_release.
Proof.
  assert (Hc : wf_create sample_create).
  { repeat split; try apply sample_hash_bytes; unfold U64_LIMIT; simpl; lia. }
  assert (Hr : wf_release sample_release).
  { repeat split; try apply sample_hash_bytes; unfold U64_LIMIT; simpl; lia. }
  exact (proj2 (proj2 (encoding_is_unambiguous sample_create sample_create
                         sample_release sample_release Hc Hc Hr Hr))).
Defined.

End EncodingInjective.

Section GatewayRuns.
Import SolanaProvider.
Context {W : Type} `{Web3 W}.

Lemma derive_inv (program : PublicKey) (h : Buffer) (n : Z) (a : PublicKey) :
  derive program h n = Returned a ->
  exists le bump,
    Helpers.numberToLeBytes n = Returned le /\
    findProgramAddressSync [Buffer_from_string "escrow"; h; le] program
    = Returned (a, bump).
Proof.
  unfold derive.
  destruct (Helpers.numberToLeBytes n) as [le|m]; [|discriminate].
  destruct (findProgramAddressSync _ _) as [[a' bump]|m] eqn:Hfind; [|discriminate].
  intros Heq. injection Heq as ->. eauto.
Qed.

(** X4. When the derived address holds no account and the ledger accepts
    and confirms the transaction, [createEscrow] makes exactly four calls:
    the lookup, the serialization, one [sendTransaction] and one
    [confirmTransaction] of the returned signature. The transaction has a
    single instruction for the program, over the payer (signer, writable),
    the escrow address (writable) and the system program, with the 49 bytes
    of the CreateEscrow layout as data, signed by the payer alone; the
    result carries the signature and its explorer address. *)
Theorem createEscrow_submits_one_instruction
  (this : t) (n : Z) (h : Buffer) (amount : Z) (a : PublicKey) (sig : string)
  (w w1 w2 w3 : W) :
  derivation_input h n -> Schemas.is_u64 amount ->
  derive (programId this) h n = Returned a ->
  getAccountInfo a w = (Returned None, w1) ->
  sendTransaction (create_transaction this a h n amount) [payer this] w1
  = (Returned sig, w2) ->
  confirmTransaction sig w2 = (Returned tt, w3) ->
  run (createEscrow this n h amount) w
  = (Returned {| signature := sig; explorerUrl := getExplorerUrl this sig |},
     (w3,
      [EvGetAccountInfo a (Returned None);
       EvSerialize (Returned ([0] ++ h ++ le_bytes 8 n ++ le_bytes 8 amount));
       EvSendTransaction (create_transaction this a h n amount) [payer this]
         (Returned sig);
       EvConfirmTransaction sig (Returned tt)])).
Proof.
  intros (Hlen & Hbytes & Hn) Hamount Hderive Hlookup Hsend Hconfirm.
  destruct (derive_inv _ _ _ _ Hderive) as (le & bump & Hle & Hfind).
  assert (Hwf : Schemas.wf_create
                  {| Schemas.ce_repo_hash := h; Schemas.ce_issue_number := n;
                     Schemas.ce_amount := amount |})
    by (unfold Schemas.wf_create; cbn; auto).
  unfold createEscrow, run, bind, lift, external, logged, ret.
  rewrite Hle, Hfind. cbn [fst snd app]. rewrite Hlookup. cbn [fst snd app].
  rewrite (encodeCreateEscrow_layout _ Hwf).
  cbn [Schemas.ce_repo_hash Schemas.ce_issue_number Schemas.ce_amount fst snd].
  unfold create_transaction in Hsend. rewrite Hsend. cbn [fst snd app].
  rewrite Hconfirm. reflexivity.
Qed.

(** X5. When the derived address holds an account and the ledger accepts
    and confirms the transaction, [releaseEscrow] makes exactly four calls:
    the lookup, the serialization, one [sendTransaction] and one
    [confirmTransaction]. The single instruction is over the escrow address
    (writable), the recipient (writable) and the payer (signer, writable),
    with the 41 bytes of the ReleaseEscrow layout as data. *)
Theorem releaseEscrow_submits_one_instruction
  (this : t) (n : Z) (h : Buffer) (recipient a : PublicKey) (info : AccountInfo)
  (sig : string) (w w1 w2 w3 : W) :
  derivation_input h n ->
  derive (programId this) h n = Returned a ->
  getAccountInfo a w = (Returned (Some info), w1) ->
  sendTransaction (release_transaction this a h n recipient) [payer this] w1
  = (Returned sig, w2) ->
  confirmTransaction sig w2 = (Returned tt, w3) ->
  run (releaseEscrow this n h recipient) w
  = (Returned {| signature := sig; explorerUrl := getExplorerUrl this sig |},
     (w3,
      [EvGetAccountInfo a (Returned (Some info));
       EvSerialize (Returned ([1] ++ h ++ le_bytes 8 n));
       EvSendTransaction (release_transaction this a h n recipient) [payer this]
         (Returned sig);
       EvConfirmTransaction sig (Returned tt)])).
Proof.
  intros (Hlen & Hbytes & Hn) Hderive Hlookup Hsend Hconfirm.
  destruct (derive_inv _ _ _ _ Hderive) as (le & bump & Hle & Hfind).
  assert (Hwf : Schemas.wf_release
                  {| Schemas.re_repo_hash := h; Schemas.re_issue_number := n |})
    by (unfold Schemas.wf_release; cbn; auto).
  unfold releaseEscrow, run, bind, lift, external, logged, ret.
  rewrite Hle, Hfind. cbn [fst snd app]. rewrite Hlookup. cbn [fst snd app].
  rewrite (encodeReleaseEscrow_layout _ Hwf).
  cbn [Schemas.re_repo_hash Schemas.re_issue_number fst snd].
  unfold release_transaction in Hsend. rewrite Hsend. cbn [fst snd app].
  rewrite Hconfirm. reflexivity.
Qed.

Ltac gateway_cases :=
  repeat match goal with
         | |- context [Helpers.numberToLeBytes ?n] =>
             destruct (Helpers.numberToLeBytes n) as [?le|?m]; cbn [fst snd app]
         | |- context [findProgramAddressSync ?s ?p] =>
             destruct (findProgramAddressSync s p) as [[?a ?bump]|?m];
             cbn [fst snd app]
         | |- context [getAccountInfo ?a ?w0] =>
             destruct (getAccountInfo a w0) as [[[?info|]|?m] ?w]; cbn [fst snd app]
         | |- context [Schemas.encodeCreateEscrow ?i] =>
             destruct (Schemas.encodeCreateEscrow i) as [?bytes|?m];
             cbn [fst snd app]
         | |- context [Schemas.encodeReleaseEscrow ?i] =>
             destruct (Schemas.encodeReleaseEscrow i) as [?bytes|?m];
             cbn [fst snd app]
         | |- context [sendTransaction ?tx ?s ?w0] =>
             destruct (sendTransaction tx s w0) as [[?sig|?m] ?w]; cbn [fst snd app]
         | |- context [confirmTransaction ?s ?w0] =>
             destruct (confirmTransaction s w0) as [[[]|?m] ?w]; cbn [fst snd app]
         end.

Ltac gateway_leaf :=
  cbn;
  split; [eexists; reflexivity|];
  split; [reflexivity|];
  split;
  [ split;
    [ intros Hr; first [discriminate Hr | split; reflexivity]
    | intros [Hk Hf]; first [discriminate Hk | discriminate Hf | reflexivity] ]
  | intros ? ? Hin;
    repeat (destruct Hin as [Hin|Hin]; [try discriminate Hin|]);
    try contradiction;
    injection Hin as <- _; eexists _, _; right; right; left; reflexivity ].

(** X6. Whatever the ledger answers, [createEscrow] and [releaseEscrow]
    call in the fixed order lookup, serialization, send, confirm, and stop
    at the first call that fails: at most one transaction is sent per call,
    never before the lookup and the serialization succeeded, and a
    confirmation is only ever awaited for the signature that the send
    returned. The operation returns exactly when all four calls were made
    and succeeded. *)
Theorem gateway_sends_at_most_once
  (this : t) (n : Z) (h : Buffer) (amount : Z) (recipient : PublicKey) (w : W) :
  gateway_discipline (trace_of (run (createEscrow this n h amount) w))
                     (result_of (run (createEscrow this n h amount) w)) /\
  gateway_discipline (trace_of (run (releaseEscrow this n h recipient) w))
                     (result_of (run (releaseEscrow this n h recipient) w)).
Proof.
  unfold gateway_discipline.
  split.
  - unfold createEscrow, run, bind, lift, external, logged, throw, ret,
      trace_of, result_of.
    cbn [fst snd app]. gateway_cases.
    all: gateway_leaf.
  - unfold releaseEscrow, run, bind, lift, external, logged, throw, ret,
      trace_of, result_of.
    cbn [fst snd app]. gateway_cases.
    all: gateway_leaf.
Qed.

(** X7. [escrowExists] makes the lookup at the derived address and nothing
    else, and its answer tells which precondition fails: where it answers
    [true], [createEscrow] throws the already-exists error, and where it
    answers [false], [releaseEscrow] throws the not-found error, each after
    the same single call and in the same ledger state. *)
Theorem escrowExists_tells_the_failing_precondition
  (this : t) (n : Z) (h : Buffer) (amount : Z) (recipient : PublicKey)
  (a : PublicKey) (w : W) :
  derive (programId this) h n = Returned a ->
  call_kinds (trace_of (run (escrowExists this n h) w)) = [1%nat] /\
  looked_up (trace_of (run (escrowExists this n h) w)) = Some a /\
  (result_of (run (escrowExists this n h) w) = Returned true ->
   run (createEscrow this n h amount) w
   = (Thrown "Escrow already exists for this issue",
      (world_of (run (escrowExists this n h) w),
       trace_of (run (escrowExists this n h) w)))) /\
  (result_of (run (escrowExists this n h) w) = Returned false ->
   run (releaseEscrow this n h recipient) w
   = (Thrown "Escrow does not exist for this issue",
      (world_of (run (escrowExists this n h) w),
       trace_of (run (escrowExists this n h) w)))).
Proof.
  intros Hderive.
  destruct (derive_inv _ _ _ _ Hderive) as (le & bump & Hle & Hfind).
  unfold escrowExists, createEscrow, releaseEscrow, run, bind, lift, external,
    logged, throw, ret, trace_of, result_of, world_of.
  rewrite Hle, Hfind. cbn [fst snd app].
  destruct (getAccountInfo a w) as [[[info|]|m] w1]; cbn [fst snd app call_kinds map];
    repeat split; try reflexivity; discriminate.
Qed.

(** The encoder reads the amount through its magnitude. *)
Lemma encodeCreateEscrow_magnitude (h : Buffer) (n amount : Z) :
  Schemas.encodeCreateEscrow
    {| Schemas.ce_repo_hash := h; Schemas.ce_issue_number := n;
       Schemas.ce_amount := Z.abs amount |}
  = Schemas.encodeCreateEscrow
      {| Schemas.ce_repo_hash := h; Schemas.ce_issue_number := n;
         Schemas.ce_amount := amount |}.
Proof.
  unfold Schemas.encodeCreateEscrow, Schemas.CreateEscrowSchema.
  cbn [Borsh.serializeStruct].
  cbn [Schemas.CreateEscrow_field String.eqb Ascii.eqb Bool.eqb
       Borsh.serializeField Schemas.ce_repo_hash Schemas.ce_issue_number
       Schemas.ce_amount].
  unfold Borsh.writeU64 at 2 4. rewrite Z.abs_idemp. reflexivity.
Qed.

(** X8. Which inputs the gateway stops before the ledger, and one it does
    not. An issue number outside [0, 2^64) makes [createEscrow],
    [releaseEscrow] and [escrowExists] throw before any call, and so does
    every failure of the address derivation. A repository hash that is not
    32 bytes long but was accepted by the derivation, or an amount whose
    magnitude is 2^64 or more, makes [createEscrow] throw in the
    serialization, after the lookup found no account: nothing is sent. A
    negative amount is not stopped: [createEscrow] does with it exactly
    what it does with its magnitude. *)
Theorem gateway_input_checks
  (this : t) (n : Z) (h : Buffer) (amount : Z) (recipient : PublicKey)
  (a : PublicKey) (w w1 : W) :
  (~ Schemas.is_u64 n ->
   exists m,
     run (createEscrow this n h amount) w = (Thrown m, (w, [])) /\
     run (releaseEscrow this n h recipient) w = (Thrown m, (w, [])) /\
     run (escrowExists this n h) w = (Thrown m, (w, []))) /\
  (forall m,
      derive (programId this) h n = Thrown m ->
      run (createEscrow this n h amount) w = (Thrown m, (w, [])) /\
      run (releaseEscrow this n h recipient) w = (Thrown m, (w, [])) /\
      run (escrowExists this n h) w = (Thrown m, (w, []))) /\
  (derive (programId this) h n = Returned a ->
   getAccountInfo a w = (Returned None, w1) ->
   length h <> 32%nat \/ U64_LIMIT <= Z.abs amount ->
   exists m,
     run (createEscrow this n h amount) w
     = (Thrown m, (w1, [EvGetAccountInfo a (Returned None); EvSerialize (Thrown m)]))) /\
  run (createEscrow this n h amount) w
  = run (createEscrow this n h (Z.abs amount)) w.
Proof.
  split; [|split; [|split]].
  - intros Hn.
    assert (Hthrow : Helpers.numberToLeBytes n = Thrown "ERR_OUT_OF_RANGE").
    { unfold Helpers.numberToLeBytes, Schemas.is_u64 in *.
      destruct (Z.leb_spec 0 n), (Z.ltb_spec n U64_LIMIT); cbn [andb];
        first [reflexivity | lia]. }
    eexists.
    unfold escrowExists, createEscrow, releaseEscrow, run, bind, lift.
    rewrite Hthrow. repeat split; reflexivity.
  - intros m Hderive.
    unfold derive in Hderive.
    unfold escrowExists, createEscrow, releaseEscrow, run, bind, lift.
    destruct (Helpers.numberToLeBytes n) as [le|m0].
    + destruct (findProgramAddressSync _ _) as [[a0 bump]|m1]; [discriminate|].
      injection Hderive as ->. repeat split; reflexivity.
    + injection Hderive as ->. repeat split; reflexivity.
  - intros Hderive Hlookup Hbad.
    destruct (derive_inv _ _ _ _ Hderive) as (le & bump & Hle & Hfind).
    assert (Hn : Schemas.is_u64 n).
    { apply (proj2 (numberToLeBytes_is_exact_on_u64_aux n)). eauto. }
    assert (Henc : exists m,
               Schemas.encodeCreateEscrow
                 {| Schemas.ce_repo_hash := h; Schemas.ce_issue_number := n;
                    Schemas.ce_amount := amount |} = Thrown m).
    { unfold Schemas.encodeCreateEscrow, Schemas.CreateEscrowSchema.
      cbn [Borsh.serializeStruct].
      cbn [Schemas.CreateEscrow_field String.eqb Ascii.eqb Bool.eqb
           Borsh.serializeField Schemas.ce_repo_hash Schemas.ce_issue_number
           Schemas.ce_amount].
      destruct (Nat.eqb_spec (length h) 32) as [Hlen|Hlen].
      - destruct Hbad as [Hbad|Hbad]; [contradiction|].
        rewrite (writeU64_u64 n Hn).
        unfold Borsh.writeU64.
        destruct (Z.ltb_spec (Z.abs amount) U64_LIMIT) as [Hlt|_]; [lia|].
        eexists. reflexivity.
      - eexists. reflexivity. }
    destruct Henc as (m & Henc). exists m.
    unfold createEscrow, run, bind, lift, external, logged.
    rewrite Hle, Hfind. cbn [fst snd app]. rewrite Hlookup. cbn [fst snd app].
    rewrite Henc. reflexivity.
  - unfold createEscrow. rewrite encodeCreateEscrow_magnitude. reflexivity.
Qed.

End GatewayRuns.

Lemma createEscrow_witness :
  call_kinds (trace_of (run (W:=SampleLedger.world)
                          (SolanaProvider.createEscrow SampleLedger.provider
                             42 sample_hash 2000000000) []))
  = [1; 2; 3; 4]%nat.
Proof.
  pose (addr := match SolanaProvider.derive (W:=SampleLedger.world)
                        (SolanaProvider.programId SampleLedger.provider)
                        sample_hash 42 with
                | Returned a => a
                | Thrown _ => 0
                end).
  assert (Hin : derivation_input sample_hash 42).
  { repeat split; try apply sample_hash_bytes; unfold U64_LIMIT; simpl; lia. }
  assert (Hamount : Schemas.is_u64 2000000000) by (unfold Schemas.is_u64, U64_LIMIT; lia).
  rewrite (createEscrow_submits_one_instruction (W:=SampleLedger.world)
             SampleLedger.provider 42 sample_hash 2000000000 addr "sig1"
             [] [] [addr] [addr] Hin Hamount);
    solve [reflexivity | vm_compute; reflexivity].
Defined.

Lemma releaseEscrow_witness :
  call_kinds (trace_of (run (W:=SampleLedger.world)
                          (SolanaProvider.releaseEscrow SampleLedger.provider
                             42 sample_hash 99)
                          (world_of (run (SolanaProvider.createEscrow
                                            SampleLedger.provider
                                            42 sample_hash 2000000000) []))))
  = [1; 2; 3; 4]%nat.
Proof.
  pose (addr := match SolanaProvider.derive (W:=SampleLedger.world)
                        (SolanaProvider.programId SampleLedger.provider)
                        sample_hash 42 with
                | Returned a => a
                | Thrown _ => 0
                end).
  assert (Hin : derivation_input sample_hash 42).
  { repeat split; try apply sample_hash_bytes; unfold U64_LIMIT; simpl; lia. }
  assert (Hfrom : forall w0 : SampleLedger.world,
             w0 = [addr] ->
             call_kinds (trace_of (run (SolanaProvider.releaseEscrow
                                          SampleLedger.provider 42 sample_hash 99) w0))
             = [1; 2; 3; 4]%nat).
  { intros w0 ->.
    rewrite (releaseEscrow_submits_one_instruction (W:=SampleLedger.world)
               SampleLedger.provider 42 sample_hash 99 addr
               {| lamports := 1; owner := 0 |} "sig1"
               [addr] [addr] [addr; addr] [addr; addr] Hin);
      solve [reflexivity | vm_compute; reflexivity]. }
  apply Hfrom. vm_compute. reflexivity.
Defined.

Lemma escrowExists_witness :
  result_of (run (W:=SampleLedger.world)
               (SolanaProvider.createEscrow SampleLedger.provider 42 sample_hash 7)
               (world_of (run (SolanaProvider.createEscrow SampleLedger.provider
                                 42 sample_hash 2000000000) [])))
  = Thrown "Escrow already exists for this issue".
Proof.
  pose (addr := match SolanaProvider.derive (W:=SampleLedger.world)
                        (SolanaProvider.programId SampleLedger.provider)
                        sample_hash 42 with
                | Returned a => a
                | Thrown _ => 0
                end).
  assert (Hderive : SolanaProvider.derive (W:=SampleLedger.world)
                      (SolanaProvider.programId SampleLedger.provider)
                      sample_hash 42 = Returned addr)
    by (vm_compute; reflexivity).
  assert (Hfrom : forall w0 : SampleLedger.world,
             w0 = [addr] ->
             result_of (run (SolanaProvider.createEscrow SampleLedger.provider
                               42 sample_hash 7) w0)
             = Thrown "Escrow already exists for this issue").
  { intros w0 ->.
    destruct (escrowExists_tells_the_failing_precondition (W:=SampleLedger.world)
                SampleLedger.provider 42 sample_hash 7 99 addr [addr] Hderive)
      as (_ & _ & Hexists & _).
    rewrite Hexists; [reflexivity|]. vm_compute. reflexivity. }
  apply Hfrom. vm_compute. reflexivity.
Defined.

Lemma gateway_input_checks_witness :
  (exists m, run (W:=SampleLedger.world)
               (SolanaProvider.createEscrow SampleLedger.provider (-1) sample_hash 5) []
             = (Thrown m, ([], []))) /\
  call_kinds (trace_of (run (W:=SampleLedger.world)
                          (SolanaProvider.createEscrow SampleLedger.provider
                             42 [1; 2; 3] 5) []))
  = [1; 2]%nat /\
  call_kinds (trace_of (run (W:=SampleLedger.world)
                          (SolanaProvider.createEscrow SampleLedger.provider
                             42 sample_hash (-5)) []))
  = [1; 2; 3; 4]%nat.
Proof.
  pose (addr := match SolanaProvider.derive (W:=SampleLedger.world)
                        (SolanaProvider.programId SampleLedger.provider)
                        [1; 2; 3] 42 with
                | Returned a => a
                | Thrown _ => 0
                end).
  assert (Hderive : SolanaProvider.derive (W:=SampleLedger.world)
                      (SolanaProvider.programId SampleLedger.provider)
                      [1; 2; 3] 42 = Returned addr)
    by (vm_compute; reflexivity).
  split; [|split].
  - destruct (gateway_input_checks (W:=SampleLedger.world)
                SampleLedger.provider (-1) sample_hash 5 99 0 [] [])
      as (Hrange & _).
    destruct Hrange as (m & Hc & _).
    + unfold Schemas.is_u64. lia.
    + exists m. exact Hc.
  - destruct (gateway_input_checks (W:=SampleLedger.world)
                SampleLedger.provider 42 [1; 2; 3] 5 99 addr [] [])
      as (_ & _ & Hshort & _).
    destruct (Hshort Hderive) as (m & Hrun).
    + vm_compute. reflexivity.
    + left. cbn. lia.
    + rewrite Hrun. reflexivity.
  - destruct (gateway_input_checks (W:=SampleLedger.world)
                SampleLedger.provider 42 sample_hash (-5) 99 0 [] [])
      as (_ & _ & _ & Hmagnitude).
    rewrite Hmagnitude. vm_compute. reflexivity.
Defined.

(* ===================================================================== *)
(** * Signature verification, in full *)
(* ===================================================================== *)

Section SignatureExact.
Import Crypto.
Context `{NodeCrypto}.

(** X9. [verifyGitHubSignature] accepts one header only: it returns [true]
    exactly when the secret is not empty and the signature is [sha256=]
    followed by the hexadecimal HMAC of the body under the secret. It
    throws, instead of answering, exactly when signature and secret are
    both present and the signature is not 71 bytes long; in every other
    case it returns [false]. *)
Theorem verifyGitHubSignature_accepts_only_the_expected_header
  (body : Buffer) (signature secret : string) :
  (snd (verifyGitHubSignature body signature secret) = Returned true <->
   secret <> EmptyString /\ signature = sign body secret) /\
  ((exists m, snd (verifyGitHubSignature body signature secret) = Thrown m) <->
   signature <> EmptyString /\ secret <> EmptyString /\
   String.length signature <> 71%nat).
Proof.
  unfold verifyGitHubSignature, sign.
  destruct signature as [|c s].
  { cbn. split; split.
    - discriminate.
    - intros [_ Hsig]. destruct (hmac_sha256_hex secret body); discriminate Hsig.
    - intros (m & Hm). discriminate Hm.
    - intros (Hsig & _). contradiction. }
  destruct secret as [|d t].
  { cbn. split; split.
    - discriminate.
    - intros [Hsec _]. contradiction.
    - intros (m & Hm). discriminate Hm.
    - intros (_ & Hsec & _). contradiction. }
  cbn [falsy_string orb snd]. unfold timingSafeEqual.
  rewrite expected_length, Buffer_from_string_length.
  destruct (Nat.eqb_spec (String.length (String c s)) 71) as [Hlen|Hlen].
  - split; split.
    + intros Heq. injection Heq as Heq. apply bool_decide_eq_true_1 in Heq.
      apply Buffer_from_string_inj in Heq. split; [discriminate|exact Heq].
    + intros [_ Heq]. rewrite Heq. now rewrite bool_decide_eq_true_2.
    + intros (m & Hm). discriminate Hm.
    + intros (_ & _ & Hne). contradiction.
  - split; split.
    + discriminate.
    + intros [_ Heq]. exfalso. apply Hlen. rewrite Heq.
      rewrite append_length, hmac_sha256_hex_length. reflexivity.
    + intros _. repeat split; [discriminate|discriminate|exact Hlen].
    + intros _. eexists. reflexivity.
Qed.

End SignatureExact.

(* ===================================================================== *)
(** * The claim handler after the validation *)
(* ===================================================================== *)

Section AfterValidation.
Context {W : Type} `{IIssueProvider W} `{IPaymentProvider W} `{JsRuntime}.
Import BountyManager.

Lemma notifyAll_from (this : t W) (data : NotificationData.t) (w : W)
  (tr0 : list Event) :
  exists w' tr,
    notifyAll this data (w, tr0) = (Returned tt, (w', tr0 ++ tr)) /\
    notified data (notificationProviders this) tr.
Proof.
  unfold notifyAll, notified.
  generalize (notificationProviders this) as providers.
  set (body := fun provider : INotificationProvider W =>
                 let! _ := attempt (external (notify provider data)
                                      (EvNotify (getName provider) data)) in
                 ret tt).
  assert (Hbody : forall p w0 tr1,
             body p (w0, tr1)
             = (Returned tt,
                (snd (notify p data w0),
                 tr1 ++ [EvNotify (getName p) data (fst (notify p data w0))]))).
  { intros p w0 tr1. unfold body, bind, attempt, external, ret. cbn [fst snd].
    destruct (notify p data w0) as [r w1]. reflexivity. }
  clearbody body.
  intros providers. revert w tr0.
  induction providers as [|p ps IH]; intros w tr0.
  - exists w, []. cbn. rewrite app_nil_r. split; [reflexivity|constructor].
  - cbn [for_each]. unfold bind at 1. rewrite Hbody.
    destruct (IH (snd (notify p data w))
                 (tr0 ++ [EvNotify (getName p) data (fst (notify p data w))]))
      as (w' & tr & Hrun & Hall).
    exists w', (EvNotify (getName p) data (fst (notify p data w)) :: tr).
    rewrite Hrun, <- app_assoc. split; [reflexivity|].
    constructor; [eexists; reflexivity|exact Hall].
Qed.

(** X10. [notifyAll] notifies every provider once, in the configured
    order, and returns whatever the providers do: a provider that throws
    stops neither the providers after it nor the handler. *)
Theorem notifyAll_isolates_providers
  (this : t W) (data : NotificationData.t) (w : W) :
  exists w' tr,
    run (notifyAll this data) w = (Returned tt, (w', tr)) /\
    notified data (notificationProviders this) tr.
Proof.
  destruct (notifyAll_from this data w []) as (w' & tr & Hrun & Hall).
  exists w', tr. split; [exact Hrun|exact Hall].
Qed.

(** What [handleClaim] does once the address is parsed and the validation
    has returned a valid result. *)
Lemma handleClaim_valid (this : t W) repo prNumber commenter commentBody
  (wallet : PublicKey) (v : ClaimValidation) (w w1 : W) (trv : list Event) :
  wallet_of commentBody = Some wallet ->
  run (SecurityValidator.validateClaim (securityConfig this) repo prNumber
         commenter (bountyConfig this)) w = (Returned v, (w1, trv)) ->
  isValid v = true ->
  run (handleClaim this repo prNumber commenter commentBody) w
  = release_and_report this repo prNumber commenter wallet v (w1, trv).
Proof.
  unfold wallet_of, handleClaim. intros Hwallet Hrun Hvalid.
  destruct (required_text (walletStr_of commentBody)) as [walletStr|]; [|discriminate].
  destruct (parseWalletAddress walletStr) as [k|m]; [|discriminate].
  injection Hwallet as ->.
  unfold run, bind in Hrun |- *. rewrite Hrun, Hvalid. reflexivity.
Qed.

(** X11. When the release throws, the claim handler reports it on the
    pull request and does nothing else: after the validation it calls
    [releaseEscrow] and posts the one comment [Failed to release bounty:]
    with the message; no comment goes to the linked issue and nobody is
    notified. *)
Theorem failed_release_is_only_reported
  (this : t W) (repo : string) (prNumber : Z) (commenter commentBody : string)
  (wallet : PublicKey) (v : ClaimValidation) (linked : LinkedIssue.t)
  (hash : Buffer) (m : string) (w w1 w2 : W) (trv : list Event) :
  wallet_of commentBody = Some wallet ->
  run (SecurityValidator.validateClaim (securityConfig this) repo prNumber
         commenter (bountyConfig this)) w = (Returned v, (w1, trv)) ->
  isValid v = true -> linkedIssue v = Some linked ->
  getRepositoryHash repo = Returned hash ->
  releaseEscrow (LinkedIssue.number linked) hash wallet w1 = (Thrown m, w2) ->
  run (handleClaim this repo prNumber commenter commentBody) w
  = (fst (postComment repo prNumber ("Failed to release bounty: " +:+ m) w2),
     (snd (postComment repo prNumber ("Failed to release bounty: " +:+ m) w2),
      trv ++
      [EvReleaseEscrow (LinkedIssue.number linked) hash wallet (Thrown m);
       EvPostComment repo prNumber ("Failed to release bounty: " +:+ m)
         (fst (postComment repo prNumber ("Failed to release bounty: " +:+ m) w2))])).
Proof.
  intros Hwallet Hrun Hvalid Hlinked Hhash Hrelease.
  rewrite (handleClaim_valid _ _ _ _ _ _ _ _ _ _ Hwallet Hrun Hvalid).
  unfold release_and_report, post, bind, attempt, lift, external.
  rewrite Hhash, Hlinked. cbn [fst snd]. rewrite Hrelease. cbn [fst snd].
  destruct (postComment _ _ _ w2) as [r w3]. cbn [fst snd].
  rewrite <- app_assoc. reflexivity.
Qed.

(** X12. When the release returns and both confirmations can be posted,
    the claim handler returns after exactly these calls following the
    validation: [releaseEscrow] for the linked issue, the repository hash
    and the parsed recipient; the release comment on the pull request; the
    claim marker on the linked issue; and one notification per provider. *)
Theorem successful_release_is_confirmed_and_announced
  (this : t W) (repo : string) (prNumber : Z) (commenter commentBody : string)
  (wallet : PublicKey) (v : ClaimValidation) (linked : LinkedIssue.t)
  (hash : Buffer) (tx : TransactionResult) (w w1 w2 w3 w4 : W) (trv : list Event) :
  wallet_of commentBody = Some wallet ->
  run (SecurityValidator.validateClaim (securityConfig this) repo prNumber
         commenter (bountyConfig this)) w = (Returned v, (w1, trv)) ->
  isValid v = true -> linkedIssue v = Some linked ->
  getRepositoryHash repo = Returned hash ->
  releaseEscrow (LinkedIssue.number linked) hash wallet w1 = (Returned tx, w2) ->
  postComment repo prNumber
    (MSG_BOUNTY_RELEASED commenter linked wallet (explorerUrl tx)) w2
  = (Returned tt, w3) ->
  postComment repo (LinkedIssue.number linked)
    (MSG_BOUNTY_CLAIMED commenter prNumber (explorerUrl tx)) w3
  = (Returned tt, w4) ->
  exists w' notifications,
    run (handleClaim this repo prNumber commenter commentBody) w
    = (Returned tt,
       (w',
        trv ++
        [EvReleaseEscrow (LinkedIssue.number linked) hash wallet (Returned tx);
         EvPostComment repo prNumber
           (MSG_BOUNTY_RELEASED commenter linked wallet (explorerUrl tx)) (Returned tt);
         EvPostComment repo (LinkedIssue.number linked)
           (MSG_BOUNTY_CLAIMED commenter prNumber (explorerUrl tx)) (Returned tt)]
        ++ notifications)) /\
    notified (claimed_notification repo linked prNumber commenter tx)
             (notificationProviders this) notifications.
Proof.
  intros Hwallet Hrun Hvalid Hlinked Hhash Hrelease Hpost1 Hpost2.
  rewrite (handleClaim_valid _ _ _ _ _ _ _ _ _ _ Hwallet Hrun Hvalid).
  unfold release_and_report, post, bind, attempt, lift, external.
  rewrite Hhash, Hlinked. cbn [fst snd]. rewrite Hrelease. cbn [fst snd].
  rewrite Hpost1. cbn [fst snd]. rewrite Hpost2. cbn [fst snd].
  match goal with
  | |- context [notifyAll this ?data (w4, ?tr)] =>
      destruct (notifyAll_from this data w4 tr) as (w' & ns & Hnotify & Hall);
      rewrite Hnotify
  end.
  exists w', ns. split; [|exact Hall].
  unfold ret. cbn [fst snd]. rewrite <- !app_assoc. reflexivity.
Qed.

(** X13. A release that has happened is reported as failed when a
    confirmation cannot be posted. If the release comment on the pull
    request throws, the handler posts [Failed to release bounty:] with that
    message on the pull request; if the claim marker on the linked issue
    throws, it does the same after the release comment. In both cases the
    marker is not on the issue and nobody is notified. *)
Theorem unposted_confirmation_is_reported_as_failed_release
  (this : t W) (repo : string) (prNumber : Z) (commenter commentBody : string)
  (wallet : PublicKey) (v : ClaimValidation) (linked : LinkedIssue.t)
  (hash : Buffer) (tx : TransactionResult) (m : string) (w w1 w2 w3 w4 : W)
  (trv : list Event) :
  wallet_of commentBody = Some wallet ->
  run (SecurityValidator.validateClaim (securityConfig this) repo prNumber
         commenter (bountyConfig this)) w = (Returned v, (w1, trv)) ->
  isValid v = true -> linkedIssue v = Some linked ->
  getRepositoryHash repo = Returned hash ->
  releaseEscrow (LinkedIssue.number linked) hash wallet w1 = (Returned tx, w2) ->
  (postComment repo prNumber
     (MSG_BOUNTY_RELEASED commenter linked wallet (explorerUrl tx)) w2
   = (Thrown m, w3) ->
   trace_of (run (handleClaim this repo prNumber commenter commentBody) w)
   = trv ++
     [EvReleaseEscrow (LinkedIssue.number linked) hash wallet (Returned tx);
      EvPostComment repo prNumber
        (MSG_BOUNTY_RELEASED commenter linked wallet (explorerUrl tx)) (Thrown m);
      EvPostComment repo prNumber ("Failed to release bounty: " +:+ m)
        (fst (postComment repo prNumber ("Failed to release bounty: " +:+ m) w3))]) /\
  (postComment repo prNumber
     (MSG_BOUNTY_RELEASED commenter linked wallet (explorerUrl tx)) w2
   = (Returned tt, w3) ->
   postComment repo (LinkedIssue.number linked)
     (MSG_BOUNTY_CLAIMED commenter prNumber (explorerUrl tx)) w3
   = (Thrown m, w4) ->
   trace_of (run (handleClaim this repo prNumber commenter commentBody) w)
   = trv ++
     [EvReleaseEscrow (LinkedIssue.number linked) hash wallet (Returned tx);
      EvPostComment repo prNumber
        (MSG_BOUNTY_RELEASED commenter linked wallet (explorerUrl tx)) (Returned tt);
      EvPostComment repo (LinkedIssue.number linked)
        (MSG_BOUNTY_CLAIMED commenter prNumber (explorerUrl tx)) (Thrown m);
      EvPostComment repo prNumber ("Failed to release bounty: " +:+ m)
        (fst (postComment repo prNumber ("Failed to release bounty: " +:+ m) w4))]).
Proof.
  intros Hwallet Hrun Hvalid Hlinked Hhash Hrelease.
  rewrite (handleClaim_valid _ _ _ _ _ _ _ _ _ _ Hwallet Hrun Hvalid).
  unfold release_and_report, post, bind, attempt, lift, external, trace_of.
  rewrite Hhash, Hlinked. cbn [fst snd]. rewrite Hrelease. cbn [fst snd].
  split.
  - intros Hpost1. rewrite Hpost1. cbn [fst snd].
    destruct (postComment _ _ _ w3) as [r w5]. cbn [fst snd].
    rewrite <- !app_assoc. reflexivity.
  - intros Hpost1 Hpost2. rewrite Hpost1. cbn [fst snd]. rewrite Hpost2.
    cbn [fst snd].
    destruct (postComment _ _ _ w4) as [r w5]. cbn [fst snd].
    rewrite <- !app_assoc. reflexivity.
Qed.

End AfterValidation.

(* ===================================================================== *)
(** * Which failures leave a handler *)
(* ===================================================================== *)

Section Escapes.
Context {W : Type}.
Implicit Types P : string -> Event -> bool.

Lemma never_throws_ret {Ev A} (a : A) : never_throws (W:=W) (Ev:=Ev) (ret a).
Proof. intros s. exists a. reflexivity. Qed.

Lemma never_throws_attempt {Ev A} (m : Eff (W:=W) (Ev:=Ev) A) :
  never_throws (attempt m).
Proof. intros s. unfold attempt. destruct (m s) as [r s']. eexists. reflexivity. Qed.

Lemma never_throws_bind {Ev A B} (m : Eff (W:=W) (Ev:=Ev) A) (k : A -> Eff B) :
  never_throws m -> (forall a, never_throws (k a)) -> never_throws (bind m k).
Proof.
  intros Hm Hk s. unfold bind. destruct (Hm s) as (a & Ha).
  destruct (m s) as [r s']. cbn in Ha. subst r. apply Hk.
Qed.

Lemma escapes_never {A} P (m : Eff (W:=W) (Ev:=Event) A) :
  never_throws m -> escapes_via P m.
Proof. intros Hm w tr0 e He. destruct (Hm (w, tr0)) as (a & Ha). congruence. Qed.

Lemma escapes_bind {A B} P (m : Eff (W:=W) (Ev:=Event) A) (k : A -> Eff B) :
  escapes_via P m -> (forall a, escapes_via P (k a)) -> escapes_via P (bind m k).
Proof.
  intros Hm Hk w tr0 e. unfold bind. specialize (Hm w tr0).
  destruct (m (w, tr0)) as [[a|e'] [w1 tr1]].
  - apply Hk.
  - cbn [fst snd] in *. intros He. injection He as ->. apply (Hm e). reflexivity.
Qed.

Lemma escapes_external {A} P (op : W -> outcome A * W) (ev : outcome A -> Event) :
  (forall e, P e (ev (Thrown e)) = true) -> escapes_via P (external op ev).
Proof.
  intros HP w tr0 e. unfold external. cbn [fst snd].
  destruct (op w) as [r w1]. cbn [fst snd]. intros ->.
  eexists. split; [apply last_snoc|apply HP].
Qed.

Lemma escapes_for_each {A} P (xs : list A) (body : A -> Eff (W:=W) (Ev:=Event) unit) :
  (forall x, escapes_via P (body x)) -> escapes_via P (for_each xs body).
Proof.
  intros Hbody. induction xs as [|x xs IH]; cbn [for_each].
  - apply escapes_never, never_throws_ret.
  - apply escapes_bind; [apply Hbody|intros _; exact IH].
Qed.

End Escapes.

Ltac never_step :=
  first
    [ apply never_throws_ret
    | apply never_throws_attempt
    | apply never_throws_bind; [|intros]
    | match goal with
      | |- never_throws (match ?x with _ => _ end) => destruct x
      | |- never_throws (if ?b then _ else _) => destruct b
      end ].

Section HandlerEscapes.
Context {W : Type} `{IIssueProvider W} `{IPaymentProvider W} `{JsRuntime}.
Import BountyManager.

Lemma never_throws_validateClaim config repo prNumber commenter bountyConfig :
  never_throws (W:=W)
    (SecurityValidator.validateClaim config repo prNumber commenter bountyConfig).
Proof.
  unfold SecurityValidator.validateClaim, SecurityValidator.check4,
    SecurityValidator.check5.
  repeat never_step.
Qed.

Lemma escapes_post P repo n text :
  (forall e, P e (EvPostComment repo n text (Thrown e)) = true) ->
  escapes_via (W:=W) P (post repo n text).
Proof. intros HP. unfold post. apply escapes_external, HP. Qed.

Lemma failed_post_refl repo n text e :
  is_failed_post e (EvPostComment repo n text (Thrown e)) = true.
Proof. cbn. apply String.eqb_refl. Qed.

Lemma failed_post_or_check_post repo n text e :
  is_failed_post_or_check e (EvPostComment repo n text (Thrown e)) = true.
Proof. cbn. apply String.eqb_refl. Qed.

(** X14. The only exception that leaves [handleClaim] is the failure of a
    comment it posts: when the handler throws, its last call is a
    [postComment] that threw that very message. A failure of the address
    parser, of a validation query, of [releaseEscrow] or of a notification
    never leaves the handler. *)
Theorem handleClaim_throws_only_when_a_comment_fails
  (this : t W) (repo : string) (prNumber : Z) (commenter commentBody : string)
  (w : W) (e : string) :
  result_of (run (handleClaim this repo prNumber commenter commentBody) w) = Thrown e ->
  exists ev,
    last (trace_of (run (handleClaim this repo prNumber commenter commentBody) w))
    = Some ev /\
    is_failed_post e ev = true.
Proof.
  assert (Hescapes : escapes_via is_failed_post
                       (handleClaim this repo prNumber commenter commentBody)).
  { unfold handleClaim.
    destruct (required_text (walletStr_of commentBody)) as [walletStr|];
      [|apply escapes_post; intros; apply failed_post_refl].
    destruct (parseWalletAddress walletStr) as [wallet|m];
      [|apply escapes_post; intros; apply failed_post_refl].
    apply escapes_bind; [apply escapes_never, never_throws_validateClaim|].
    intros v. destruct (negb (isValid v)).
    - apply escapes_for_each. intros x. apply escapes_post.
      intros; apply failed_post_refl.
    - unfold release_and_report. apply escapes_bind.
      + apply escapes_never, never_throws_attempt.
      + intros [u|m]; [apply escapes_never, never_throws_ret|].
        apply escapes_post. intros; apply failed_post_refl. }
  intros Hthrown. exact (Hescapes w [] e Hthrown).
Qed.

(** X15. An exception leaves [handleLabeled] in three ways only: a
    required field is missing (then no call was made), the maintainer check
    threw, or a comment could not be posted. A failure of the repository
    hash, of [createEscrow] or of a notification never leaves the handler:
    it becomes a comment or is dropped. *)
Theorem handleLabeled_throws_only_three_ways
  (this : t W) (payload : WebhookPayload) (w : W) (e : string) :
  result_of (run (handleLabeled this payload) w) = Thrown e ->
  (e = "Missing required fields in labeled event" /\
   run (handleLabeled this payload) w = (Thrown e, (w, []))) \/
  exists ev,
    last (trace_of (run (handleLabeled this payload) w)) = Some ev /\
    is_failed_post_or_check e ev = true.
Proof.
  assert (Hcreate : forall issueNumber repo label sender,
             escapes_via is_failed_post_or_check
               (create_bounty this issueNumber repo label sender)).
  { intros. unfold create_bounty.
    destruct (getBountyAmount this label); [|apply escapes_never, never_throws_ret].
    apply escapes_bind.
    - apply escapes_never, never_throws_attempt.
    - intros [u|m]; [apply escapes_never, never_throws_ret|].
      apply escapes_post. intros; apply failed_post_or_check_post. }
  unfold handleLabeled.
  destruct (required_number (issue_number payload)) as [issueNumber|];
    [|intros Hthrown; left; cbn in Hthrown; injection Hthrown as <-; auto].
  destruct (required_text (repository_full_name payload)) as [repo|];
    [|intros Hthrown; left; cbn in Hthrown; injection Hthrown as <-; auto].
  destruct (required_text (label_name payload)) as [label|];
    [|intros Hthrown; left; cbn in Hthrown; injection Hthrown as <-; auto].
  destruct (required_text (sender_login payload)) as [sender|];
    [|intros Hthrown; left; cbn in Hthrown; injection Hthrown as <-; auto].
  intros Hthrown. right.
  match type of Hthrown with
  | result_of (run ?m w) = _ =>
      assert (Hescapes : escapes_via is_failed_post_or_check m)
  end.
  { destruct (maintainer_required (securityConfig this)); [|apply Hcreate].
    apply escapes_bind.
    - apply escapes_external. intros e'. cbn. apply String.eqb_refl.
    - intros [|]; [apply Hcreate|].
      apply escapes_post. intros; apply failed_post_or_check_post. }
  exact (Hescapes w [] e Hthrown).
Qed.

End HandlerEscapes.

(* ===================================================================== *)
(** * The label handler on a configured label *)
(* ===================================================================== *)

Section ConfiguredLabel.
Context {W : Type} `{IIssueProvider W} `{IPaymentProvider W} `{JsRuntime}.
Import BountyManager.

(** What [handleLabeled] does once the fields are present and the sender
    is let through. *)
Lemma handleLabeled_cleared (this : t W) (payload : WebhookPayload)
  (issueNumber : Z) (repo label sender : string) (w w1 : W) :
  required_number (issue_number payload) = Some issueNumber ->
  required_text (repository_full_name payload) = Some repo ->
  required_text (label_name payload) = Some label ->
  required_text (sender_login payload) = Some sender ->
  maintainer_cleared this repo sender w w1 ->
  run (handleLabeled this payload) w
  = create_bounty this issueNumber repo label sender
      (w1, maintainer_events this repo sender).
Proof.
  unfold handleLabeled, maintainer_cleared, maintainer_events, run.
  intros -> -> -> -> Hcleared.
  destruct (maintainer_required (securityConfig this)).
  - unfold bind, external. cbn [fst snd]. rewrite Hcleared. reflexivity.
  - subst w1. reflexivity.
Qed.

(** X16. On a label of the bounty configuration, once the sender is let
    through, [handleLabeled] calls [createEscrow] for the issue, the
    repository hash and the configured amount. If that throws, the only
    further call is the comment [Failed to create bounty escrow:] with the
    message; if it returns and the confirmation is posted, every
    notification provider is notified once and the handler returns. *)
Theorem handleLabeled_creates_the_configured_escrow
  (this : t W) (payload : WebhookPayload) (issueNumber : Z)
  (repo label sender : string) (amount : Z) (hash : Buffer) (w w1 w2 : W) :
  required_number (issue_number payload) = Some issueNumber ->
  required_text (repository_full_name payload) = Some repo ->
  required_text (label_name payload) = Some label ->
  required_text (sender_login payload) = Some sender ->
  maintainer_cleared this repo sender w w1 ->
  bountyConfig this !! label = Some amount -> amount <> 0 ->
  getRepositoryHash repo = Returned hash ->
  (forall m,
      createEscrow issueNumber hash amount w1 = (Thrown m, w2) ->
      run (handleLabeled this payload) w
      = (fst (postComment repo issueNumber
                ("Failed to create bounty escrow: " +:+ m) w2),
         (snd (postComment repo issueNumber
                 ("Failed to create bounty escrow: " +:+ m) w2),
          maintainer_events this repo sender ++
          [EvCreateEscrow issueNumber hash amount (Thrown m);
           EvPostComment repo issueNumber
             ("Failed to create bounty escrow: " +:+ m)
             (fst (postComment repo issueNumber
                     ("Failed to create bounty escrow: " +:+ m) w2))]))) /\
  (forall tx w3,
      createEscrow issueNumber hash amount w1 = (Returned tx, w2) ->
      postComment repo issueNumber
        (MSG_ESCROW_CREATED issueNumber amount (explorerUrl tx)) w2
      = (Returned tt, w3) ->
      exists w' notifications,
        run (handleLabeled this payload) w
        = (Returned tt,
           (w',
            maintainer_events this repo sender ++
            [EvCreateEscrow issueNumber hash amount (Returned tx);
             EvPostComment repo issueNumber
               (MSG_ESCROW_CREATED issueNumber amount (explorerUrl tx))
               (Returned tt)]
            ++ notifications)) /\
        notified (created_notification repo issueNumber sender amount tx)
                 (notificationProviders this) notifications).
Proof.
  intros Hnumber Hrepo Hlabel Hsender Hcleared Hconfig Hamount Hhash.
  rewrite (handleLabeled_cleared _ _ _ _ _ _ _ _ Hnumber Hrepo Hlabel Hsender Hcleared).
  unfold create_bounty, getBountyAmount. rewrite Hconfig.
  destruct (Z.eqb_spec amount 0) as [|_]; [contradiction|].
  unfold post, bind, attempt, lift, external. rewrite Hhash. cbn [fst snd].
  split.
  - intros m Hcreate. rewrite Hcreate. cbn [fst snd].
    destruct (postComment _ _ _ w2) as [r w3]. cbn [fst snd].
    rewrite <- app_assoc. reflexivity.
  - intros tx w3 Hcreate Hpost. rewrite Hcreate. cbn [fst snd].
    rewrite Hpost. cbn [fst snd].
    match goal with
    | |- context [notifyAll this ?data (w3, ?tr)] =>
        destruct (notifyAll_from this data w3 tr) as (w' & ns & Hnotify & Hall);
        rewrite Hnotify
    end.
    exists w', ns. split; [|exact Hall].
    unfold ret. cbn [fst snd]. rewrite <- !app_assoc. reflexivity.
Qed.

End ConfiguredLabel.

(** A label that names a property every object inherits is not ignored:
    the lookup is truthy and the handler goes on to [createEscrow]. *)
Example inherited_label_is_looked_up :
  BountyManager.getBountyAmount FlakyTracker.manager "constructor"
  = Some (Inherited "constructor") /\
  BountyManager.getBountyAmount FlakyTracker.manager "good first issue" = None /\
  BountyManager.getBountyAmount FlakyTracker.manager "bounty-2-sol"
  = Some (Lamports 2000000000).
Proof. vm_compute. repeat split. Qed.

Example inherited_label_reaches_createEscrow :
  map is_payment_call
    (trace_of (run (BountyManager.handleLabeled FlakyTracker.manager
                      (labeled_event 7 "org/repo" "constructor" "maintainer"))
                   (FlakyTracker.with_budget 1)))
  = [false; true; false].
Proof. vm_compute. reflexivity. Qed.

(* ===================================================================== *)
(** * The webhook entry point *)
(* ===================================================================== *)

Example trim_both_ends :
  Webhook.trim ("  /assign " +:+ LF) = "/assign".
Proof. vm_compute. reflexivity. Qed.

Example trim_keeps_inner_space :
  Webhook.trim (LF +:+ "/claim  7xKXtg2C  ") = "/claim  7xKXtg2C".
Proof. vm_compute. reflexivity. Qed.

Example trim_blank : Webhook.trim ("   " +:+ LF) = EmptyString.
Proof. vm_compute. reflexivity. Qed.

Section Router.
Context {W : Type} `{IIssueProvider W} `{IPaymentProvider W} `{JsRuntime}.

(** Without a verified signature the entry point throws at once. *)
Lemma handleWebhook_unverified
  (this : BountyManager.t W) (payload : Webhook.Payload) (signature : string)
  (rawBody : Buffer) (secret : string) (w : W) :
  verifyWebhook rawBody signature secret = Returned true \/
  run (Webhook.handleWebhook this payload signature rawBody secret) w
  = (Thrown match verifyWebhook rawBody signature secret with
            | Thrown e => e
            | Returned _ => "Invalid webhook signature"
            end,
     (w, [])).
Proof.
  unfold Webhook.handleWebhook, run, bind, lift.
  destruct (verifyWebhook rawBody signature secret) as [[|]|e].
  - left. reflexivity.
  - right. reflexivity.
  - right. reflexivity.
Qed.

(** X17. Nothing happens before the signature is verified: either
    [verifyWebhook] answered [true], or [handleWebhook] throws without a
    single provider call and with the world unchanged. It throws
    [Invalid webhook signature] when the verifier answered [false], and the
    verifier's own exception when the verifier threw. *)
Theorem handleWebhook_makes_no_call_unless_verified
  (this : BountyManager.t W) (payload : Webhook.Payload) (signature : string)
  (rawBody : Buffer) (secret : string) (w : W) :
  verifyWebhook rawBody signature secret = Returned true \/
  run (Webhook.handleWebhook this payload signature rawBody secret) w
  = (Thrown match verifyWebhook rawBody signature secret with
            | Thrown e => e
            | Returned _ => "Invalid webhook signature"
            end,
     (w, [])).
Proof. apply handleWebhook_unverified. Qed.

(** What [handleWebhook] does on a verified delivery. *)
Lemma handleWebhook_verified (this : BountyManager.t W) (payload : Webhook.Payload)
  (signature : string) (rawBody : Buffer) (secret : string) :
  verifyWebhook rawBody signature secret = Returned true ->
  Webhook.handleWebhook this payload signature rawBody secret
  = match Webhook.action payload with
    | Some a =>
        if String.eqb a "labeled"
        then BountyManager.handleLabeled this (Webhook.fields payload)
        else if String.eqb a "created" then
          match Webhook.comment payload with
          | Some _ => Webhook.handleComment this payload
          | None => ret tt
          end
        else ret tt
    | None => ret tt
    end.
Proof.
  intros Hverified. unfold Webhook.handleWebhook, bind, lift. rewrite Hverified.
  cbn [negb]. destruct (Webhook.action payload) as [a|]; [|reflexivity].
  destruct (String.eqb a "labeled"); [reflexivity|].
  destruct (String.eqb a "created"); [|reflexivity].
  destruct (Webhook.comment payload); reflexivity.
Qed.

(** What a verified comment delivery with all fields present does. *)
Lemma handleWebhook_comment (this : BountyManager.t W) (repo : string)
  (issueNumber : Z) (commenter text : string) (on_pull_request : bool)
  (signature : string) (rawBody : Buffer) (secret : string) :
  verifyWebhook rawBody signature secret = Returned true ->
  issueNumber <> 0 -> repo <> EmptyString -> commenter <> EmptyString ->
  Webhook.trim text <> EmptyString ->
  Webhook.handleWebhook this
    (comment_event repo issueNumber commenter text on_pull_request)
    signature rawBody secret
  = if String.eqb (Webhook.trim text) "/assign" then
      if on_pull_request
      then BountyManager.post repo issueNumber Webhook.MSG_ASSIGN_ON_PR
      else Webhook.handleAssign this repo issueNumber commenter
    else if Webhook.startsWith (Webhook.trim text) "/claim" then
      if negb on_pull_request
      then BountyManager.post repo issueNumber Webhook.MSG_CLAIM_ON_ISSUE
      else BountyManager.handleClaim this repo issueNumber commenter
             (Webhook.trim text)
    else ret tt.
Proof.
  intros Hverified Hnumber Hrepo Hcommenter Hbody.
  rewrite (handleWebhook_verified _ _ _ _ _ Hverified).
  unfold comment_event, Webhook.handleComment. cbn [Webhook.action Webhook.comment
    Webhook.body Webhook.user_login Webhook.issue_pull_request Webhook.fields
    BountyManager.issue_number BountyManager.repository_full_name option_map
    String.eqb Ascii.eqb Bool.eqb].
  unfold BountyManager.required_text, BountyManager.required_number,
    BountyManager.falsy_text, BountyManager.falsy_number.
  destruct (Webhook.trim text) as [|c body']; [contradiction|].
  destruct commenter as [|c1 commenter']; [contradiction|].
  destruct repo as [|c2 repo']; [contradiction|].
  destruct (Z.eqb_spec issueNumber 0) as [|_]; [contradiction|].
  reflexivity.
Qed.

(** X18. A command in the wrong place only gets guidance: [/assign] on a
    pull request and [/claim] on an issue each lead to exactly one call,
    the comment that explains where the command belongs. Nobody is
    assigned, no validation runs and no escrow operation is called. *)
Theorem misplaced_commands_get_guidance_only
  (this : BountyManager.t W) (repo : string) (issueNumber : Z)
  (commenter text : string) (signature : string) (rawBody : Buffer)
  (secret : string) (w : W) :
  verifyWebhook rawBody signature secret = Returned true ->
  issueNumber <> 0 -> repo <> EmptyString -> commenter <> EmptyString ->
  (Webhook.trim text = "/assign" ->
   run (Webhook.handleWebhook this
          (comment_event repo issueNumber commenter text true)
          signature rawBody secret) w
   = (fst (postComment repo issueNumber Webhook.MSG_ASSIGN_ON_PR w),
      (snd (postComment repo issueNumber Webhook.MSG_ASSIGN_ON_PR w),
       [EvPostComment repo issueNumber Webhook.MSG_ASSIGN_ON_PR
          (fst (postComment repo issueNumber Webhook.MSG_ASSIGN_ON_PR w))]))) /\
  (Webhook.startsWith (Webhook.trim text) "/claim" = true ->
   run (Webhook.handleWebhook this
          (comment_event repo issueNumber commenter text false)
          signature rawBody secret) w
   = (fst (postComment repo issueNumber Webhook.MSG_CLAIM_ON_ISSUE w),
      (snd (postComment repo issueNumber Webhook.MSG_CLAIM_ON_ISSUE w),
       [EvPostComment repo issueNumber Webhook.MSG_CLAIM_ON_ISSUE
          (fst (postComment repo issueNumber Webhook.MSG_CLAIM_ON_ISSUE w))]))).
Proof.
  intros Hverified Hnumber Hrepo Hcommenter. split.
  - intros Hassign.
    rewrite (handleWebhook_comment this repo issueNumber commenter text true
               _ _ _ Hverified Hnumber Hrepo Hcommenter)
      by (rewrite Hassign; discriminate).
    rewrite Hassign. cbn [String.eqb Ascii.eqb Bool.eqb].
    unfold run, BountyManager.post, external. cbn [fst snd].
    destruct (postComment _ _ _ w) as [r w1]. reflexivity.
  - intros Hclaim.
    assert (Hbody : Webhook.trim text <> EmptyString).
    { intros Hempty. rewrite Hempty in Hclaim. discriminate. }
    rewrite (handleWebhook_comment this repo issueNumber commenter text false
               _ _ _ Hverified Hnumber Hrepo Hcommenter Hbody).
    assert (Hnot_assign : String.eqb (Webhook.trim text) "/assign" = false).
    { destruct (String.eqb_spec (Webhook.trim text) "/assign") as [Heq|]; [|reflexivity].
      rewrite Heq in Hclaim. discriminate. }
    rewrite Hnot_assign, Hclaim. cbn [negb].
    unfold run, BountyManager.post, external. cbn [fst snd].
    destruct (postComment _ _ _ w) as [r w1]. reflexivity.
Qed.


(** X20. [/assign] on an issue assigns whoever wrote the comment: the
    first call is [assignIssue] for the commenter, with no eligibility
    check before it. If it throws, the only further call is the comment
    [Failed to assign issue:] with the message. If it returns and the
    confirmation is posted, every notification provider is notified once.
    If the confirmation cannot be posted, the assignment that has happened
    is reported as failed. *)
Theorem assign_command_assigns_the_commenter
  (this : BountyManager.t W) (repo : string) (issueNumber : Z)
  (commenter text : string) (signature : string) (rawBody : Buffer)
  (secret : string) (w w1 : W) :
  verifyWebhook rawBody signature secret = Returned true ->
  issueNumber <> 0 -> repo <> EmptyString -> commenter <> EmptyString ->
  Webhook.trim text = "/assign" ->
  (forall m,
      assignIssue repo issueNumber commenter w = (Thrown m, w1) ->
      trace_of (run (Webhook.handleWebhook this
                       (comment_event repo issueNumber commenter text false)
                       signature rawBody secret) w)
      = [EvAssignIssue repo issueNumber commenter (Thrown m);
         EvPostComment repo issueNumber ("Failed to assign issue: " +:+ m)
           (fst (postComment repo issueNumber
                   ("Failed to assign issue: " +:+ m) w1))]) /\
  (forall w2,
      assignIssue repo issueNumber commenter w = (Returned tt, w1) ->
      postComment repo issueNumber (Webhook.MSG_ASSIGNED commenter) w1
      = (Returned tt, w2) ->
      exists w' notifications,
        run (Webhook.handleWebhook this
               (comment_event repo issueNumber commenter text false)
               signature rawBody secret) w
        = (Returned tt,
           (w',
            [EvAssignIssue repo issueNumber commenter (Returned tt);
             EvPostComment repo issueNumber (Webhook.MSG_ASSIGNED commenter)
               (Returned tt)]
            ++ notifications)) /\
        notified (Webhook.assignment_notification repo issueNumber commenter)
                 (BountyManager.notificationProviders this) notifications) /\
  (forall m w2,
      assignIssue repo issueNumber commenter w = (Returned tt, w1) ->
      postComment repo issueNumber (Webhook.MSG_ASSIGNED commenter) w1
      = (Thrown m, w2) ->
      trace_of (run (Webhook.handleWebhook this
                       (comment_event repo issueNumber commenter text false)
                       signature rawBody secret) w)
      = [EvAssignIssue repo issueNumber commenter (Returned tt);
         EvPostComment repo issueNumber (Webhook.MSG_ASSIGNED commenter) (Thrown m);
         EvPostComment repo issueNumber ("Failed to assign issue: " +:+ m)
           (fst (postComment repo issueNumber
                   ("Failed to assign issue: " +:+ m) w2))]).
Proof.
  intros Hverified Hnumber Hrepo Hcommenter Hassign.
  rewrite (handleWebhook_comment this repo issueNumber commenter text false
             _ _ _ Hverified Hnumber Hrepo Hcommenter)
    by (rewrite Hassign; discriminate).
  rewrite Hassign. cbn [String.eqb Ascii.eqb Bool.eqb].
  unfold Webhook.handleAssign, BountyManager.post, run, trace_of, bind, attempt,
    external.
  cbn [fst snd]. split; [|split].
  - intros m Hcall. rewrite Hcall. cbn [fst snd].
    destruct (postComment _ _ _ w1) as [r w3]. reflexivity.
  - intros w2 Hcall Hpost. rewrite Hcall. cbn [fst snd]. rewrite Hpost.
    cbn [fst snd].
    match goal with
    | |- context [BountyManager.notifyAll this ?data (w2, ?tr)] =>
        destruct (notifyAll_from this data w2 tr) as (w' & ns & Hnotify & Hall);
        rewrite Hnotify
    end.
    exists w', ns. split; [|exact Hall]. reflexivity.
  - intros m w2 Hcall Hpost. rewrite Hcall. cbn [fst snd]. rewrite Hpost.
    cbn [fst snd].
    destruct (postComment _ _ _ w2) as [r w3]. reflexivity.
Qed.

End Router.

(* ===================================================================== *)
(** * Which calls an action can lead to *)
(* ===================================================================== *)

Ltac calls_step :=
  first
    [ apply emits_ret
    | apply emits_throw
    | apply emits_lift
    | apply emits_external; intros; reflexivity
    | apply emits_post; intros; reflexivity
    | apply emits_notifyAll; intros; reflexivity
    | apply emits_attempt
    | apply emits_for_each; intros
    | apply emits_bind; [|intros]
    | match goal with
      | |- emits _ (match ?x with _ => _ end) => destruct x
      | |- emits _ (if ?b then _ else _) => destruct b
      end ].

Section ActionCalls.
Context {W : Type} `{IIssueProvider W} `{IPaymentProvider W} `{JsRuntime}.

Lemma emits_handleLabeled (this : BountyManager.t W) payload :
  emits is_label_call (BountyManager.handleLabeled this payload).
Proof.
  unfold BountyManager.handleLabeled, BountyManager.create_bounty.
  repeat calls_step.
Qed.

Lemma emits_handleClaim (this : BountyManager.t W) repo prNumber commenter commentBody :
  emits is_comment_call
    (BountyManager.handleClaim this repo prNumber commenter commentBody).
Proof.
  unfold BountyManager.handleClaim.
  destruct (BountyManager.required_text _); [|repeat calls_step].
  destruct (parseWalletAddress _); [|repeat calls_step].
  apply emits_bind.
  - apply (emits_weaken is_validation_call); [|apply emits_validateClaim].
    intros [] He; first [reflexivity | discriminate].
  - intros v. destruct (negb (isValid v)); [repeat calls_step|].
    unfold BountyManager.release_and_report. repeat calls_step.
Qed.

Lemma emits_handleComment (this : BountyManager.t W) payload :
  emits is_comment_call (Webhook.handleComment this payload).
Proof.
  unfold Webhook.handleComment, Webhook.handleAssign.
  repeat first [apply emits_handleClaim | calls_step].
Qed.

(** X21. The two actions are kept apart. A [labeled] delivery leads only to
    the maintainer check, [createEscrow], comments and notifications: it
    never assigns anybody and never releases an escrow. Every other
    delivery never checks a maintainer and never creates an escrow. *)
Theorem actions_are_kept_apart
  (this : BountyManager.t W) (payload : Webhook.Payload) (signature : string)
  (rawBody : Buffer) (secret : string) (w : W) :
  forallb (call_allowed_for (Webhook.action payload))
    (trace_of (run (Webhook.handleWebhook this payload signature rawBody secret) w))
  = true.
Proof.
  apply emits_run. unfold Webhook.handleWebhook, call_allowed_for.
  apply emits_bind; [apply emits_lift|]. intros isValid.
  destruct (negb isValid); [apply emits_throw|].
  destruct (Webhook.action payload) as [a|]; [|apply emits_ret].
  destruct (String.eqb a "labeled"); [apply emits_handleLabeled|].
  destruct (String.eqb a "created"); [|apply emits_ret].
  destruct (Webhook.comment payload); [apply emits_handleComment|apply emits_ret].
Qed.

End ActionCalls.

(* ===================================================================== *)
(** * The HTTP route *)
(* ===================================================================== *)

Section Route.
Context {W : Type} `{IIssueProvider W} `{IPaymentProvider W} `{JsRuntime}.
Import WebhookRoute.

(** X22. The route always answers, with one of four statuses. It answers
    200 only when the raw body and a signature were present, the verifier
    answered [true] and the manager returned; and it makes no provider
    call at all unless the verifier answered [true]. *)
Theorem route_answers_200_only_for_verified_deliveries
  (bountyManager : BountyManager.t W) (rawBody : option Buffer)
  (signature : option string) (body : Webhook.Payload) (secret : string) (w : W) :
  exists response,
    result_of (run (post_webhook bountyManager rawBody signature body secret) w)
    = Returned response /\
    In (status response) [200; 400; 401; 500] /\
    (status response = 200 \/
     trace_of (run (post_webhook bountyManager rawBody signature body secret) w) <> [] ->
     exists raw sig,
       rawBody = Some raw /\ signature = Some sig /\ sig <> EmptyString /\
       verifyWebhook raw sig secret = Returned true /\
       (status response = 200 ->
        result_of (run (Webhook.handleWebhook bountyManager body sig raw secret) w)
        = Returned tt)).
Proof.
  unfold post_webhook.
  destruct rawBody as [raw|].
  2:{ eexists. split; [reflexivity|]. cbn. split; [auto|].
      intros [Hstatus|Htrace]; [discriminate|contradiction]. }
  unfold BountyManager.required_text, BountyManager.falsy_text.
  destruct signature as [[|c sig]|].
  1,3: eexists; (split; [reflexivity|]); cbn; (split; [auto|]);
       intros [Hstatus|Htrace]; [discriminate|contradiction].
  unfold run, bind, attempt, result_of, trace_of.
  destruct (handleWebhook_unverified bountyManager body
              (String c sig) raw secret w) as [Hverified|Hrejected].
  - destruct (Webhook.handleWebhook bountyManager body (String c sig) raw secret
                (w, [])) as [[[]|message] [w1 tr1]] eqn:Hcall.
    + eexists. split; [reflexivity|]. cbn [status In fst snd]. split; [auto|].
      intros _. exists raw, (String c sig).
      split; [reflexivity|]. split; [reflexivity|].
      split; [discriminate|]. split; [exact Hverified|].
      intros _. rewrite Hcall. reflexivity.
    + destruct (includes message "Invalid webhook signature");
        [|destruct (includes message "Missing required fields")];
        (eexists; split; [reflexivity|]; cbn; split; [auto 6|]);
        intros _; exists raw, (String c sig);
        (split; [reflexivity|]); (split; [reflexivity|]);
        (split; [discriminate|]); (split; [exact Hverified|]);
        intros Hstatus; discriminate.
  - unfold run in Hrejected. rewrite Hrejected.
    destruct (includes _ "Invalid webhook signature");
      [|destruct (includes _ "Missing required fields")];
      (eexists; split; [reflexivity|]; cbn; split; [auto 6|]);
      intros [Hstatus|Htrace]; first [discriminate | contradiction].
Qed.

End Route.

Section RouteWithGitHubVerifier.
Context {W : Type} `{NodeCrypto} `{IIssueProvider W} `{IPaymentProvider W}
  `{JsRuntime}.
Import WebhookRoute.

(** X23. With the verifier of the GitHub provider, the status of a bad
    signature depends on its length. A signature header that is not 71
    bytes long makes the verifier throw, and the route answers 500
    [Internal Server Error], not 401; a header of 71 bytes that differs
    from the expected one is answered 401. Neither makes a provider
    call. *)
Theorem route_status_of_a_bad_signature
  (bountyManager : BountyManager.t W) (raw : Buffer) (sig : string)
  (body : Webhook.Payload) (secret : string) (w : W) :
  (forall b s k, verifyWebhook b s k = snd (Crypto.verifyGitHubSignature b s k)) ->
  sig <> EmptyString -> secret <> EmptyString ->
  sig <> Crypto.sign raw secret ->
  run (post_webhook bountyManager (Some raw) (Some sig) body secret) w
  = (Returned
       (if Nat.eqb (String.length sig) 71
        then {| status := 401; json := error "Unauthorized: Invalid signature" |}
        else {| status := 500; json := error "Internal Server Error" |}),
     (w, [])).
Proof.
  intros Hprovider Hsig Hsecret Hdiffers.
  unfold post_webhook, BountyManager.required_text, BountyManager.falsy_text.
  destruct sig as [|c sig']; [contradiction|].
  unfold run, bind, attempt.
  destruct (handleWebhook_unverified bountyManager body (String c sig') raw secret w)
    as [Hverified|Hrejected].
  - exfalso. rewrite Hprovider in Hverified.
    unfold Crypto.verifyGitHubSignature in Hverified.
    destruct secret as [|d secret']; [contradiction|].
    cbn [Crypto.falsy_string orb snd] in Hverified.
    unfold Crypto.timingSafeEqual in Hverified.
    destruct (Nat.eqb _ _); [|discriminate].
    injection Hverified as Hequal. apply bool_decide_eq_true in Hequal.
    apply Buffer_from_string_inj in Hequal. apply Hdiffers. exact Hequal.
  - unfold run in Hrejected. rewrite Hrejected. cbn [fst snd].
    rewrite Hprovider.
    destruct (Nat.eqb_spec (String.length (String c sig')) 71) as [Hlength|Hlength].
    + unfold Crypto.verifyGitHubSignature.
      destruct secret as [|d secret']; [contradiction|].
      cbn [Crypto.falsy_string orb snd]. unfold Crypto.timingSafeEqual.
      rewrite expected_length, Buffer_from_string_length, Hlength.
      cbn [Nat.eqb]. reflexivity.
    + rewrite (verify_throws_on_length raw (String c sig') secret Hsig Hsecret Hlength).
      reflexivity.
Qed.

End RouteWithGitHubVerifier.

(* ===================================================================== *)
(** * Issue queries of the tracker *)
(* ===================================================================== *)

Section Queries.
Context {W : Type} `{GitHubRest W}.
Import GitHubQueries.

(** The one request of [checkIsMaintainer] and its answer. *)
Lemma checkIsMaintainer_run (repository username : string) (w : W) :
  exists b,
    run (checkIsMaintainer repository username) w
    = (Returned b,
       (snd (requestPermission repository username w),
        [EvRequestPermission repository username
           (fst (requestPermission repository username w))])) /\
    (b = true <->
     fst (requestPermission repository username w) = Returned "admin" \/
     fst (requestPermission repository username w) = Returned "maintain").
Proof.
  unfold checkIsMaintainer, run, bind, attempt, external, ret. cbn [fst snd app].
  destruct (requestPermission repository username w) as [[permission|m] w1];
    cbn [fst snd].
  - eexists. split; [reflexivity|]. rewrite orb_true_iff, !String.eqb_eq.
    split.
    + intros [->| ->]; auto.
    + intros [Heq|Heq]; injection Heq as ->; auto.
  - exists false. split; [reflexivity|]. split; [discriminate|].
    intros [Heq|Heq]; discriminate.
Qed.

(** X24. [checkIsMaintainer] fails closed. It makes exactly one request
    and never throws; it answers [true] only when the request returned the
    permission [admin] or [maintain], and [false] for every other
    permission and for every failure of the request. *)
Theorem checkIsMaintainer_fails_closed (repository username : string) (w : W) :
  exists b,
    run (checkIsMaintainer repository username) w
    = (Returned b,
       (snd (requestPermission repository username w),
        [EvRequestPermission repository username
           (fst (requestPermission repository username w))])) /\
    (b = true <->
     fst (requestPermission repository username w) = Returned "admin" \/
     fst (requestPermission repository username w) = Returned "maintain").
Proof. apply checkIsMaintainer_run. Qed.

(** X25. [wasUserEverAssigned] throws only when the issue cannot be
    fetched, and then with [Failed to get issue:] and no timeline request.
    A user among the current assignees is answered [true] without a
    timeline request. Otherwise the answer is [true] exactly when the
    timeline was fetched and has an [assigned] event for that user; a
    timeline that cannot be fetched counts as never assigned. *)
Theorem wasUserEverAssigned_answers (repository : string) (issueNumber : Z)
  (username : string) (w : W) :
  (forall m w1,
      requestIssue repository issueNumber w = (Thrown m, w1) ->
      run (wasUserEverAssigned repository issueNumber username) w
      = (Thrown ("Failed to get issue: " +:+ m),
         (w1, [EvRequestIssue repository issueNumber (Thrown m)]))) /\
  (forall issue w1,
      requestIssue repository issueNumber w = (Returned issue, w1) ->
      In username (Issue.assignees issue) ->
      run (wasUserEverAssigned repository issueNumber username) w
      = (Returned true,
         (w1, [EvRequestIssue repository issueNumber (Returned issue)]))) /\
  (forall issue w1,
      requestIssue repository issueNumber w = (Returned issue, w1) ->
      ~ In username (Issue.assignees issue) ->
      exists b,
        run (wasUserEverAssigned repository issueNumber username) w
        = (Returned b,
           (snd (requestTimeline repository issueNumber w1),
            [EvRequestIssue repository issueNumber (Returned issue);
             EvRequestTimeline repository issueNumber
               (fst (requestTimeline repository issueNumber w1))])) /\
        (b = true <->
         exists events e,
           fst (requestTimeline repository issueNumber w1) = Returned events /\
           In e events /\ event e = "assigned" /\
           assignee_login e = Some username)).
Proof.
  assert (Hcurrent : forall names,
             existsb (String.eqb username) names = true <-> In username names).
  { intros names. rewrite existsb_exists. split.
    - intros (x & Hin & Heq). apply String.eqb_eq in Heq. subst x. exact Hin.
    - intros Hin. exists username. split; [exact Hin|apply String.eqb_refl]. }
  unfold wasUserEverAssigned, getIssue, run, bind, attempt, external, ret, throw.
  cbn [fst snd app].
  split; [|split].
  - intros m w1 Hissue. rewrite Hissue. reflexivity.
  - intros issue w1 Hissue Hin. rewrite Hissue. cbn [fst snd].
    apply Hcurrent in Hin. rewrite Hin. reflexivity.
  - intros issue w1 Hissue Hnotin. rewrite Hissue. cbn [fst snd].
    destruct (existsb (String.eqb username) (Issue.assignees issue)) eqn:Hassigned.
    { apply Hcurrent in Hassigned. contradiction. }
    cbn [fst snd app].
    destruct (requestTimeline repository issueNumber w1) as [[events|m] w2];
      cbn [fst snd].
    + eexists. split; [reflexivity|].
      rewrite Nat.ltb_lt. split.
      * intros Hlength.
        destruct (List.filter (is_assignment_of username) events) as [|e rest] eqn:Hfilter;
          [cbn in Hlength; lia|].
        assert (Hin : In e (List.filter (is_assignment_of username) events))
          by (rewrite Hfilter; left; reflexivity).
        apply filter_In in Hin as [Hin He].
        unfold is_assignment_of in He. apply andb_prop in He as [Hevent Hlogin].
        exists events, e. split; [reflexivity|]. split; [exact Hin|].
        apply String.eqb_eq in Hevent. split; [exact Hevent|].
        destruct (assignee_login e) as [login|]; [|discriminate].
        apply String.eqb_eq in Hlogin. subst login. reflexivity.
      * intros (events' & e & Hevents & Hin & Hevent & Hlogin).
        injection Hevents as <-.
        assert (Hfiltered : In e (List.filter (is_assignment_of username) events)).
        { apply filter_In. split; [exact Hin|].
          unfold is_assignment_of. rewrite Hevent, Hlogin.
          rewrite !String.eqb_refl. reflexivity. }
        destruct (List.filter (is_assignment_of username) events);
          [contradiction|cbn; lia].
    + exists false. split; [reflexivity|]. split; [discriminate|].
      intros (events & e & Hevents & _). discriminate.
Qed.

End Queries.

Section PermissionLookup.
Context {W : Type} `{GitHubRest W} `{IIssueProvider W} `{IPaymentProvider W}
  `{JsRuntime}.
Import BountyManager.

(** X26. With the maintainer check of the GitHub provider required,
    nobody creates a bounty unless the permission request returns [admin]
    or [maintain]: for any other permission, and when the request fails,
    [handleLabeled] only posts [Only repository maintainers can create
    bounties.] and never calls [createEscrow]. *)
Theorem bounty_creation_needs_a_confirmed_maintainer
  (this : t W) (payload : WebhookPayload) (issueNumber : Z)
  (repo label sender : string) (w : W) :
  (forall repository username,
      checkIsMaintainer repository username
      = GitHubQueries.awaited (GitHubQueries.checkIsMaintainer repository username)) ->
  maintainer_required (securityConfig this) = true ->
  required_number (issue_number payload) = Some issueNumber ->
  required_text (repository_full_name payload) = Some repo ->
  required_text (label_name payload) = Some label ->
  required_text (sender_login payload) = Some sender ->
  fst (requestPermission repo sender w) <> Returned "admin" ->
  fst (requestPermission repo sender w) <> Returned "maintain" ->
  trace_of (run (handleLabeled this payload) w)
  = [EvCheckIsMaintainer repo sender (Returned false);
     EvPostComment repo issueNumber MSG_MAINTAINERS_ONLY
       (fst (postComment repo issueNumber MSG_MAINTAINERS_ONLY
               (snd (requestPermission repo sender w))))].
Proof.
  unfold handleLabeled.
  intros Hprovider Hrequired -> -> -> -> Hadmin Hmaintain. rewrite Hrequired.
  unfold run, trace_of, bind, external, post. cbn [fst snd app].
  rewrite Hprovider. unfold GitHubQueries.awaited.
  destruct (checkIsMaintainer_run repo sender w) as (b & Hrun & Hb).
  rewrite Hrun. unfold result_of, world_of. cbn [fst snd].
  destruct b.
  - exfalso. destruct (proj1 Hb eq_refl); contradiction.
  - unfold external. cbn [fst snd app].
    destruct (postComment _ _ _ _) as [r w2]. reflexivity.
Qed.

End PermissionLookup.

(* ===================================================================== *)
(** * The handlers on the sample trackers *)
(* ===================================================================== *)

Lemma failed_release_witness :
  posted_comments
    (trace_of (run (BountyManager.handleClaim SampleWorld.manager "org/repo" 50
                      "alice" "/claim 7xKXtg2C") unfunded_world))
  = [(50, "Failed to release bounty: Escrow does not exist for this issue")].
Proof.
  epose proof (failed_release_is_only_reported (W:=SampleWorld.world)
     SampleWorld.manager "org/repo" 50 "alice" "/claim 7xKXtg2C" 77
     _ _ _ _ unfunded_world _ _ _ eq_refl eq_refl eq_refl eq_refl eq_refl eq_refl)
    as Hrun.
  rewrite Hrun. vm_compute. reflexivity.
Defined.

Lemma successful_release_witness :
  result_of (run (BountyManager.handleClaim FlakyTracker.manager "org/repo" 50
                    "alice" "/claim 7xKXtg2C") (FlakyTracker.with_budget 2))
  = Returned tt.
Proof.
  edestruct (successful_release_is_confirmed_and_announced (W:=FlakyTracker.world)
     (H:=FlakyTracker.tracker) (H0:=FlakyTracker.payments)
     FlakyTracker.manager "org/repo" 50 "alice" "/claim 7xKXtg2C" 77
     _ _ _ _ (FlakyTracker.with_budget 2) _ _ _ _ _
     eq_refl eq_refl eq_refl eq_refl eq_refl eq_refl eq_refl eq_refl)
    as (w' & notifications & Hrun & _).
  rewrite Hrun. reflexivity.
Defined.

Lemma unposted_confirmation_witness :
  last (trace_of (run (BountyManager.handleClaim FlakyTracker.manager "org/repo" 50
                         "alice" "/claim 7xKXtg2C") (FlakyTracker.with_budget 1)))
  = Some (EvPostComment "org/repo" 50
            "Failed to release bounty: Failed to post comment: rate limit exceeded"
            (Thrown "Failed to post comment: rate limit exceeded")).
Proof.
  epose proof (unposted_confirmation_is_reported_as_failed_release
     (W:=FlakyTracker.world) (H:=FlakyTracker.tracker) (H0:=FlakyTracker.payments)
     FlakyTracker.manager "org/repo" 50 "alice" "/claim 7xKXtg2C" 77
     _ _ _ _ _ (FlakyTracker.with_budget 1) _ _ _ _ _
     eq_refl eq_refl eq_refl eq_refl eq_refl eq_refl) as [_ Hmarker].
  rewrite (Hmarker eq_refl eq_refl). vm_compute. reflexivity.
Defined.

Lemma handleClaim_throws_witness :
  exists ev,
    last (trace_of (run (BountyManager.handleClaim FlakyTracker.manager "org/repo"
                           50 "alice" "/claim") (FlakyTracker.with_budget 0)))
    = Some ev /\
    is_failed_post "Failed to post comment: rate limit exceeded" ev = true.
Proof.
  apply (handleClaim_throws_only_when_a_comment_fails (W:=FlakyTracker.world)
           FlakyTracker.manager "org/repo" 50 "alice" "/claim"
           (FlakyTracker.with_budget 0)).
  vm_compute. reflexivity.
Defined.

Lemma handleLabeled_throws_witness :
  run (BountyManager.handleLabeled FlakyTracker.manager unlabeled_event)
      (FlakyTracker.with_budget 0)
  = (Thrown "Missing required fields in labeled event",
     (FlakyTracker.with_budget 0, [])).
Proof.
  destruct (handleLabeled_throws_only_three_ways (W:=FlakyTracker.world)
              FlakyTracker.manager unlabeled_event (FlakyTracker.with_budget 0)
              "Missing required fields in labeled event" eq_refl)
    as [[_ Hrun]|(ev & Hlast & _)].
  - exact Hrun.
  - vm_compute in Hlast. discriminate.
Defined.

Lemma configured_label_witness :
  map is_payment_call
    (trace_of (run (BountyManager.handleLabeled FlakyTracker.manager
                      (labeled_event 7 "org/repo" "bounty-2-sol" "maintainer"))
                   (FlakyTracker.with_budget 1)))
  = [false; true; false].
Proof.
  epose proof (handleLabeled_creates_the_configured_escrow (W:=FlakyTracker.world)
     (H:=FlakyTracker.tracker) (H0:=FlakyTracker.payments)
     FlakyTracker.manager (labeled_event 7 "org/repo" "bounty-2-sol" "maintainer")
     7 "org/repo" "bounty-2-sol" "maintainer" 2000000000 _
     (FlakyTracker.with_budget 1) _ _
     eq_refl eq_refl eq_refl eq_refl eq_refl eq_refl _ eq_refl) as [Hfailed _].
  rewrite (Hfailed _ eq_refl). vm_compute. reflexivity.
  Unshelve. discriminate.
Defined.

Lemma misplaced_commands_witness :
  trace_of (run (Webhook.handleWebhook FlakyTracker.manager
                   (comment_event "org/repo" 42 "alice" " /claim 7xKXtg2C " false)
                   sample_signature sample_body sample_secret)
                (FlakyTracker.with_budget 1))
  = [EvPostComment "org/repo" 42 Webhook.MSG_CLAIM_ON_ISSUE (Returned tt)].
Proof.
  assert (Hnumber : 42 <> 0) by discriminate.
  assert (Hrepo : "org/repo" <> EmptyString) by discriminate.
  assert (Hcommenter : "alice" <> EmptyString) by discriminate.
  destruct (misplaced_commands_get_guidance_only (W:=FlakyTracker.world)
              (H:=FlakyTracker.tracker) (H0:=FlakyTracker.payments)
              FlakyTracker.manager "org/repo" 42 "alice" " /claim 7xKXtg2C "
              sample_signature sample_body sample_secret
              (FlakyTracker.with_budget 1) eq_refl Hnumber Hrepo Hcommenter)
    as [_ Hclaim].
  rewrite (Hclaim eq_refl). reflexivity.
Defined.


Lemma assign_command_witness :
  trace_of (run (Webhook.handleWebhook FlakyTracker.manager
                   (comment_event "org/repo" 7 "mallory" "/assign" false)
                   sample_signature sample_body sample_secret)
                (FlakyTracker.with_budget 1))
  = [EvAssignIssue "org/repo" 7 "mallory" (Thrown "Failed to assign issue: Not Found");
     EvPostComment "org/repo" 7
       "Failed to assign issue: Failed to assign issue: Not Found" (Returned tt)].
Proof.
  assert (Hnumber : 7 <> 0) by discriminate.
  assert (Hrepo : "org/repo" <> EmptyString) by discriminate.
  assert (Hcommenter : "mallory" <> EmptyString) by discriminate.
  destruct (assign_command_assigns_the_commenter (W:=FlakyTracker.world)
              (H:=FlakyTracker.tracker) (H0:=FlakyTracker.payments)
              FlakyTracker.manager "org/repo" 7 "mallory" "/assign"
              sample_signature sample_body sample_secret
              (FlakyTracker.with_budget 1) (FlakyTracker.with_budget 1)
              eq_refl Hnumber Hrepo Hcommenter eq_refl)
    as (Hfailed & _ & _).
  rewrite (Hfailed _ eq_refl). reflexivity.
Defined.

Lemma bad_signature_witness :
  run (WebhookRoute.post_webhook FlakyTracker.manager (Some sample_body)
         (Some "sha256=00") (comment_event "org/repo" 42 "alice" "/assign" false)
         sample_secret)
      (FlakyTracker.with_budget 1)
  = (Returned {| WebhookRoute.status := 500;
                 WebhookRoute.json := WebhookRoute.error "Internal Server Error" |},
     (FlakyTracker.with_budget 1, [])).
Proof.
  assert (Hsig : "sha256=00" <> EmptyString) by discriminate.
  assert (Hsecret : sample_secret <> EmptyString) by discriminate.
  assert (Hdiffers : "sha256=00"
                     <> Crypto.sign (H:=SampleCrypto.sample_crypto) sample_body
                          sample_secret) by discriminate.
  exact (route_status_of_a_bad_signature (W:=FlakyTracker.world)
           (H:=SampleCrypto.sample_crypto) (H0:=FlakyTracker.tracker)
           (H1:=FlakyTracker.payments)
           FlakyTracker.manager sample_body "sha256=00"
           (comment_event "org/repo" 42 "alice" "/assign" false) sample_secret
           (FlakyTracker.with_budget 1) (fun _ _ _ => eq_refl) Hsig Hsecret Hdiffers).
Defined.

Lemma unconfirmed_maintainer_witness :
  trace_of (run (BountyManager.handleLabeled FlakyTracker.manager
                   (labeled_event 42 "org/repo" "bounty-2-sol" "maintainer"))
                (FlakyTracker.offline 1))
  = [EvCheckIsMaintainer "org/repo" "maintainer" (Returned false);
     EvPostComment "org/repo" 42 BountyManager.MSG_MAINTAINERS_ONLY (Returned tt)].
Proof.
  assert (Hadmin : fst (requestPermission "org/repo" "maintainer"
                          (FlakyTracker.offline 1)) <> Returned "admin")
    by discriminate.
  assert (Hmaintain : fst (requestPermission "org/repo" "maintainer"
                             (FlakyTracker.offline 1)) <> Returned "maintain")
    by discriminate.
  exact (bounty_creation_needs_a_confirmed_maintainer (W:=FlakyTracker.world)
           (H:=FlakyTracker.rest) (H0:=FlakyTracker.tracker)
           (H1:=FlakyTracker.payments)
           FlakyTracker.manager
           (labeled_event 42 "org/repo" "bounty-2-sol" "maintainer")
           42 "org/repo" "bounty-2-sol" "maintainer" (FlakyTracker.offline 1)
           (fun _ _ => eq_refl) eq_refl eq_refl eq_refl eq_refl eq_refl
           Hadmin Hmaintain).
Defined.
